(** * Portwatcher Listener API: the ingestion endpoints and the append writer

    A shallow embedding of [listner-api/app/main.py].  Python text is a
    list of Unicode code points, the handlers run in a small state and
    exception monad over a [World] that holds the clock, the log
    destination and the error stream, and the two library calls whose
    result depends on arbitrary request bytes ([Request.json] and
    [bytes.decode("utf-8", errors="replace")]) are parameters of the
    handlers.  One request is run at a time: the interleaving of
    concurrent requests is outside this development. *)

From Stdlib Require Import String Ascii.
From Stdlib Require Import List NArith Lia Bool.
Import ListNotations.

Local Open Scope N_scope.
Local Open Scope list_scope.

(** ** Python text *)

Module PyStr.

Definition codepoint := N.
Definition str := list codepoint.

(** A literal of the source, read as a [str]. *)
Definition lit (s : string) : str := map N_of_ascii (list_ascii_of_string s).

Fixpoint eqb (a b : str) : bool :=
  match a, b with
  | [], [] => true
  | x :: a', y :: b' => N.eqb x y && eqb a' b'
  | _, _ => false
  end.

(** [str.isspace] on one character: the table of
    [_PyUnicode_IsWhitespace]. *)
Definition isspace (c : codepoint) : bool :=
  ((9 <=? c) && (c <=? 13)) || ((28 <=? c) && (c <=? 32))
  || (c =? 133) || (c =? 160) || (c =? 5760)
  || ((8192 <=? c) && (c <=? 8202))
  || (c =? 8232) || (c =? 8233) || (c =? 8239) || (c =? 8287)
  || (c =? 12288).

Fixpoint lstrip (s : str) : str :=
  match s with
  | [] => []
  | c :: s' => if isspace c then lstrip s' else s
  end.

Definition rstrip (s : str) : str := rev (lstrip (rev s)).

(** [s.strip()] *)
Definition strip (s : str) : str := rstrip (lstrip s).

(** [s.split(sep)[0]] for a one-character separator: the text before
    the first [sep], the whole text when there is none. *)
Fixpoint split_head (sep : codepoint) (s : str) : str :=
  match s with
  | [] => []
  | c :: s' => if c =? sep then [] else c :: split_head sep s'
  end.

(** [str.lower] on one character.  Header values reach the handler
    decoded as Latin-1, so the table stops at code point 255; a code
    point above is left as it is. *)
Definition lower_char (c : codepoint) : codepoint :=
  if (65 <=? c) && (c <=? 90) then c + 32
  else if (192 <=? c) && (c <=? 222) && negb (c =? 215) then c + 32
  else c.

Definition lower (s : str) : str := map lower_char s.

Definition newline : codepoint := 10.

(** Number of line terminators in a text: the line count of a file
    whose every line is newline-terminated. *)
Definition count_lines (s : str) : nat := count_occ N.eq_dec s newline.

End PyStr.
Import PyStr.

(** ** [datetime] and [isoformat] *)

Record datetime := mk_datetime {
  year : N; month : N; day : N;
  hour : N; minute : N; second : N; microsecond : N
}.

(** The ranges [datetime] enforces on its fields. *)
Definition valid_datetime (d : datetime) : bool :=
  (1 <=? year d) && (year d <=? 9999)
  && (1 <=? month d) && (month d <=? 12)
  && (1 <=? day d) && (day d <=? 31)
  && (hour d <=? 23) && (minute d <=? 59) && (second d <=? 59)
  && (microsecond d <=? 999999).

Definition digit_char (n : N) : codepoint := 48 + n.

(** Decimal digits of [n], most significant first. *)
Fixpoint digits_fuel (fuel : nat) (n : N) : str :=
  match fuel with
  | O => []
  | S fuel' =>
      (if n <? 10 then [] else digits_fuel fuel' (n / 10))
      ++ [digit_char (n mod 10)]
  end.

Definition digits (n : N) : str := digits_fuel (S (N.to_nat (N.log2 n))) n.

(** [int(s)] for a text of decimal digits. *)
Definition int_of_digits (s : str) : N :=
  fold_left (fun acc c => acc * 10 + (c - 48)) s 0.

(** ["%0<width>d" % n] for a non-negative [n]. *)
Definition zpad (width : nat) (n : N) : str :=
  let ds := digits n in
  repeat (digit_char 0) (width - length ds) ++ ds.

(** [_format_time] with [timespec='auto']. *)
Definition format_time (d : datetime) : str :=
  zpad 2 (hour d) ++ lit ":" ++ zpad 2 (minute d) ++ lit ":" ++ zpad 2 (second d)
  ++ (if microsecond d =? 0 then [] else lit "." ++ zpad 6 (microsecond d)).

(** [d.isoformat()] of a naive [datetime]. *)
Definition isoformat (d : datetime) : str :=
  zpad 4 (year d) ++ lit "-" ++ zpad 2 (month d) ++ lit "-" ++ zpad 2 (day d)
  ++ lit "T" ++ format_time d.

Definition is_digit (c : codepoint) : bool := (48 <=? c) && (c <=? 57).

(** The shape of an ISO-8601 date and time with a trailing [Z]:
    [YYYY-MM-DDTHH:MM:SS], an optional [.ffffff], then [Z]. *)
Definition iso8601_z (s : str) : Prop :=
  exists y mo d h mi sec frac,
    s = y ++ lit "-" ++ mo ++ lit "-" ++ d ++ lit "T"
          ++ h ++ lit ":" ++ mi ++ lit ":" ++ sec ++ frac ++ lit "Z"
    /\ forallb is_digit (y ++ mo ++ d ++ h ++ mi ++ sec) = true
    /\ length y = 4%nat /\ length mo = 2%nat /\ length d = 2%nat
    /\ length h = 2%nat /\ length mi = 2%nat /\ length sec = 2%nat
    /\ (frac = [] \/
        exists f, frac = lit "." ++ f /\ forallb is_digit f = true
                  /\ length f = 6%nat).

(** ** JSON values and Python dictionaries *)

(** The values [json.loads] returns.  A number is kept as the text
    [json.dumps] gives it ([int.__repr__], [float.__repr__], [NaN],
    [Infinity], [-Infinity]): the handlers never compute with one. *)
#[local] Unset Elimination Schemes.
Inductive json : Type :=
| JNull
| JBool (b : bool)
| JNum (text : str)
| JStr (s : str)
| JArr (items : list json)
| JObj (members : list (str * json)).
#[local] Set Elimination Schemes.

(** A [dict] with text keys: the items in insertion order. *)
Definition dict (V : Type) := list (str * V).

Fixpoint dict_get {V} (k : str) (d : dict V) : option V :=
  match d with
  | [] => None
  | (k', v) :: d' => if PyStr.eqb k' k then Some v else dict_get k d'
  end.

(** [d[k] = v]: a present key keeps its place and takes the new value,
    a new key goes last. *)
Fixpoint dict_set {V} (k : str) (v : V) (d : dict V) : dict V :=
  match d with
  | [] => [(k, v)]
  | (k', v') :: d' =>
      if PyStr.eqb k' k then (k', v) :: d' else (k', v') :: dict_set k v d'
  end.

(** [d.update(items)], also what [**items] does inside a display. *)
Definition dict_update {V} (d : dict V) (items : list (str * V)) : dict V :=
  fold_left (fun acc kv => dict_set (fst kv) (snd kv) acc) items d.

Definition dict_keys {V} (d : dict V) : list str := map fst d.

(** ** [json.dumps] with [separators=(",", ":")] *)

Definition hex_digit (n : N) : codepoint :=
  if n <? 10 then 48 + n else 87 + n.

(** ['{0:04x}'.format(n)], for the [n] below [0x10000] the encoder
    formats. *)
Definition format_04x (n : N) : str :=
  [ hex_digit (N.land (N.shiftr n 12) 15); hex_digit (N.land (N.shiftr n 8) 15);
    hex_digit (N.land (N.shiftr n 4) 15); hex_digit (N.land n 15) ].

(** The replacement [py_encode_basestring_ascii] makes for one
    character: [ESCAPE_ASCII] matches a quote, a backslash and whatever
    lies outside [' '..'~']. *)
Definition quote : codepoint := 34.
Definition backslash : codepoint := 92.

Definition escape_char (c : codepoint) : str :=
  if c =? quote then [backslash; quote]
  else if c =? backslash then [backslash; backslash]
  else if (32 <=? c) && (c <=? 126) then [c]
  else if c =? 8 then lit "\b"
  else if c =? 12 then lit "\f"
  else if c =? 10 then lit "\n"
  else if c =? 13 then lit "\r"
  else if c =? 9 then lit "\t"
  else if c <? 65536 then lit "\u" ++ format_04x c
  else
    let n := c - 65536 in
    let s1 := N.lor 55296 (N.land (N.shiftr n 10) 1023) in
    let s2 := N.lor 56320 (N.land n 1023) in
    lit "\u" ++ format_04x s1 ++ lit "\u" ++ format_04x s2.

Definition encode_basestring_ascii (s : str) : str :=
  [quote] ++ flat_map escape_char s ++ [quote].

(** [sep.join(parts)] *)
Fixpoint join (sep : str) (parts : list str) : str :=
  match parts with
  | [] => []
  | [p] => p
  | p :: ps => p ++ sep ++ join sep ps
  end.

Fixpoint json_dumps (v : json) : str :=
  match v with
  | JNull => lit "null"
  | JBool true => lit "true"
  | JBool false => lit "false"
  | JNum text => text
  | JStr s => encode_basestring_ascii s
  | JArr items => lit "[" ++ join (lit ",") (map json_dumps items) ++ lit "]"
  | JObj members =>
      lit "{"
      ++ join (lit ",")
           (map (fun kv => encode_basestring_ascii (fst kv) ++ lit ":"
                           ++ json_dumps (snd kv)) members)
      ++ lit "}"
  end.

(** ** The world a handler runs in *)

(** The log destination [LOG_FILE]: its text, and the way an append
    to it fails, if it does.  [Some (n, msg)]: the append leaves the
    first [n] characters of its text in the file and raises [msg]
    ([n] is 0 when the file cannot be opened: a missing directory, a
    permission; it may be more when the disk fills up). *)
Record World := mk_world {
  clock : datetime;           (* what [datetime.utcnow()] reads *)
  log_text : str;             (* the content of [LOG_FILE] *)
  write_fault : option (nat * str);
  stderr : list str           (* the lines printed to [sys.stderr] *)
}.

Inductive exn : Type :=
| OSError (msg : str)
| JSONDecodeError
| TypeError (msg : str).

(** [str(exc)] *)
Definition exn_str (e : exn) : str :=
  match e with
  | OSError msg => msg
  | JSONDecodeError => lit "Expecting value"
  | TypeError msg => msg
  end.

Inductive outcome (A : Type) : Type :=
| Returned (a : A)
| Raised (e : exn).
Arguments Returned {A} a.
Arguments Raised {A} e.

(** State and exceptions: a computation maps the world to an outcome
    and the world it leaves. *)
Definition M (A : Type) : Type := World -> outcome A * World.

Definition ret {A} (a : A) : M A := fun w => (Returned a, w).

Definition bind {A B} (c : M A) (k : A -> M B) : M B :=
  fun w =>
    match c w with
    | (Returned a, w') => k a w'
    | (Raised e, w') => (Raised e, w')
    end.

Definition raise {A} (e : exn) : M A := fun w => (Raised e, w).

(** [try: c  except Exception as exc: h exc] *)
Definition try_except {A} (c : M A) (h : exn -> M A) : M A :=
  fun w =>
    match c w with
    | (Returned a, w') => (Returned a, w')
    | (Raised e, w') => h e w'
    end.

Declare Scope py_scope.
Delimit Scope py_scope with py.
Notation "x <- c ;; k" := (bind c (fun x => k))
  (at level 61, c at next level, right associativity) : py_scope.
Notation "c ;; k" := (bind c (fun _ => k))
  (at level 61, right associativity) : py_scope.
Local Open Scope py_scope.

(** [datetime.utcnow()] *)
Definition utcnow : M datetime := fun w => (Returned (clock w), w).

(** [with open(LOG_FILE, "a", encoding="utf-8") as f: f.write(text)] *)
Definition append_log_file (text : str) : M unit :=
  fun w =>
    match write_fault w with
    | Some (n, msg) =>
        (Raised (OSError msg),
         mk_world (clock w) (log_text w ++ firstn n text) (write_fault w) (stderr w))
    | None =>
        (Returned tt,
         mk_world (clock w) (log_text w ++ text) (write_fault w) (stderr w))
    end.

(** [print(msg, file=sys.stderr)] *)
Definition print_stderr (msg : str) : M unit :=
  fun w =>
    (Returned tt,
     mk_world (clock w) (log_text w) (write_fault w) (stderr w ++ [msg])).

(** ** The append writer *)

Definition write_log_line (line : str) : M unit :=
  try_except
    (append_log_file (line ++ [newline]))
    (fun exc =>
       print_stderr (lit "[listener] Failed to write log: " ++ exn_str exc)).

(** ** Requests and responses *)

(** Header names arrive lower-cased; [headers] keeps them in order. *)
Record Request := mk_request {
  headers : dict str;
  body : list Byte.byte
}.

Record Response := mk_response {
  status_code : N;
  content : str
}.

Definition HTTP_202_ACCEPTED : N := 202.
Definition HTTP_400_BAD_REQUEST : N := 400.

(** [request.headers.get(key, default)] *)
Definition headers_get (key default : str) (request : Request) : str :=
  match dict_get key (headers request) with
  | Some v => v
  | None => default
  end.

(** [request.headers.get("content-type", "").split(";")[0].strip().lower()] *)
Definition content_type (request : Request) : str :=
  lower (strip (split_head 59 (headers_get (lit "content-type") [] request))).

(** [type(v).__name__] *)
Definition type_name (v : json) : str :=
  match v with
  | JNull => lit "NoneType"
  | JBool _ => lit "bool"
  | JNum text =>
      if existsb (fun c => (c =? 46) || (c =? 101) || (c =? 78) || (c =? 73)) text
      then lit "float" else lit "int"
  | JStr _ => lit "str"
  | JArr _ => lit "list"
  | JObj _ => lit "dict"
  end.

(** The items [**v] contributes to a dict display: those of a
    mapping, a [TypeError] for anything else. *)
Definition unpack_mapping (v : json) : M (dict json) :=
  match v with
  | JObj members => ret members
  | _ => raise (TypeError (lit "'" ++ type_name v
                           ++ lit "' object is not a mapping"))
  end.

(** The body a route returns as a [dict] of texts, as the framework
    sends it: status 200 and the compact JSON text. *)
Definition json_response (d : dict str) : Response :=
  mk_response 200 (json_dumps (JObj (map (fun kv => (fst kv, JStr (snd kv))) d))).

(** ** The handlers *)

(** The two library calls that read arbitrary request bytes. *)
Class Library := {
  (** [json.loads] on the bytes of a body, as [Request.json] calls it:
      [None] when it raises. *)
  json_loads_bytes : list Byte.byte -> option json;
  (** [bytes.decode("utf-8", errors="replace")]; it never raises. *)
  decode_utf8_replace : list Byte.byte -> str
}.

Section Handlers.

Context {lib : Library}.

(** [await request.json()] *)
Definition request_json (request : Request) : M json :=
  match json_loads_bytes (body request) with
  | Some v => ret v
  | None => raise JSONDecodeError
  end.

(** [await request.body()] *)
Definition request_body (request : Request) : M (list Byte.byte) :=
  ret (body request).

Definition healthz : M (dict str) :=
  ret [(lit "status", lit "ok")].

Definition ingest (request : Request) : M Response :=
  let content_type := content_type request in
  now <- utcnow ;;
  let ts := isoformat now ++ lit "Z" in
  if PyStr.eqb content_type (lit "application/json") then
    parsed <- try_except (b <- request_json request ;; ret (Some b))
                         (fun _ => ret None) ;;
    match parsed with
    | None => ret (mk_response HTTP_400_BAD_REQUEST (lit "invalid json"))
    | Some b =>
        items <- unpack_mapping b ;;
        let line := json_dumps (JObj (dict_update [(lit "ts", JStr ts)] items)) in
        write_log_line line ;;
        ret (mk_response HTTP_202_ACCEPTED [])
    end
  else
    text <- request_body request ;;
    let payload := strip (decode_utf8_replace text) in
    match payload with
    | [] => ret (mk_response HTTP_400_BAD_REQUEST (lit "empty body"))
    | _ :: _ =>
        write_log_line (ts ++ lit " " ++ payload) ;;
        ret (mk_response HTTP_202_ACCEPTED [])
    end.

Definition log_line (request : Request) : M (dict str) :=
  text <- request_body request ;;
  let payload := strip (decode_utf8_replace text) in
  now <- utcnow ;;
  let ts := isoformat now ++ lit "Z" in
  write_log_line (ts ++ lit " " ++ payload) ;;
  ret [(lit "status", lit "ok")].

(** The routes as the framework serves them: [/ingest] returns its
    [Response] as it is, [/logline] has its [dict] sent as JSON. *)
Definition post_ingest (request : Request) : M Response := ingest request.

Definition post_logline (request : Request) : M Response :=
  d <- log_line request ;;
  ret (json_response d).

End Handlers.

(** ** A decoder for JSON text

    [json.loads] on a [str], after [json/decoder.py] and
    [json/scanner.py]; it is what "the line deserializes to" is
    measured with.  A number keeps the text [NUMBER_RE] matched. *)

Definition is_json_ws (c : codepoint) : bool :=
  (c =? 32) || (c =? 9) || (c =? 10) || (c =? 13).

(** [WHITESPACE.match(s, end).end()] *)
Fixpoint skip_ws (s : str) : str :=
  match s with
  | [] => []
  | c :: s' => if is_json_ws c then skip_ws s' else s
  end.

Definition hex_value (c : codepoint) : option N :=
  if is_digit c then Some (c - 48)
  else if (97 <=? c) && (c <=? 102) then Some (c - 87)
  else if (65 <=? c) && (c <=? 70) then Some (c - 55)
  else None.

(** [_decode_uXXXX]: four hexadecimal digits. *)
Definition hex4 (a b c d : codepoint) : option N :=
  match hex_value a, hex_value b, hex_value c, hex_value d with
  | Some x, Some y, Some z, Some t => Some (((x * 16 + y) * 16 + z) * 16 + t)
  | _, _, _, _ => None
  end.

(** The table [BACKSLASH]. *)
Definition unescape (e : codepoint) : option codepoint :=
  if e =? 34 then Some 34
  else if e =? 92 then Some 92
  else if e =? 47 then Some 47
  else if e =? 98 then Some 8
  else if e =? 102 then Some 12
  else if e =? 110 then Some 10
  else if e =? 114 then Some 13
  else if e =? 116 then Some 9
  else None.

Definition is_high_surrogate (u : N) : bool := (55296 <=? u) && (u <=? 56319).
Definition is_low_surrogate (u : N) : bool := (56320 <=? u) && (u <=? 57343).

Definition push (c : codepoint) (r : option (str * str)) : option (str * str) :=
  match r with
  | Some (t, rest) => Some (c :: t, rest)
  | None => None
  end.

(** After an escaped high surrogate, [py_scanstring] looks at what
    follows: [true] when it is another [\u] escape that is a low
    surrogate (the two make one character) or is cut short or
    malformed (the scan fails). *)
Definition pair_follows (s : str) : bool :=
  match s with
  | b :: u :: s' =>
      if (b =? backslash) && (u =? 117) then
        match s' with
        | g1 :: g2 :: g3 :: g4 :: _ =>
            match hex4 g1 g2 g3 g4 with
            | Some uni2 => is_low_surrogate uni2
            | None => true
            end
        | _ => true
        end
      else false
  | _ => false
  end.

(** [py_scanstring] in strict mode, from the character after the
    opening quote: the decoded text and what follows the closing
    quote. *)
Fixpoint scan_string (s : str) : option (str * str) :=
  match s with
  | [] => None
  | c :: s1 =>
      if c =? quote then Some ([], s1)
      else if c =? backslash then
        match s1 with
        | [] => None
        | e :: s2 =>
            if e =? 117 then
              match s2 with
              | h1 :: h2 :: h3 :: h4 :: s3 =>
                  match hex4 h1 h2 h3 h4 with
                  | None => None
                  | Some uni =>
                      let single := push uni (scan_string s3) in
                      if is_high_surrogate uni then
                        match s3 with
                        | b :: u :: s3' =>
                            if (b =? backslash) && (u =? 117) then
                              match s3' with
                              | g1 :: g2 :: g3 :: g4 :: s4 =>
                                  match hex4 g1 g2 g3 g4 with
                                  | None => None
                                  | Some uni2 =>
                                      if is_low_surrogate uni2 then
                                        push (65536 + N.lor (N.shiftl (uni - 55296) 10)
                                                            (uni2 - 56320))
                                             (scan_string s4)
                                      else single
                                  end
                              | _ => None
                              end
                            else single
                        | _ => single
                        end
                      else single
                  end
              | _ => None
              end
            else
              match unescape e with
              | Some ch => push ch (scan_string s2)
              | None => None
              end
        end
      else if c <? 32 then None
      else push c (scan_string s1)
  end.

Fixpoint span_digits (s : str) : str * str :=
  match s with
  | [] => ([], [])
  | c :: s' =>
      if is_digit c then let (ds, r) := span_digits s' in (c :: ds, r)
      else ([], s)
  end.

(** [0|[1-9][0-9]*] *)
Definition scan_integer (s : str) : option (str * str) :=
  match s with
  | [] => None
  | c :: s' =>
      if c =? 48 then Some ([c], s')
      else if is_digit c then let (ds, r) := span_digits s' in Some (c :: ds, r)
      else None
  end.

(** [(\.[0-9]+)?] *)
Definition scan_frac (s : str) : str * str :=
  match s with
  | [] => ([], s)
  | c :: s' =>
      if c =? 46 then
        match span_digits s' with
        | ([], _) => ([], s)
        | (ds, r) => (c :: ds, r)
        end
      else ([], s)
  end.

(** [([eE][-+]?[0-9]+)?] *)
Definition scan_exp (s : str) : str * str :=
  match s with
  | [] => ([], s)
  | c :: s' =>
      if (c =? 101) || (c =? 69) then
        let (sign, s'') :=
          match s' with
          | d :: t => if (d =? 45) || (d =? 43) then ([d], t) else ([], s')
          | [] => ([], s')
          end in
        match span_digits s'' with
        | ([], _) => ([], s)
        | (ds, r) => (c :: sign ++ ds, r)
        end
      else ([], s)
  end.

(** [NUMBER_RE.match]: the matched text and what follows it. *)
Definition match_number (s : str) : option (str * str) :=
  let (sign, s1) :=
    match s with
    | c :: t => if c =? 45 then ([c], t) else ([], s)
    | [] => ([], s)
    end in
  match scan_integer s1 with
  | None => None
  | Some (i, s2) =>
      let (f, s3) := scan_frac s2 in
      let (e, s4) := scan_exp s3 in
      Some (sign ++ i ++ f ++ e, s4)
  end.

(** [s[idx:idx + len(p)] == p], with what follows. *)
Fixpoint strip_prefix (p s : str) : option str :=
  match p, s with
  | [], _ => Some s
  | x :: p', y :: s' => if x =? y then strip_prefix p' s' else None
  | _ :: _, [] => None
  end.

Definition scan_keyword (s : str) : option (json * str) :=
  match strip_prefix (lit "null") s with
  | Some r => Some (JNull, r)
  | None =>
  match strip_prefix (lit "true") s with
  | Some r => Some (JBool true, r)
  | None =>
  match strip_prefix (lit "false") s with
  | Some r => Some (JBool false, r)
  | None =>
  match match_number s with
  | Some (text, r) => Some (JNum text, r)
  | None =>
  match strip_prefix (lit "NaN") s with
  | Some r => Some (JNum (lit "NaN"), r)
  | None =>
  match strip_prefix (lit "Infinity") s with
  | Some r => Some (JNum (lit "Infinity"), r)
  | None =>
  match strip_prefix (lit "-Infinity") s with
  | Some r => Some (JNum (lit "-Infinity"), r)
  | None => None
  end end end end end end end.

(** [scan_once], [JSONObject] and [JSONArray].  Every call spends one
    unit of [fuel]; [json_loads] gives more than the text can use.  The
    interpreter's recursion limit is not modelled. *)
Fixpoint scan_once (fuel : nat) (s : str) : option (json * str) :=
  match fuel with
  | O => None
  | S fuel' =>
      match s with
      | [] => None
      | c :: s' =>
          if c =? quote then
            match scan_string s' with
            | Some (t, r) => Some (JStr t, r)
            | None => None
            end
          else if c =? 123 then
            match skip_ws s' with
            | [] => None
            | c1 :: r1 =>
                if c1 =? 125 then Some (JObj [], r1)
                else
                  match parse_members fuel' (c1 :: r1) with
                  | Some (pairs, r) => Some (JObj (dict_update [] pairs), r)
                  | None => None
                  end
            end
          else if c =? 91 then
            match skip_ws s' with
            | [] => None
            | c1 :: r1 =>
                if c1 =? 93 then Some (JArr [], r1)
                else
                  match parse_elements fuel' (c1 :: r1) with
                  | Some (items, r) => Some (JArr items, r)
                  | None => None
                  end
            end
          else scan_keyword s
      end
  end

with parse_members (fuel : nat) (s : str) : option (list (str * json) * str) :=
  match fuel with
  | O => None
  | S fuel' =>
      match s with
      | [] => None
      | c :: s' =>
          if c =? quote then
            match scan_string s' with
            | None => None
            | Some (key, r1) =>
                match skip_ws r1 with
                | [] => None
                | c2 :: r2 =>
                    if c2 =? 58 then
                      match scan_once fuel' (skip_ws r2) with
                      | None => None
                      | Some (value, r3) =>
                          match skip_ws r3 with
                          | [] => None
                          | c4 :: r4 =>
                              if c4 =? 125 then Some ([(key, value)], r4)
                              else if c4 =? 44 then
                                match parse_members fuel' (skip_ws r4) with
                                | Some (pairs, r) => Some ((key, value) :: pairs, r)
                                | None => None
                                end
                              else None
                          end
                      end
                    else None
                end
            end
          else None
      end
  end

with parse_elements (fuel : nat) (s : str) : option (list json * str) :=
  match fuel with
  | O => None
  | S fuel' =>
      match scan_once fuel' s with
      | None => None
      | Some (value, r1) =>
          match skip_ws r1 with
          | [] => None
          | c2 :: r2 =>
              if c2 =? 93 then Some ([value], r2)
              else if c2 =? 44 then
                match parse_elements fuel' (skip_ws r2) with
                | Some (items, r) => Some (value :: items, r)
                | None => None
                end
              else None
          end
      end
  end.

(** [s.startswith('\ufeff')] *)
Definition starts_with_bom (s : str) : bool :=
  match s with
  | c :: _ => c =? 65279
  | [] => false
  end.

(** [json.loads(s)] for a [str]: [None] when it raises. *)
Definition json_loads (s : str) : option json :=
  if starts_with_bom s then None
  else
    let s0 := skip_ws s in
    match scan_once (S (length s0)) s0 with
    | Some (v, r) => match skip_ws r with [] => Some v | _ :: _ => None end
    | None => None
    end.

(** ** Well-formed values

    The values whose text, as [json_dumps] writes it, the decoder
    reads back: code points in range, numbers in the text [json.dumps]
    gives them, distinct keys.  [json.loads] builds such values, but
    for a text in which a high surrogate stands right before a low
    one, which only a body with surrogates encoded one by one can
    give. *)

(** Code points of a [str], with no high surrogate directly before a
    low one (the encoder would write the two as one escaped pair). *)
Fixpoint wf_text (s : str) : bool :=
  match s with
  | [] => true
  | c :: s' =>
      (c <? 1114112)
      && negb (is_high_surrogate c
               && match s' with c2 :: _ => is_low_surrogate c2 | [] => false end)
      && wf_text s'
  end.

(** The text of a number: all of it matches [NUMBER_RE], or it names
    one of the three special floats. *)
Definition wf_number (t : str) : bool :=
  match match_number t with
  | Some (_, []) => true
  | _ => PyStr.eqb t (lit "NaN") || PyStr.eqb t (lit "Infinity")
         || PyStr.eqb t (lit "-Infinity")
  end.

Fixpoint distinct (ks : list str) : bool :=
  match ks with
  | [] => true
  | k :: ks' => negb (existsb (PyStr.eqb k) ks') && distinct ks'
  end.

Fixpoint wf_json (v : json) : bool :=
  match v with
  | JNull | JBool _ => true
  | JNum text => wf_number text
  | JStr s => wf_text s
  | JArr items => forallb wf_json items
  | JObj members =>
      forallb (fun kv => wf_text (fst kv) && wf_json (snd kv)) members
      && distinct (map fst members)
  end.

(** Calls of [scan_once], [JSONObject]'s loop and [JSONArray]'s loop
    that reading a value back takes. *)
Fixpoint json_size (v : json) : nat :=
  match v with
  | JArr items => S (list_sum (map (fun x => S (json_size x)) items))
  | JObj members => S (list_sum (map (fun kv => S (json_size (snd kv))) members))
  | _ => 1
  end.

(** What may follow a value in a text: nothing, a comma or a closing
    bracket. *)
Definition value_end (rest : str) : bool :=
  match rest with
  | [] => true
  | c :: _ => (c =? 44) || (c =? 93) || (c =? 125)
  end.

(** The characters a value's text may start with. *)
Definition value_start (c : codepoint) : bool :=
  (c =? quote) || (c =? 123) || (c =? 91) || (c =? 110) || (c =? 116)
  || (c =? 102) || (c =? 45) || is_digit c || (c =? 78) || (c =? 73).

(** ** What the log gains *)

(** [text] is one newline-terminated line. *)
Definition one_line (text : str) : Prop :=
  exists line, text = line ++ [newline] /\ count_lines line = 0%nat.

(** The log of [w'] is the log of [w] and one more line. *)
Definition one_line_appended (w w' : World) : Prop :=
  exists text, log_text w' = log_text w ++ text /\ one_line text.

(** The line deserializes to an object that has every key of [O] and a
    [ts] key holding an ISO-8601 timestamp with a trailing [Z]. *)
Definition timestamped_object (O : dict json) (line : str) : Prop :=
  exists d,
    json_loads line = Some (JObj d)
    /\ incl (dict_keys O) (dict_keys d)
    /\ exists t, dict_get (lit "ts") d = Some (JStr t) /\ iso8601_z t.

Definition is_ascii (c : codepoint) : bool := c <? 128.

(** The characters from the space to the tilde. *)
Definition printable (c : codepoint) : bool := (32 <=? c) && (c <=? 126).

(** The diagnostic the append writer prints for an error [msg]. *)
Definition write_failure (msg : str) : str :=
  lit "[listener] Failed to write log: " ++ msg.

(** The [ts] a handler computes in [w], and the text it logs for a
    raw body. *)
Definition timestamp (w : World) : str := isoformat (clock w) ++ lit "Z".

Definition payload {lib : Library} (request : Request) : str :=
  strip (decode_utf8_replace (body request)).

Definition accepted : Response := mk_response HTTP_202_ACCEPTED [].

Definition set_write_fault (e : option (nat * str)) (w : World) : World :=
  mk_world (clock w) (log_text w) e (stderr w).

Definition is_object (v : json) : bool :=
  match v with JObj _ => true | _ => false end.

(** ** Sample library behaviour, requests and worlds

    Stand-ins for the two library calls on ASCII bodies, used to run
    the handlers on concrete requests.  [json_loads_ascii] keeps a
    number as it is written. *)

Module Sample.

Definition codepoint_of_byte (b : Byte.byte) : codepoint :=
  let n := Byte.to_N b in if n <? 128 then n else 65533.

Definition decode_ascii_replace (bs : list Byte.byte) : str :=
  map codepoint_of_byte bs.

Definition json_loads_ascii (bs : list Byte.byte) : option json :=
  if forallb (fun b => Byte.to_N b <? 128) bs
  then json_loads (decode_ascii_replace bs) else None.

Definition byte_of_codepoint (c : codepoint) : Byte.byte :=
  match Byte.of_N c with Some b => b | None => Byte.x3f end.

Definition bytes (s : str) : list Byte.byte := map byte_of_codepoint s.

Definition noon : datetime := mk_datetime 2024 3 5 12 0 7 0.
Definition later : datetime := mk_datetime 2024 3 5 12 0 7 250.

Definition writable (now : datetime) (text : str) : World :=
  mk_world now text None [].

Definition unwritable (now : datetime) (text : str) : World :=
  mk_world now text
    (Some (0%nat, lit "[Errno 13] Permission denied: '/logs/portwatcher.log'")) [].

Definition json_request (b : str) : Request :=
  mk_request [(lit "content-type", lit "Application/JSON; charset=utf-8")]
             (bytes b).

Definition text_request (b : str) : Request :=
  mk_request [(lit "content-type", lit "text/plain")] (bytes b).

Definition bare_request (b : str) : Request := mk_request [] (bytes b).

(** [{"ts":1}], [{"ts":"mine","port":8080}], [[1,2]] and [{"a":] *)
Definition ts_one : dict json := [(lit "ts", JNum (lit "1"))].
Definition ts_mine : dict json :=
  [(lit "ts", JStr (lit "mine")); (lit "port", JNum (lit "8080"))].
Definition port_event : dict json :=
  [(lit "port", JNum (lit "8080")); (lit "proto", JStr (lit "tcp"))].
Definition an_array : json := JArr [JNum (lit "1"); JNum (lit "2")].
Definition truncated : str := firstn 5 (json_dumps (JObj [(lit "a", JNum (lit "1"))])).

#[export] Instance ascii_library : Library := {|
  json_loads_bytes := json_loads_ascii;
  decode_utf8_replace := decode_ascii_replace
|}.

End Sample.

(** ** Startup: the log directory *)

(** A [PurePosixPath] as [pathlib] parses it: the root ([""], ["/"] or
    ["//"]) and the components that follow. *)
Record Path := mk_path {
  root : str;
  tail : list str
}.

(** [posixpath.splitroot], without the drive: one leading slash or
    three and more make the root ["/"], exactly two make it ["//"]. *)
Definition splitroot (p : str) : str * str :=
  match p with
  | [] => ([], p)
  | c1 :: r1 =>
      if c1 =? 47 then
        match r1 with
        | [] => (lit "/", r1)
        | c2 :: r2 =>
            if c2 =? 47 then
              match r2 with
              | [] => (lit "//", r2)
              | c3 :: _ => if c3 =? 47 then (lit "/", r1) else (lit "//", r2)
              end
            else (lit "/", r1)
        end
      else ([], p)
  end.

(** [s.split(sep)] for a one-character separator. *)
Fixpoint split (sep : codepoint) (s : str) : list str :=
  match s with
  | [] => [[]]
  | c :: s' =>
      if c =? sep then [] :: split sep s'
      else
        match split sep s' with
        | [] => [[c]]
        | p :: ps => (c :: p) :: ps
        end
  end.

(** A component [pathlib] keeps: [x and x != '.']. *)
Definition kept_component (x : str) : bool :=
  negb (PyStr.eqb x []) && negb (PyStr.eqb x (lit ".")).

(** [Path(path)] *)
Definition parse_path (path : str) : Path :=
  let (rt, rel) := splitroot path in
  mk_path rt (filter kept_component (split 47 rel)).

(** [path.parent]: the path without its last component, the path
    itself when it has none. *)
Definition parent (p : Path) : Path :=
  match tail p with
  | [] => p
  | _ :: _ => mk_path (root p) (removelast (tail p))
  end.

(** [path.mkdir(parents=True, exist_ok=True)], the library call that
    works on the file system: it returns or raises. *)
Class FileSystem := {
  mkdir : Path -> M unit
}.

Definition ensure_log_dir {fs : FileSystem} (path : str) : M unit :=
  let log_path := parse_path path in
  try_except
    (mkdir (parent log_path))
    (fun exc =>
       print_stderr (lit "[listener] Failed to create log directory: "
                     ++ exn_str exc)).

(** [os.environ.get("LOG_FILE", "/logs/portwatcher.log")] *)
Definition LOG_FILE (environ : dict str) : str :=
  match dict_get (lit "LOG_FILE") environ with
  | Some v => v
  | None => lit "/logs/portwatcher.log"
  end.

(** What importing the module runs before the application serves. *)
Definition startup {fs : FileSystem} (environ : dict str) : M unit :=
  ensure_log_dir (LOG_FILE environ).

(** The diagnostic [ensure_log_dir] prints for an error [msg]. *)
Definition mkdir_failure (msg : str) : str :=
  lit "[listener] Failed to create log directory: " ++ msg.

(** ** The application: three routes, one request after another *)

Inductive Call : Type :=
| GetHealthz
| PostIngest (request : Request)
| PostLogline (request : Request).

Definition handle {lib : Library} (c : Call) : M Response :=
  match c with
  | GetHealthz => d <- healthz ;; ret (json_response d)
  | PostIngest request => post_ingest request
  | PostLogline request => post_logline request
  end.

Definition set_clock (now : datetime) (w : World) : World :=
  mk_world now (log_text w) (write_fault w) (stderr w).

(** The calls of a session, each with the time the clock shows when
    it is handled.  A call that raises is answered by the framework;
    the next one is served all the same. *)
Fixpoint serve {lib : Library} (calls : list (datetime * Call)) (w : World)
  : list (outcome Response) * World :=
  match calls with
  | [] => ([], w)
  | (now, c) :: rest =>
      let (o, w1) := handle c (set_clock now w) in
      let (os, w2) := serve rest w1 in
      (o :: os, w2)
  end.

(** The line a call gives to the append writer when the clock shows
    [now], read off the handlers branch by branch; [None] when the
    call writes nothing. *)
Definition call_line {lib : Library} (now : datetime) (c : Call) : option str :=
  let ts := isoformat now ++ lit "Z" in
  match c with
  | GetHealthz => None
  | PostIngest request =>
      if PyStr.eqb (content_type request) (lit "application/json") then
        match json_loads_bytes (body request) with
        | Some (JObj items) =>
            Some (json_dumps (JObj (dict_update [(lit "ts", JStr ts)] items)))
        | _ => None
        end
      else
        match strip (decode_utf8_replace (body request)) with
        | [] => None
        | p => Some (ts ++ lit " " ++ p)
        end
  | PostLogline request =>
      Some (ts ++ lit " " ++ strip (decode_utf8_replace (body request)))
  end.

Definition session_lines {lib : Library} (calls : list (datetime * Call))
  : list str :=
  flat_map (fun tc => match call_line (fst tc) (snd tc) with
                      | Some l => [l]
                      | None => []
                      end) calls.

(** The text of lines, each with its newline. *)
Definition unlines (lines : list str) : str :=
  flat_map (fun l => l ++ [newline]) lines.


(** [o] is a response with status [code]. *)
Definition answered (code : N) (o : outcome Response) : bool :=
  match o with
  | Returned r => status_code r =? code
  | Raised _ => false
  end.

(** The world after the append writer has run on each line in turn. *)
Definition written (lines : list str) (w : World) : World :=
  fold_left (fun w' l => snd (write_log_line l w')) lines w.

(** The characters [json.dumps] writes as they are inside a text. *)
Definition verbatim (c : codepoint) : bool :=
  printable c && negb (c =? quote) && negb (c =? backslash).

(** ** Reading a timestamp *)

(** The fields of a timestamp, read at their fixed places: the
    microseconds are there when the text is longer than
    [YYYY-MM-DDTHH:MM:SSZ]. *)
Definition read_timestamp (ts : str) : datetime :=
  let field (from len : nat) := int_of_digits (firstn len (skipn from ts)) in
  mk_datetime (field 0%nat 4%nat) (field 5%nat 2%nat) (field 8%nat 2%nat)
              (field 11%nat 2%nat) (field 14%nat 2%nat) (field 17%nat 2%nat)
              (if Nat.leb (length ts) 20 then 0 else field 20%nat 6%nat).

(** [a < b] on [str]: code point by code point. *)
Fixpoint str_ltb (a b : str) : bool :=
  match a, b with
  | _, [] => false
  | [], _ :: _ => true
  | x :: a', y :: b' => (x <? y) || ((x =? y) && str_ltb a' b')
  end.

(** [d.replace(microsecond=us)] *)
Definition replace_microsecond (d : datetime) (us : N) : datetime :=
  mk_datetime (year d) (month d) (day d) (hour d) (minute d) (second d) us.

(** ** More samples *)

Module Demo.

(** A file system that makes every directory, and one that refuses. *)
Definition obliging : FileSystem := {| mkdir := fun _ => ret tt |}.

Definition read_only : FileSystem :=
  {| mkdir := fun _ => raise (OSError (lit "[Errno 30] Read-only file system: '/logs'")) |}.

Definition noon : datetime := mk_datetime 2024 3 5 12 0 7 0.
Definition after_noon : datetime := mk_datetime 2024 3 5 12 0 7 250.

Definition empty_log : World := mk_world noon [] None [].

Definition full_disk : World :=
  mk_world noon [] (Some (3%nat, lit "[Errno 28] No space left on device")) [].

Definition post (ct : str) (b : str) : Request :=
  mk_request [(lit "content-type", ct)] (Sample.bytes b).

Definition event : dict json :=
  [(lit "port", JNum (lit "8080")); (lit "ts", JStr (lit "mine"));
   (lit "proto", JStr (lit "tcp"))].

Definition plain_event : dict json :=
  [(lit "port", JNum (lit "8080")); (lit "proto", JStr (lit "tcp"))].

(** A session: a probe, a JSON event, a malformed body, a text line,
    an array, and an empty line for [/logline]. *)
Definition session : list (datetime * Call) :=
  [ (noon, GetHealthz);
    (noon, PostIngest (post (lit "application/json") (json_dumps (JObj plain_event))));
    (noon, PostIngest (post (lit "application/json") (lit "{oops")));
    (after_noon, PostIngest (post (lit "text/plain") (lit " port 22 closed ")));
    (after_noon, PostIngest (post (lit "application/json") (json_dumps (JArr []))));
    (after_noon, PostLogline (post (lit "text/plain") (lit "  "))) ].


End Demo.

(** * Facts *)

(** ** Text *)

Lemma eqb_eq (a b : str) : PyStr.eqb a b = true <-> a = b.
Proof.
  revert b. induction a as [|x a IH]; intros [|y b]; simpl; split; intro H;
    try reflexivity; try discriminate.
  - apply andb_true_iff in H. destruct H as [Hx Hab].
    apply N.eqb_eq in Hx. apply IH in Hab. congruence.
  - injection H as -> ->. rewrite N.eqb_refl. simpl. now apply IH.
Qed.

Lemma eqb_refl (a : str) : PyStr.eqb a a = true.
Proof. now apply eqb_eq. Qed.

Lemma eqb_neq (a b : str) : PyStr.eqb a b = false <-> a <> b.
Proof.
  split.
  - intros H E. apply eqb_eq in E. congruence.
  - intro H. destruct (PyStr.eqb a b) eqn:E; [|reflexivity].
    apply eqb_eq in E. contradiction.
Qed.

Lemma count_lines_app (a b : str) :
  count_lines (a ++ b) = (count_lines a + count_lines b)%nat.
Proof. unfold count_lines. apply count_occ_app. Qed.

Lemma split_head_app (sep : codepoint) (v params : str) :
  ~ In sep v -> split_head sep (v ++ sep :: params) = v.
Proof.
  induction v as [|c v IH]; simpl; intro Hn.
  - now rewrite N.eqb_refl.
  - destruct (N.eqb_spec c sep) as [->|_]; [tauto|].
    f_equal. apply IH. tauto.
Qed.

(** The parameters of a content type are put aside, and so are the
    blanks around it and the case of its letters. *)
Lemma content_type_ignores_parameters
    (hs : dict str) (bd : list Byte.byte) (v params : str) :
  dict_get (lit "content-type") hs = Some (v ++ 59 :: params) ->
  ~ In 59 v ->
  content_type (mk_request hs bd) = lower (strip v).
Proof.
  intros Hh Hn. unfold content_type, headers_get. simpl headers.
  now rewrite Hh, split_head_app.
Qed.

Example content_type_any_case :
  content_type (mk_request [(lit "content-type", lit " APPLICATION/Json ;q=1")] [])
  = lit "application/json".
Proof. reflexivity. Qed.

(** ** The append writer *)

Lemma write_log_line_writable (line : str) (w : World) :
  write_fault w = None ->
  write_log_line line w
  = (Returned tt,
     mk_world (clock w) (log_text w ++ line ++ [newline]) None (stderr w)).
Proof.
  intro H. destruct w; simpl in H; subst. reflexivity.
Qed.

Lemma write_log_line_failing (line msg : str) (n : nat) (w : World) :
  write_fault w = Some (n, msg) ->
  write_log_line line w
  = (Returned tt,
     mk_world (clock w) (log_text w ++ firstn n (line ++ [newline]))
              (Some (n, msg)) (stderr w ++ [write_failure msg])).
Proof.
  intro H. destruct w; simpl in H; subst. reflexivity.
Qed.

Lemma write_log_line_returns (line : str) (w : World) :
  fst (write_log_line line w) = Returned tt.
Proof.
  destruct (write_fault w) as [[n msg]|] eqn:H.
  - now rewrite (write_log_line_failing line msg n w H).
  - now rewrite (write_log_line_writable line w H).
Qed.

Lemma write_log_line_clock (line : str) (w : World) :
  clock (snd (write_log_line line w)) = clock w.
Proof.
  destruct (write_fault w) as [[n msg]|] eqn:H.
  - now rewrite (write_log_line_failing line msg n w H).
  - now rewrite (write_log_line_writable line w H).
Qed.

Lemma write_log_line_set_write_fault (line : str) (e : option (nat * str)) (w : World) :
  fst (write_log_line line (set_write_fault e w)) = fst (write_log_line line w).
Proof. now rewrite !write_log_line_returns. Qed.

(** Running a computation after the writer: the writer's outcome is
    always a plain return. *)
Lemma bind_write_log_line {A} (line : str) (k : unit -> M A) (w : World) :
  bind (write_log_line line) k w = k tt (snd (write_log_line line w)).
Proof.
  unfold bind. pose proof (write_log_line_returns line w) as H.
  destruct (write_log_line line w) as [o w']. simpl in *. now subst.
Qed.

(** ** The handlers, case by case *)

Section HandlerFacts.

Context {lib : Library}.


Lemma ingest_json_invalid (request : Request) (w : World) :
  content_type request = lit "application/json" ->
  json_loads_bytes (body request) = None ->
  ingest request w
  = (Returned (mk_response HTTP_400_BAD_REQUEST (lit "invalid json")), w).
Proof.
  intros Hct Hj. unfold ingest, bind, utcnow, try_except, request_json.
  rewrite Hct, Hj. reflexivity.
Qed.

Lemma ingest_json_object (request : Request) (w : World) (O : dict json) :
  content_type request = lit "application/json" ->
  json_loads_bytes (body request) = Some (JObj O) ->
  ingest request w
  = (Returned accepted,
     snd (write_log_line
            (json_dumps (JObj (dict_update [(lit "ts", JStr (timestamp w))] O)))
            w)).
Proof.
  intros Hct Hj. unfold ingest.
  unfold bind at 1. unfold utcnow at 1. cbv beta iota.
  rewrite Hct. change (PyStr.eqb (lit "application/json") (lit "application/json")) with true.
  cbv iota. unfold bind at 1. unfold try_except, request_json.
  rewrite Hj. unfold bind at 1. unfold ret at 1 2. cbv beta iota.
  unfold bind at 1. unfold unpack_mapping, ret at 1. cbv beta iota.
  rewrite bind_write_log_line. reflexivity.
Qed.

Lemma ingest_json_not_object (request : Request) (w : World) (v : json) :
  content_type request = lit "application/json" ->
  json_loads_bytes (body request) = Some v ->
  is_object v = false ->
  ingest request w
  = (Raised (TypeError (lit "'" ++ type_name v ++ lit "' object is not a mapping")),
     w).
Proof.
  intros Hct Hj Hv. unfold ingest, bind, utcnow, try_except, request_json.
  rewrite Hct, Hj.
  destruct v; try discriminate; reflexivity.
Qed.

Lemma ingest_text_empty (request : Request) (w : World) :
  content_type request <> lit "application/json" ->
  payload request = [] ->
  ingest request w
  = (Returned (mk_response HTTP_400_BAD_REQUEST (lit "empty body")), w).
Proof.
  intros Hct Hp. apply eqb_neq in Hct. unfold payload in Hp.
  unfold ingest, bind, utcnow, request_body.
  rewrite Hct. unfold ret at 1. cbv beta iota. rewrite Hp. reflexivity.
Qed.

Lemma ingest_text_line (request : Request) (w : World) :
  content_type request <> lit "application/json" ->
  payload request <> [] ->
  ingest request w
  = (Returned accepted,
     snd (write_log_line (timestamp w ++ lit " " ++ payload request) w)).
Proof.
  intros Hct Hp. apply eqb_neq in Hct. unfold payload in *.
  unfold ingest.
  unfold bind at 1. unfold utcnow at 1. cbv beta iota.
  rewrite Hct. unfold bind at 1. unfold request_body, ret at 1. cbv beta iota.
  destruct (strip (decode_utf8_replace (body request))) as [|c p] eqn:E;
    [contradiction|].
  rewrite bind_write_log_line. reflexivity.
Qed.

Lemma log_line_runs (request : Request) (w : World) :
  log_line request w
  = (Returned [(lit "status", lit "ok")],
     snd (write_log_line (timestamp w ++ lit " " ++ payload request) w)).
Proof.
  unfold log_line.
  unfold bind at 1. unfold request_body, ret at 1. cbv beta iota.
  unfold bind at 1. unfold utcnow at 1. cbv beta iota.
  rewrite bind_write_log_line. reflexivity.
Qed.

Lemma post_logline_runs (request : Request) (w : World) :
  post_logline request w
  = (Returned (mk_response 200 (json_dumps (JObj [(lit "status", JStr (lit "ok"))]))),
     snd (write_log_line (timestamp w ++ lit " " ++ payload request) w)).
Proof.
  unfold post_logline, bind. rewrite log_line_runs. reflexivity.
Qed.

End HandlerFacts.

(** ** The timestamp *)

Lemma is_digit_digit_char (r : N) : r < 10 -> is_digit (digit_char r) = true.
Proof.
  intro H. unfold is_digit, digit_char.
  apply andb_true_iff. split; apply N.leb_le; lia.
Qed.

Lemma digits_fuel_all_digits (fuel : nat) (n : N) :
  forallb is_digit (digits_fuel fuel n) = true.
Proof.
  revert n. induction fuel as [|fuel IH]; intro n; simpl; [reflexivity|].
  rewrite forallb_app. apply andb_true_iff. split.
  - destruct (n <? 10); [reflexivity | apply IH].
  - simpl. rewrite is_digit_digit_char; [reflexivity|].
    apply N.mod_lt. discriminate.
Qed.

Lemma digits_fuel_length (fuel k : nat) (n : N) :
  (1 <= k)%nat -> n < 10 ^ N.of_nat k ->
  (length (digits_fuel fuel n) <= k)%nat.
Proof.
  revert k n. induction fuel as [|fuel IH]; intros k n Hk Hn; simpl; [lia|].
  rewrite length_app. simpl.
  destruct (N.ltb_spec n 10) as [Hlt|Hge]; simpl; [lia|].
  destruct k as [|[|k]]; [lia | simpl in Hn; lia |].
  assert (Hdiv : n / 10 < 10 ^ N.of_nat (S k)).
  { apply N.Div0.div_lt_upper_bound.
    replace (N.of_nat (S (S k))) with (N.succ (N.of_nat (S k))) in Hn by lia.
    rewrite N.pow_succ_r' in Hn. exact Hn. }
  specialize (IH (S k) (n / 10) ltac:(lia) Hdiv). lia.
Qed.

Lemma zpad_all_digits (width : nat) (n : N) :
  forallb is_digit (zpad width n) = true.
Proof.
  unfold zpad. rewrite forallb_app. apply andb_true_iff. split.
  - induction (width - length (digits n))%nat; simpl; auto.
  - apply digits_fuel_all_digits.
Qed.

Lemma zpad_length (width : nat) (n : N) :
  (1 <= width)%nat -> n < 10 ^ N.of_nat width ->
  length (zpad width n) = width.
Proof.
  intros Hw Hn. unfold zpad. rewrite length_app, repeat_length.
  pose proof (digits_fuel_length (S (N.to_nat (N.log2 n))) width n Hw Hn) as H.
  unfold digits. lia.
Qed.

Lemma int_of_digits_app (a : str) (c : codepoint) :
  int_of_digits (a ++ [c]) = int_of_digits a * 10 + (c - 48).
Proof. unfold int_of_digits. now rewrite fold_left_app. Qed.

Lemma digits_fuel_value (fuel : nat) (n : N) :
  n < 2 ^ N.of_nat fuel -> int_of_digits (digits_fuel fuel n) = n.
Proof.
  revert n. induction fuel as [|fuel IH]; intros n Hn.
  - simpl in Hn. assert (n = 0) by lia. now subst.
  - change (digits_fuel (S fuel) n)
      with ((if n <? 10 then [] else digits_fuel fuel (n / 10))
            ++ [digit_char (n mod 10)]).
    rewrite int_of_digits_app. unfold digit_char.
    rewrite (N.add_comm 48), N.add_sub.
    pose proof (N.div_mod n 10 ltac:(discriminate)) as Hdm.
    pose proof (N.mod_lt n 10 ltac:(discriminate)) as Hmod.
    destruct (N.ltb_spec n 10) as [Hlt|Hge].
    + rewrite (N.mod_small n 10 Hlt). reflexivity.
    + rewrite IH; [lia|].
      replace (N.of_nat (S fuel)) with (N.succ (N.of_nat fuel)) in Hn by lia.
      rewrite N.pow_succ_r' in Hn.
      apply N.Div0.div_lt_upper_bound. lia.
Qed.

(** [digits] gives a number all the digits it has. *)
Lemma int_of_digits_digits (n : N) : int_of_digits (digits n) = n.
Proof.
  unfold digits. apply digits_fuel_value.
  replace (N.of_nat (S (N.to_nat (N.log2 n)))) with (N.succ (N.log2 n)) by lia.
  destruct n as [|p]; [reflexivity|].
  apply N.log2_spec. reflexivity.
Qed.

Lemma int_of_digits_zpad (width : nat) (n : N) : int_of_digits (zpad width n) = n.
Proof.
  unfold zpad. generalize (width - length (digits n))%nat as k. intro k.
  rewrite <- (int_of_digits_digits n) at 2.
  induction k as [|k IH]; [reflexivity | exact IH].
Qed.

Lemma valid_datetime_bounds (d : datetime) :
  valid_datetime d = true ->
  year d < 10 ^ 4 /\ month d < 10 ^ 2 /\ day d < 10 ^ 2
  /\ hour d < 10 ^ 2 /\ minute d < 10 ^ 2 /\ second d < 10 ^ 2
  /\ microsecond d < 10 ^ 6.
Proof.
  unfold valid_datetime. rewrite !andb_true_iff, !N.leb_le.
  change (10 ^ 4) with 10000. change (10 ^ 2) with 100.
  change (10 ^ 6) with 1000000. lia.
Qed.

(** A valid [datetime] prints as an ISO-8601 date and time, and the
    handler's [ts] adds the [Z]. *)
Lemma isoformat_z_shape (d : datetime) :
  valid_datetime d = true -> iso8601_z (isoformat d ++ lit "Z").
Proof.
  intro Hv. apply valid_datetime_bounds in Hv.
  destruct Hv as (Hy & Hmo & Hd & Hh & Hmi & Hs & Hus).
  exists (zpad 4 (year d)), (zpad 2 (month d)), (zpad 2 (day d)),
         (zpad 2 (hour d)), (zpad 2 (minute d)), (zpad 2 (second d)),
         (if microsecond d =? 0 then [] else lit "." ++ zpad 6 (microsecond d)).
  split; [|split; [|repeat split]].
  - unfold isoformat, format_time. now rewrite <- !app_assoc.
  - rewrite !forallb_app, !zpad_all_digits. reflexivity.
  - apply (zpad_length 4); [lia | exact Hy].
  - apply (zpad_length 2); [lia | exact Hmo].
  - apply (zpad_length 2); [lia | exact Hd].
  - apply (zpad_length 2); [lia | exact Hh].
  - apply (zpad_length 2); [lia | exact Hmi].
  - apply (zpad_length 2); [lia | exact Hs].
  - destruct (microsecond d =? 0); [now left | right].
    exists (zpad 6 (microsecond d)). split; [reflexivity|].
    split; [apply zpad_all_digits | apply (zpad_length 6); [lia | exact Hus]].
Qed.

Lemma timestamp_shape (w : World) :
  valid_datetime (clock w) = true -> iso8601_z (timestamp w).
Proof. apply isoformat_z_shape. Qed.

Lemma is_digit_ascii (s : str) :
  forallb is_digit s = true -> forallb is_ascii s = true.
Proof.
  induction s as [|c s IH]; simpl; [reflexivity|].
  rewrite !andb_true_iff. intros [Hc Hs]. split; [|now apply IH].
  unfold is_digit in Hc. apply andb_true_iff in Hc. destruct Hc as [_ Hc].
  apply N.leb_le in Hc. apply N.ltb_lt. lia.
Qed.

Lemma is_digit_not_space (s : str) :
  forallb is_digit s = true -> ~ In 32 s.
Proof.
  induction s as [|c s IH]; simpl; [tauto|].
  rewrite andb_true_iff. intros [Hc Hs] [E|Hin]; [|now apply IH].
  subst c. discriminate Hc.
Qed.

Lemma timestamp_no_space (w : World) : ~ In 32 (timestamp w).
Proof.
  unfold timestamp, isoformat, format_time.
  assert (Hz : forall k n, ~ In 32 (zpad k n))
    by (intros k n; apply is_digit_not_space, zpad_all_digits).
  destruct (microsecond (clock w) =? 0);
    rewrite !in_app_iff; simpl;
    intro H; repeat (destruct H as [H|H]);
      try discriminate H; try contradiction; try (now apply Hz in H).
Qed.

(** The digits of a timestamp are those of the clock: read at their
    fixed places they give its fields again. *)
Lemma timestamp_reads_clock (w : World) :
  valid_datetime (clock w) = true ->
  read_timestamp (timestamp w) = clock w
  /\ length (timestamp w)
     = (if microsecond (clock w) =? 0 then 20 else 27)%nat.
Proof.
  intros Hv. apply valid_datetime_bounds in Hv.
  destruct Hv as (Hy & Hmo & Hd & Hh & Hmi & Hs & Hus).
  destruct (clock w) as [y mo d h mi s us] eqn:Hclock.
  unfold timestamp, isoformat, format_time. rewrite Hclock.
  cbn [year month day hour minute second microsecond] in *.
  pose proof (zpad_length 4 y ltac:(lia) Hy) as Ly.
  pose proof (zpad_length 2 mo ltac:(lia) Hmo) as Lmo.
  pose proof (zpad_length 2 d ltac:(lia) Hd) as Ld.
  pose proof (zpad_length 2 h ltac:(lia) Hh) as Lh.
  pose proof (zpad_length 2 mi ltac:(lia) Hmi) as Lmi.
  pose proof (zpad_length 2 s ltac:(lia) Hs) as Ls.
  pose proof (zpad_length 6 us ltac:(lia) Hus) as Lus.
  pose proof (int_of_digits_zpad 4 y) as Vy.
  pose proof (int_of_digits_zpad 2 mo) as Vmo.
  pose proof (int_of_digits_zpad 2 d) as Vd.
  pose proof (int_of_digits_zpad 2 h) as Vh.
  pose proof (int_of_digits_zpad 2 mi) as Vmi.
  pose proof (int_of_digits_zpad 2 s) as Vs.
  pose proof (int_of_digits_zpad 6 us) as Vus.
  destruct (zpad 4 y) as [|y1 [|y2 [|y3 [|y4 [|]]]]]; try discriminate Ly.
  destruct (zpad 2 mo) as [|mo1 [|mo2 [|]]]; try discriminate Lmo.
  destruct (zpad 2 d) as [|d1 [|d2 [|]]]; try discriminate Ld.
  destruct (zpad 2 h) as [|h1 [|h2 [|]]]; try discriminate Lh.
  destruct (zpad 2 mi) as [|mi1 [|mi2 [|]]]; try discriminate Lmi.
  destruct (zpad 2 s) as [|s1 [|s2 [|]]]; try discriminate Ls.
  destruct (zpad 6 us) as [|u1 [|u2 [|u3 [|u4 [|u5 [|u6 [|]]]]]]];
    try discriminate Lus.
  destruct (N.eqb_spec us 0) as [->|Hne].
  - split; [|reflexivity].
    unfold read_timestamp.
    cbn [app lit map list_ascii_of_string firstn skipn length Nat.leb].
    now rewrite Vy, Vmo, Vd, Vh, Vmi, Vs.
  - split; [|reflexivity].
    unfold read_timestamp.
    cbn [app lit map list_ascii_of_string firstn skipn length Nat.leb].
    now rewrite Vy, Vmo, Vd, Vh, Vmi, Vs, Vus.
Qed.

Lemma timestamp_names_one_clock (w w' : World) :
  valid_datetime (clock w) = true ->
  valid_datetime (clock w') = true ->
  timestamp w' = timestamp w -> clock w' = clock w.
Proof.
  intros Hv Hv' E.
  destruct (timestamp_reads_clock w Hv) as [Hr _].
  destruct (timestamp_reads_clock w' Hv') as [Hr' _].
  now rewrite <- Hr', E.
Qed.

Lemma timestamp_ascii (w : World) : forallb is_ascii (timestamp w) = true.
Proof.
  unfold timestamp, isoformat, format_time.
  destruct (microsecond (clock w) =? 0);
    rewrite !forallb_app, !(is_digit_ascii _ (zpad_all_digits _ _));
    reflexivity.
Qed.

(** ** What the routes answer and what the log gains *)

Section Routes.

Context {lib : Library}.

(** The request alone decides the outcome of [/ingest]: neither the
    clock, nor the log, nor its writability has a say. *)
Lemma ingest_outcome_of_request (request : Request) (w1 w2 : World) :
  fst (ingest request w1) = fst (ingest request w2).
Proof.
  destruct (PyStr.eqb (content_type request) (lit "application/json")) eqn:Hct.
  - apply eqb_eq in Hct.
    destruct (json_loads_bytes (body request)) as [v|] eqn:Hj.
    + destruct (is_object v) eqn:Hv.
      * destruct v; try discriminate.
        now rewrite !(ingest_json_object _ _ _ Hct Hj).
      * now rewrite !(ingest_json_not_object _ _ _ Hct Hj Hv).
    + now rewrite !(ingest_json_invalid _ _ Hct Hj).
  - apply eqb_neq in Hct.
    destruct (payload request) as [|c p] eqn:Hp.
    + now rewrite !(ingest_text_empty _ _ Hct Hp).
    + assert (Hne : payload request <> []) by (rewrite Hp; discriminate).
      now rewrite !(ingest_text_line _ _ Hct Hne).
Qed.

(** An accepted [/ingest] request ran the append writer once. *)
Lemma ingest_accepted_inv (request : Request) (w w' : World) (r : Response) :
  ingest request w = (Returned r, w') -> status_code r = 202 ->
  exists line, w' = snd (write_log_line line w).
Proof.
  intros Hrun Hst.
  destruct (PyStr.eqb (content_type request) (lit "application/json")) eqn:Hct.
  - apply eqb_eq in Hct.
    destruct (json_loads_bytes (body request)) as [v|] eqn:Hj.
    + destruct (is_object v) eqn:Hv.
      * destruct v; try discriminate.
        rewrite (ingest_json_object _ _ _ Hct Hj) in Hrun.
        injection Hrun as _ <-. eauto.
      * rewrite (ingest_json_not_object _ _ _ Hct Hj Hv) in Hrun. discriminate.
    + rewrite (ingest_json_invalid _ _ Hct Hj) in Hrun.
      injection Hrun as <- _. discriminate.
  - apply eqb_neq in Hct.
    destruct (payload request) as [|c p] eqn:Hp.
    + rewrite (ingest_text_empty _ _ Hct Hp) in Hrun.
      injection Hrun as <- _. discriminate.
    + assert (Hne : payload request <> []) by (rewrite Hp; discriminate).
      rewrite (ingest_text_line _ _ Hct Hne) in Hrun.
      injection Hrun as _ <-. eauto.
Qed.

(** What one run of the append writer leaves in the world. *)
Lemma write_log_line_effect (line : str) (w : World) :
  let w' := snd (write_log_line line w) in
  (write_fault w = None ->
     log_text w' = log_text w ++ line ++ [newline]
     /\ stderr w' = stderr w
     /\ (count_lines line = 0%nat -> one_line_appended w w'))
  /\ (forall n msg, write_fault w = Some (n, msg) ->
        log_text w' = log_text w ++ firstn n (line ++ [newline])
        /\ stderr w' = stderr w ++ [write_failure msg]).
Proof.
  split.
  - intro H. rewrite (write_log_line_writable line w H). simpl.
    repeat split. intro Hc. exists (line ++ [newline]). split; [reflexivity|].
    exists line. now split.
  - intros n msg H. rewrite (write_log_line_failing line msg n w H). now simpl.
Qed.

(** C2, as the code has it.  A request that [/ingest] answers with 202
    or [/logline] with 200 has run the append writer exactly once, on
    one line, and the world in which the response is returned is the
    one the writer left.  With a writable destination the log has
    gained that line and a newline, which is exactly one
    newline-terminated line when the line holds no newline of its own;
    with a failing destination the log has gained what the failed
    append left of them (nothing, when the file cannot be opened) and
    the error stream has gained one diagnostic. *)
Theorem accepted_request_runs_writer_once :
  forall (request : Request) (w w' : World) (r : Response),
    (post_ingest request w = (Returned r, w') /\ status_code r = 202)
    \/ (post_logline request w = (Returned r, w') /\ status_code r = 200) ->
    exists line,
      w' = snd (write_log_line line w)
      /\ (write_fault w = None ->
            log_text w' = log_text w ++ line ++ [newline]
            /\ (count_lines line = 0%nat -> one_line_appended w w'))
      /\ (forall n msg, write_fault w = Some (n, msg) ->
            log_text w' = log_text w ++ firstn n (line ++ [newline])
            /\ stderr w' = stderr w ++ [write_failure msg]).
Proof.
  intros request w w' r H.
  assert (Hline : exists line, w' = snd (write_log_line line w)).
  { destruct H as [[Hrun Hst] | [Hrun Hst]].
    - exact (ingest_accepted_inv request w w' r Hrun Hst).
    - rewrite post_logline_runs in Hrun. injection Hrun as _ <-. eauto. }
  destruct Hline as [line ->]. exists line. split; [reflexivity|].
  destruct (write_log_line_effect line w) as [Hok Hfail]. split.
  - intro Hw. destruct (Hok Hw) as (H1 & _ & H3). now split.
  - exact Hfail.
Qed.

(** C3.  The append writer, given a line, adds the line and one
    newline to the destination.  When the append fails, wherever it
    fails, the error is caught and printed to the error stream, the
    writer returns all the same, and the response of either route is
    what it is with a writable destination. *)
Theorem write_log_line_swallows_failure :
  forall (line : str) (w : World),
    fst (write_log_line line w) = Returned tt
    /\ (write_fault w = None ->
          log_text (snd (write_log_line line w)) = log_text w ++ line ++ [newline]
          /\ stderr (snd (write_log_line line w)) = stderr w)
    /\ (forall n msg, write_fault w = Some (n, msg) ->
          log_text (snd (write_log_line line w))
          = log_text w ++ firstn n (line ++ [newline])
          /\ stderr (snd (write_log_line line w)) = stderr w ++ [write_failure msg])
    /\ (forall request e,
          fst (post_ingest request (set_write_fault e w))
          = fst (post_ingest request (set_write_fault None w))
          /\ fst (post_logline request (set_write_fault e w))
             = fst (post_logline request (set_write_fault None w))).
Proof.
  intros line w. split; [apply write_log_line_returns|].
  destruct (write_log_line_effect line w) as [Hok Hfail].
  split; [|split].
  - intro Hw. destruct (Hok Hw) as (H1 & H2 & _). now split.
  - exact Hfail.
  - intros request e. split.
    + apply ingest_outcome_of_request.
    + now rewrite !post_logline_runs.
Qed.

(** C5.  A request to [/ingest] with the JSON content type whose body
    does not parse is answered 400 [invalid json], and the world is
    left as it was: nothing is appended, the line count of the
    destination is unchanged. *)
Theorem ingest_invalid_json_rejected :
  forall (request : Request) (w : World),
    content_type request = lit "application/json" ->
    json_loads_bytes (body request) = None ->
    post_ingest request w
    = (Returned (mk_response 400 (lit "invalid json")), w)
    /\ count_lines (log_text (snd (post_ingest request w)))
       = count_lines (log_text w).
Proof.
  intros request w Hct Hj. unfold post_ingest.
  rewrite (ingest_json_invalid _ _ Hct Hj). now split.
Qed.

(** C6.  A request to [/ingest] with another content type whose body
    decodes and trims to the empty text is answered 400 [empty body],
    and nothing is appended. *)
Theorem ingest_empty_text_rejected :
  forall (request : Request) (w : World),
    content_type request <> lit "application/json" ->
    strip (decode_utf8_replace (body request)) = [] ->
    post_ingest request w
    = (Returned (mk_response 400 (lit "empty body")), w)
    /\ log_text (snd (post_ingest request w)) = log_text w.
Proof.
  intros request w Hct Hp. unfold post_ingest.
  rewrite (ingest_text_empty _ _ Hct Hp). now split.
Qed.

End Routes.

(** ** The lines the routes write

    A route appends a line by running the append writer on it: the
    world it returns is the one the writer left, and a writable
    destination has gained the line and a newline. *)

Section Lines.

Context {lib : Library}.

(** C7.  A request to [/ingest] with a content type other than JSON
    whose body decodes and trims to a non-empty text [P] is answered
    202 with an empty body, and the line given to the append writer is
    the timestamp of the clock (ISO-8601 with a trailing [Z]), one
    space, then [P] as it is; a writable destination gains that line
    and a newline.  The timestamp is the current one: its digits,
    read at their places, are the year, the month, the day, the hour,
    the minute, the second and the microsecond the clock shows when
    the request is handled, and no other valid clock gives the same
    text. *)
Theorem ingest_text_line_logged :
  forall (request : Request) (w : World) (P : str),
    content_type request <> lit "application/json" ->
    strip (decode_utf8_replace (body request)) = P ->
    P <> [] ->
    valid_datetime (clock w) = true ->
    post_ingest request w
    = (Returned (mk_response 202 []),
       snd (write_log_line (timestamp w ++ [32] ++ P) w))
    /\ iso8601_z (timestamp w)
    /\ (write_fault w = None ->
          log_text (snd (post_ingest request w))
          = log_text w ++ (timestamp w ++ [32] ++ P) ++ [newline])
    /\ read_timestamp (timestamp w) = clock w
    /\ read_timestamp (split_head 32 (timestamp w ++ [32] ++ P)) = clock w
    /\ (forall w', valid_datetime (clock w') = true ->
                   timestamp w' = timestamp w -> clock w' = clock w).
Proof.
  intros request w P Hct HP Hne Hv. unfold post_ingest.
  assert (Hp : payload request <> [])
    by (unfold payload; now rewrite HP).
  rewrite (ingest_text_line _ _ Hct Hp).
  unfold payload. rewrite HP. split; [reflexivity|].
  split; [now apply timestamp_shape|].
  split; [intro Hw; simpl; now rewrite (write_log_line_writable _ w Hw)|].
  destruct (timestamp_reads_clock w Hv) as [Hr _].
  split; [exact Hr|].
  split.
  { exact (eq_trans (f_equal read_timestamp
                       (split_head_app 32 (timestamp w) P (timestamp_no_space w)))
                    Hr). }
  intros w' Hv' E. exact (timestamp_names_one_clock w w' Hv Hv' E).
Qed.


(** C9.  A request to [/ingest] with the JSON content type whose body
    parses to a value that is not an object (an array, a text, a
    number, [null]) is not answered 400 [invalid json]: the dict
    display raises a [TypeError] outside the [try], the handler
    returns no response at all, and nothing is written. *)
Theorem ingest_json_non_object_raises :
  forall (request : Request) (w : World) (v : json),
    content_type request = lit "application/json" ->
    json_loads_bytes (body request) = Some v ->
    is_object v = false ->
    post_ingest request w
    = (Raised (TypeError (lit "'" ++ type_name v ++ lit "' object is not a mapping")),
       w)
    /\ (forall r w', post_ingest request w <> (Returned r, w')).
Proof.
  intros request w v Hct Hj Hv. unfold post_ingest.
  rewrite (ingest_json_not_object _ _ _ Hct Hj Hv).
  split; [reflexivity | discriminate].
Qed.

(** C10.  When the body of a request to [/logline] trims to the empty
    text, the line given to the append writer is the timestamp
    followed by exactly one space, and a writable destination gains
    the timestamp, the space and a newline. *)
Theorem logline_empty_payload_line :
  forall (request : Request) (w : World),
    strip (decode_utf8_replace (body request)) = [] ->
    log_line request w
    = (Returned [(lit "status", lit "ok")],
       snd (write_log_line (timestamp w ++ [32]) w))
    /\ (write_fault w = None ->
          log_text (snd (log_line request w))
          = log_text w ++ timestamp w ++ [32; newline]).
Proof.
  intros request w Hp. rewrite log_line_runs. unfold payload. rewrite Hp.
  split; [reflexivity|].
  intro Hw. simpl. rewrite (write_log_line_writable _ w Hw). simpl.
  now rewrite <- app_assoc.
Qed.

End Lines.

(** ** Escapes: what the decoder reads back from the encoder *)

Lemma hex_value_hex_digit (d : N) : d < 16 -> hex_value (hex_digit d) = Some d.
Proof.
  intro H. unfold hex_value, hex_digit, is_digit.
  destruct (N.ltb_spec d 10) as [Hlt|Hge].
  - replace ((48 <=? 48 + d) && (48 + d <=? 57)) with true.
    + f_equal. lia.
    + symmetry. apply andb_true_iff. split; apply N.leb_le; lia.
  - replace ((48 <=? 87 + d) && (87 + d <=? 57)) with false.
    + replace ((97 <=? 87 + d) && (87 + d <=? 102)) with true.
      * f_equal. lia.
      * symmetry. apply andb_true_iff. split; apply N.leb_le; lia.
    + symmetry. apply andb_false_iff. right. apply N.leb_gt. lia.
Qed.

Lemma nibble_lt (a : N) : N.land a 15 < 16.
Proof.
  change 15 with (N.ones 4). rewrite N.land_ones.
  apply N.mod_lt. discriminate.
Qed.

Lemma hex4_format_04x (n : N) :
  n < 65536 ->
  exists a b c d, format_04x n = [a; b; c; d] /\ hex4 a b c d = Some n.
Proof.
  intro Hn. unfold format_04x. do 4 eexists. split; [reflexivity|].
  unfold hex4.
  rewrite !hex_value_hex_digit by apply nibble_lt.
  f_equal. change 15 with (N.ones 4). rewrite !N.land_ones, !N.shiftr_div_pow2.
  change (2 ^ 4) with 16. change (2 ^ 8) with (16 * 16).
  change (2 ^ 12) with (16 * (16 * 16)).
  rewrite <- !N.Div0.div_div.
  pose proof (N.div_mod n 16 ltac:(discriminate)) as E0.
  pose proof (N.div_mod (n / 16) 16 ltac:(discriminate)) as E1.
  pose proof (N.div_mod (n / 16 / 16) 16 ltac:(discriminate)) as E2.
  pose proof (N.div_mod (n / 16 / 16 / 16) 16 ltac:(discriminate)) as E3.
  pose proof (N.mod_lt n 16 ltac:(discriminate)).
  pose proof (N.mod_lt (n / 16) 16 ltac:(discriminate)).
  pose proof (N.mod_lt (n / 16 / 16) 16 ltac:(discriminate)).
  assert (H3 : n / 16 / 16 / 16 < 16).
  { rewrite !N.Div0.div_div. apply N.Div0.div_lt_upper_bound. simpl. lia. }
  rewrite (N.mod_small (n / 16 / 16 / 16) 16 H3).
  lia.
Qed.

Lemma lor_shifted (a b k : N) : b < 2 ^ k -> N.lor (a * 2 ^ k) b = a * 2 ^ k + b.
Proof.
  intro Hb.
  assert (Hland : N.land (a * 2 ^ k) b = 0).
  { apply N.bits_inj. intro i. rewrite N.land_spec, N.bits_0.
    destruct (N.ltb_spec i k) as [Hlt|Hge].
    - now rewrite N.mul_pow2_bits_low.
    - rewrite <- (N.mod_small b (2 ^ k) Hb), N.mod_pow2_bits_high by exact Hge.
      apply andb_false_r. }
  rewrite (N.add_nocarry_lxor _ _ Hland). symmetry. now apply N.lxor_lor.
Qed.

(** The two halves the encoder writes for a code point above the
    basic plane, and the code point the decoder makes of them. *)
Lemma surrogate_pair (c : N) :
  65536 <= c -> c < 1114112 ->
  let n := c - 65536 in
  let s1 := N.lor 55296 (N.land (N.shiftr n 10) 1023) in
  let s2 := N.lor 56320 (N.land n 1023) in
  s1 < 65536 /\ s2 < 65536
  /\ is_high_surrogate s1 = true /\ is_low_surrogate s2 = true
  /\ 65536 + N.lor (N.shiftl (s1 - 55296) 10) (s2 - 56320) = c.
Proof.
  intros Hlo Hhi n s1 s2.
  assert (Hn : n < 1048576) by (unfold n; lia).
  assert (Hx1 : N.land (N.shiftr n 10) 1023 = n / 1024).
  { change 1023 with (N.ones 10). rewrite N.land_ones, N.shiftr_div_pow2.
    change (2 ^ 10) with 1024. apply N.mod_small.
    apply N.Div0.div_lt_upper_bound. simpl. lia. }
  assert (Hx2 : N.land n 1023 = n mod 1024).
  { change 1023 with (N.ones 10). now rewrite N.land_ones. }
  assert (Hq : n / 1024 < 1024) by (apply N.Div0.div_lt_upper_bound; simpl; lia).
  assert (Hr : n mod 1024 < 1024) by (apply N.mod_lt; discriminate).
  assert (E1 : s1 = 55296 + n / 1024).
  { unfold s1. rewrite Hx1. change 55296 with (54 * 2 ^ 10).
    apply lor_shifted. exact Hq. }
  assert (E2 : s2 = 56320 + n mod 1024).
  { unfold s2. rewrite Hx2. change 56320 with (55 * 2 ^ 10).
    apply lor_shifted. exact Hr. }
  rewrite E1, E2. unfold is_high_surrogate, is_low_surrogate.
  repeat split; try lia.
  - apply andb_true_iff. split; apply N.leb_le; lia.
  - apply andb_true_iff. split; apply N.leb_le; lia.
  - replace (55296 + n / 1024 - 55296) with (n / 1024) by lia.
    replace (56320 + n mod 1024 - 56320) with (n mod 1024) by lia.
    rewrite N.shiftl_mul_pow2, lor_shifted by exact Hr.
    change (2 ^ 10) with 1024.
    pose proof (N.div_mod n 1024 ltac:(discriminate)). unfold n in *. lia.
Qed.

Lemma scan_string_plain (c : codepoint) (T : str) :
  c <> quote -> c <> backslash -> 32 <= c ->
  scan_string (c :: T) = push c (scan_string T).
Proof.
  intros Hq Hb Hc. simpl.
  apply N.eqb_neq in Hq, Hb. rewrite Hq, Hb.
  destruct (N.ltb_spec c 32); [lia | reflexivity].
Qed.

Lemma scan_string_u (h1 h2 h3 h4 : codepoint) (uni : N) (T : str) :
  hex4 h1 h2 h3 h4 = Some uni ->
  (is_high_surrogate uni = true -> pair_follows T = false) ->
  scan_string (backslash :: 117 :: h1 :: h2 :: h3 :: h4 :: T)
  = push uni (scan_string T).
Proof.
  intros Hh Hp.
  change (scan_string (backslash :: 117 :: h1 :: h2 :: h3 :: h4 :: T))
    with (match hex4 h1 h2 h3 h4 with
          | None => None
          | Some uni =>
              let single := push uni (scan_string T) in
              if is_high_surrogate uni then
                match T with
                | b :: u :: s3' =>
                    if (b =? backslash) && (u =? 117) then
                      match s3' with
                      | g1 :: g2 :: g3 :: g4 :: s4 =>
                          match hex4 g1 g2 g3 g4 with
                          | None => None
                          | Some uni2 =>
                              if is_low_surrogate uni2 then
                                push (65536 + N.lor (N.shiftl (uni - 55296) 10)
                                                    (uni2 - 56320))
                                     (scan_string s4)
                              else single
                          end
                      | _ => None
                      end
                    else single
                | _ => single
                end
              else single
          end).
  rewrite Hh. cbv zeta.
  destruct (is_high_surrogate uni); [|reflexivity].
  specialize (Hp eq_refl). unfold pair_follows in Hp.
  destruct T as [|b [|u T']]; try reflexivity.
  destruct ((b =? backslash) && (u =? 117)); [|reflexivity].
  destruct T' as [|g1 [|g2 [|g3 [|g4 s4]]]]; try discriminate.
  destruct (hex4 g1 g2 g3 g4) as [uni2|]; [|discriminate].
  now rewrite Hp.
Qed.

Lemma scan_string_pair (h1 h2 h3 h4 g1 g2 g3 g4 : codepoint) (u1 u2 : N) (T : str) :
  hex4 h1 h2 h3 h4 = Some u1 -> is_high_surrogate u1 = true ->
  hex4 g1 g2 g3 g4 = Some u2 -> is_low_surrogate u2 = true ->
  scan_string (backslash :: 117 :: h1 :: h2 :: h3 :: h4
               :: backslash :: 117 :: g1 :: g2 :: g3 :: g4 :: T)
  = push (65536 + N.lor (N.shiftl (u1 - 55296) 10) (u2 - 56320)) (scan_string T).
Proof.
  intros H1 Hh H2 Hl.
  change (scan_string (backslash :: 117 :: h1 :: h2 :: h3 :: h4
               :: backslash :: 117 :: g1 :: g2 :: g3 :: g4 :: T))
    with (match hex4 h1 h2 h3 h4 with
          | None => None
          | Some uni =>
              let single :=
                push uni (scan_string (backslash :: 117 :: g1 :: g2 :: g3 :: g4 :: T)) in
              if is_high_surrogate uni then
                match hex4 g1 g2 g3 g4 with
                | None => None
                | Some uni2 =>
                    if is_low_surrogate uni2 then
                      push (65536 + N.lor (N.shiftl (uni - 55296) 10)
                                          (uni2 - 56320))
                           (scan_string T)
                    else single
                end
              else single
          end).
  now rewrite H1, Hh, H2, Hl.
Qed.

Lemma scan_string_short (e ch : codepoint) (T : str) :
  e <> 117 -> unescape e = Some ch ->
  scan_string (backslash :: e :: T) = push ch (scan_string T).
Proof.
  intros He Hu. simpl. apply N.eqb_neq in He. now rewrite He, Hu.
Qed.

(** The four forms [escape_char] gives a character. *)
Lemma escape_char_cases (c : codepoint) :
  c < 1114112 ->
  (exists e, escape_char c = [backslash; e] /\ e <> 117 /\ unescape e = Some c)
  \/ (escape_char c = [c] /\ c <> quote /\ c <> backslash /\ 32 <= c)
  \/ (exists h1 h2 h3 h4,
        escape_char c = [backslash; 117; h1; h2; h3; h4]
        /\ hex4 h1 h2 h3 h4 = Some c)
  \/ (exists h1 h2 h3 h4 g1 g2 g3 g4 u1 u2,
        escape_char c = [backslash; 117; h1; h2; h3; h4;
                         backslash; 117; g1; g2; g3; g4]
        /\ hex4 h1 h2 h3 h4 = Some u1 /\ is_high_surrogate u1 = true
        /\ hex4 g1 g2 g3 g4 = Some u2 /\ is_low_surrogate u2 = true
        /\ 65536 + N.lor (N.shiftl (u1 - 55296) 10) (u2 - 56320) = c).
Proof.
  intro Hc. unfold escape_char.
  destruct (N.eqb_spec c quote) as [->|Hq].
  { left. exists 34. repeat split. discriminate. }
  destruct (N.eqb_spec c backslash) as [->|Hb].
  { left. exists 92. repeat split. discriminate. }
  destruct ((32 <=? c) && (c <=? 126)) eqn:Hp.
  { right. left. apply andb_true_iff in Hp. destruct Hp as [Hp _].
    apply N.leb_le in Hp. now repeat split. }
  destruct (N.eqb_spec c 8) as [->|H8].
  { left. exists 98. repeat split. discriminate. }
  destruct (N.eqb_spec c 12) as [->|H12].
  { left. exists 102. repeat split. discriminate. }
  destruct (N.eqb_spec c 10) as [->|H10].
  { left. exists 110. repeat split. discriminate. }
  destruct (N.eqb_spec c 13) as [->|H13].
  { left. exists 114. repeat split. discriminate. }
  destruct (N.eqb_spec c 9) as [->|H9].
  { left. exists 116. repeat split. discriminate. }
  destruct (N.ltb_spec c 65536) as [Hlt|Hge].
  - right. right. left.
    destruct (hex4_format_04x c Hlt) as (a & b & d & e & E & H).
    exists a, b, d, e. rewrite E. now split.
  - right. right. right.
    destruct (surrogate_pair c Hge Hc) as (L1 & L2 & Hh & Hl & Heq).
    cbv zeta in *.
    destruct (hex4_format_04x _ L1) as (a1 & b1 & d1 & e1 & E1 & H1).
    destruct (hex4_format_04x _ L2) as (a2 & b2 & d2 & e2 & E2 & H2).
    exists a1, b1, d1, e1, a2, b2, d2, e2. do 2 eexists.
    rewrite E1, E2. split; [reflexivity|]. repeat split; eassumption.
Qed.

Lemma high_not_low (u : N) : is_high_surrogate u = true -> is_low_surrogate u = false.
Proof.
  unfold is_high_surrogate, is_low_surrogate. rewrite andb_true_iff, !N.leb_le.
  intros [_ H]. apply andb_false_iff. left. apply N.leb_gt. lia.
Qed.

Lemma pair_follows_quote (rest : str) : pair_follows (quote :: rest) = false.
Proof. destruct rest; reflexivity. Qed.

Lemma pair_follows_escape_char (c : codepoint) (T : str) :
  c < 1114112 -> is_low_surrogate c = false ->
  pair_follows (escape_char c ++ T) = false.
Proof.
  intros Hc Hl.
  destruct (escape_char_cases c Hc)
    as [(e & E & He & _) | [(E & _ & Hb & _) | [(h1 & h2 & h3 & h4 & E & H)
       | (h1 & h2 & h3 & h4 & g1 & g2 & g3 & g4 & u1 & u2 & E & H1 & Hh & _)]]];
    rewrite E; simpl.
  - apply N.eqb_neq in He. now rewrite He.
  - destruct T; [reflexivity|]. apply N.eqb_neq in Hb. now rewrite Hb.
  - now rewrite H.
  - rewrite H1. now apply high_not_low.
Qed.

Lemma scan_string_escape_char (c : codepoint) (T : str) :
  c < 1114112 ->
  (is_high_surrogate c = true -> pair_follows T = false) ->
  scan_string (escape_char c ++ T) = push c (scan_string T).
Proof.
  intros Hc Hp.
  destruct (escape_char_cases c Hc)
    as [(e & E & He & Hu) | [(E & Hq & Hb & H32) | [(h1 & h2 & h3 & h4 & E & H)
       | (h1 & h2 & h3 & h4 & g1 & g2 & g3 & g4 & u1 & u2 & E & H1 & Hh & H2 & Hl & Heq)]]];
    rewrite E.
  - now apply scan_string_short.
  - now apply scan_string_plain.
  - now apply scan_string_u.
  - rewrite <- Heq. now apply scan_string_pair.
Qed.

(** The decoder reads a text back from what the encoder wrote. *)
Lemma scan_string_encoded (s rest : str) :
  wf_text s = true ->
  scan_string (flat_map escape_char s ++ quote :: rest) = Some (s, rest).
Proof.
  induction s as [|c s IH]; intro Hwf; [reflexivity|].
  simpl in Hwf. apply andb_true_iff in Hwf. destruct Hwf as [Hwf Hs].
  apply andb_true_iff in Hwf. destruct Hwf as [Hc Hpair].
  apply N.ltb_lt in Hc.
  simpl flat_map. rewrite <- app_assoc.
  rewrite scan_string_escape_char; [now rewrite (IH Hs) | exact Hc |].
  intro Hh. rewrite Hh in Hpair. simpl in Hpair.
  destruct s as [|c2 s']; [apply pair_follows_quote|].
  simpl flat_map. rewrite <- app_assoc.
  apply pair_follows_escape_char.
  - simpl in Hs. rewrite !andb_true_iff in Hs. destruct Hs as [[H _] _].
    now apply N.ltb_lt.
  - now apply negb_true_iff.
Qed.

(** ** Numbers *)

Lemma value_end_not_digit (c : codepoint) (rest : str) :
  value_end (c :: rest) = true ->
  is_digit c = false /\ c <> 46 /\ c <> 101 /\ c <> 69 /\ c <> 45 /\ c <> 43
  /\ is_json_ws c = false.
Proof.
  simpl. rewrite !orb_true_iff, !N.eqb_eq. intros [[->| ->]| ->];
    repeat split; discriminate.
Qed.

Lemma span_digits_stable (s ds r rest : str) :
  span_digits s = (ds, r) -> value_end rest = true ->
  span_digits (s ++ rest) = (ds, r ++ rest).
Proof.
  revert ds r. induction s as [|c s IH]; intros ds r H Hend.
  - injection H as <- <-. simpl. destruct rest as [|c rest]; [reflexivity|].
    apply value_end_not_digit in Hend. destruct Hend as [Hd _].
    simpl. now rewrite Hd.
  - simpl in *. destruct (is_digit c).
    + destruct (span_digits s) as [ds' r'] eqn:E. injection H as <- <-.
      now rewrite (IH ds' r' eq_refl Hend).
    + now injection H as <- <-.
Qed.

Lemma span_digits_split (s ds r : str) :
  span_digits s = (ds, r) -> s = ds ++ r.
Proof.
  revert ds r. induction s as [|c s IH]; intros ds r H; simpl in H.
  - now injection H as <- <-.
  - destruct (is_digit c).
    + destruct (span_digits s) as [ds' r'] eqn:E. injection H as <- <-.
      simpl. f_equal. now apply IH.
    + now injection H as <- <-.
Qed.

Lemma scan_integer_stable (s i r rest : str) :
  scan_integer s = Some (i, r) -> value_end rest = true ->
  scan_integer (s ++ rest) = Some (i, r ++ rest).
Proof.
  intros H Hend. destruct s as [|c s]; [discriminate|]. simpl in *.
  destruct (c =? 48); [now injection H as <- <-|].
  destruct (is_digit c); [|discriminate].
  destruct (span_digits s) as [ds r'] eqn:E. injection H as <- <-.
  now rewrite (span_digits_stable s ds r' rest E Hend).
Qed.

Lemma scan_integer_split (s i r : str) :
  scan_integer s = Some (i, r) -> s = i ++ r.
Proof.
  intro H. destruct s as [|c s]; [discriminate|]. simpl in H.
  destruct (c =? 48); [now injection H as <- <-|].
  destruct (is_digit c); [|discriminate].
  destruct (span_digits s) as [ds r'] eqn:E. injection H as <- <-.
  simpl. f_equal. now apply span_digits_split.
Qed.

Lemma scan_frac_stable (s f r rest : str) :
  scan_frac s = (f, r) -> value_end rest = true ->
  scan_frac (s ++ rest) = (f, r ++ rest).
Proof.
  intros H Hend. destruct s as [|c s].
  - injection H as <- <-. simpl. destruct rest as [|c rest]; [reflexivity|].
    apply value_end_not_digit in Hend. destruct Hend as (_ & H46 & _).
    simpl. apply N.eqb_neq in H46. now rewrite H46.
  - simpl in *. destruct (c =? 46); [|now injection H as <- <-].
    destruct (span_digits s) as [ds r'] eqn:E.
    rewrite (span_digits_stable s ds r' rest E Hend).
    destruct ds; now injection H as <- <-.
Qed.

Lemma scan_frac_split (s f r : str) : scan_frac s = (f, r) -> s = f ++ r.
Proof.
  intro H. destruct s as [|c s]; simpl in H; [now injection H as <- <-|].
  destruct (c =? 46); [|now injection H as <- <-].
  destruct (span_digits s) as [ds r'] eqn:E.
  apply span_digits_split in E.
  destruct ds; injection H as <- <-; [reflexivity|].
  simpl. now f_equal.
Qed.

Lemma scan_exp_stable (s e r rest : str) :
  scan_exp s = (e, r) -> value_end rest = true ->
  scan_exp (s ++ rest) = (e, r ++ rest).
Proof.
  intros H Hend. destruct s as [|c s].
  - injection H as <- <-. simpl. destruct rest as [|c rest]; [reflexivity|].
    apply value_end_not_digit in Hend. destruct Hend as (_ & _ & H101 & H69 & _).
    simpl. apply N.eqb_neq in H101, H69. now rewrite H101, H69.
  - simpl in *. destruct ((c =? 101) || (c =? 69)); [|now injection H as <- <-].
    destruct s as [|d t].
    + simpl in *. injection H as <- <-.
      destruct rest as [|c' rest]; [reflexivity|].
      destruct (value_end_not_digit _ _ Hend) as (Hd & _ & _ & _ & H45 & H43 & _).
      apply N.eqb_neq in H45, H43. rewrite H45, H43. simpl. now rewrite Hd.
    + simpl. destruct ((d =? 45) || (d =? 43)).
      * destruct (span_digits t) as [ds r'] eqn:E.
        rewrite (span_digits_stable t ds r' rest E Hend).
        destruct ds; now injection H as <- <-.
      * destruct (span_digits (d :: t)) as [ds r'] eqn:E.
        change (d :: t ++ rest) with ((d :: t) ++ rest).
        rewrite (span_digits_stable (d :: t) ds r' rest E Hend).
        destruct ds; now injection H as <- <-.
Qed.

Lemma scan_exp_split (s e r : str) : scan_exp s = (e, r) -> s = e ++ r.
Proof.
  intro H. destruct s as [|c s]; simpl in H; [now injection H as <- <-|].
  destruct ((c =? 101) || (c =? 69)); [|now injection H as <- <-].
  destruct s as [|d t].
  - simpl in H. now injection H as <- <-.
  - destruct ((d =? 45) || (d =? 43)).
    + destruct (span_digits t) as [ds r'] eqn:E. apply span_digits_split in E.
      destruct ds; injection H as <- <-; [reflexivity|].
      simpl. now do 2 f_equal.
    + destruct (span_digits (d :: t)) as [ds r'] eqn:E.
      apply span_digits_split in E.
      destruct ds; injection H as <- <-; [reflexivity|].
      simpl. now f_equal.
Qed.

Lemma match_number_stable (s m r rest : str) :
  match_number s = Some (m, r) -> value_end rest = true ->
  match_number (s ++ rest) = Some (m, r ++ rest).
Proof.
  intros H Hend. unfold match_number in *.
  assert (Hgen : forall sign s1,
            match scan_integer s1 with
            | None => None
            | Some (i, s2) =>
                let (f, s3) := scan_frac s2 in
                let (e, s4) := scan_exp s3 in Some (sign ++ i ++ f ++ e, s4)
            end = Some (m, r) ->
            match scan_integer (s1 ++ rest) with
            | None => None
            | Some (i, s2) =>
                let (f, s3) := scan_frac s2 in
                let (e, s4) := scan_exp s3 in Some (sign ++ i ++ f ++ e, s4)
            end = Some (m, r ++ rest)).
  { intros sign s1 H1.
    destruct (scan_integer s1) as [[i s2]|] eqn:Ei; [|discriminate].
    rewrite (scan_integer_stable s1 i s2 rest Ei Hend).
    destruct (scan_frac s2) as [f s3] eqn:Ef.
    rewrite (scan_frac_stable s2 f s3 rest Ef Hend).
    destruct (scan_exp s3) as [e s4] eqn:Ee.
    rewrite (scan_exp_stable s3 e s4 rest Ee Hend).
    now injection H1 as <- <-. }
  destruct s as [|c t].
  - simpl in H. discriminate.
  - simpl app. cbv beta iota in H |- *. destruct (c =? 45).
    + now apply Hgen.
    + change (c :: t ++ rest) with ((c :: t) ++ rest). now apply Hgen.
Qed.

Lemma match_number_split (s m r : str) :
  match_number s = Some (m, r) -> s = m ++ r.
Proof.
  unfold match_number.
  assert (Hgen : forall sign s1,
            match scan_integer s1 with
            | None => None
            | Some (i, s2) =>
                let (f, s3) := scan_frac s2 in
                let (e, s4) := scan_exp s3 in Some (sign ++ i ++ f ++ e, s4)
            end = Some (m, r) -> sign ++ s1 = m ++ r).
  { intros sign s1 H1.
    destruct (scan_integer s1) as [[i s2]|] eqn:Ei; [|discriminate].
    destruct (scan_frac s2) as [f s3] eqn:Ef.
    destruct (scan_exp s3) as [e s4] eqn:Ee.
    injection H1 as <- <-.
    apply scan_integer_split in Ei. apply scan_frac_split in Ef.
    apply scan_exp_split in Ee. subst. now rewrite <- !app_assoc. }
  destruct s as [|c t]; intro H.
  - simpl in H. discriminate.
  - cbv beta iota in H. destruct (c =? 45).
    + apply (Hgen [c] t H).
    + apply (Hgen [] (c :: t) H).
Qed.

(** A number that matches begins with a minus sign or a digit. *)
Lemma match_number_head (s m r : str) :
  match_number s = Some (m, r) ->
  exists c t, s = c :: t /\ ((c =? 45) || is_digit c) = true.
Proof.
  intro H. destruct s as [|c t]; [discriminate|].
  exists c, t. split; [reflexivity|].
  unfold match_number in H. destruct (c =? 45); [reflexivity|].
  simpl in H. destruct (N.eqb_spec c 48) as [->|_]; [reflexivity|].
  destruct (is_digit c); [reflexivity | discriminate].
Qed.

(** ** Dictionaries *)

Lemma existsb_eqb_In (k : str) (ks : list str) :
  existsb (PyStr.eqb k) ks = true <-> In k ks.
Proof.
  rewrite existsb_exists. split.
  - intros (x & Hin & Heq). apply eqb_eq in Heq. now subst.
  - intro Hin. exists k. split; [exact Hin | apply eqb_refl].
Qed.

Lemma distinct_NoDup (ks : list str) : distinct ks = true <-> NoDup ks.
Proof.
  induction ks as [|k ks IH]; simpl.
  - split; [constructor | reflexivity].
  - rewrite andb_true_iff, negb_true_iff, IH. split.
    + intros [Hn Hd]. constructor; [|exact Hd].
      intro Hin. apply existsb_eqb_In in Hin. congruence.
    + intro H. inversion H as [|? ? Hn Hd]; subst. split; [|exact Hd].
      destruct (existsb (PyStr.eqb k) ks) eqn:E; [|reflexivity].
      apply existsb_eqb_In in E. contradiction.
Qed.

Lemma dict_get_None {V} (k : str) (d : dict V) :
  dict_get k d = None <-> ~ In k (dict_keys d).
Proof.
  induction d as [|[k' v] d IH]; simpl; [tauto|].
  destruct (PyStr.eqb k' k) eqn:E.
  - apply eqb_eq in E. subst. split; [discriminate | tauto].
  - apply eqb_neq in E. rewrite IH. tauto.
Qed.

Lemma dict_get_In {V} (k : str) (v : V) (d : dict V) :
  dict_get k d = Some v -> In k (dict_keys d).
Proof.
  intro H. destruct (in_dec (list_eq_dec N.eq_dec) k (dict_keys d)) as [Hin|Hn];
    [exact Hin|].
  apply dict_get_None in Hn. congruence.
Qed.

Lemma dict_get_set {V} (k k' : str) (v : V) (d : dict V) :
  dict_get k (dict_set k' v d)
  = if PyStr.eqb k' k then Some v else dict_get k d.
Proof.
  induction d as [|[k0 v0] d IH]; simpl.
  - reflexivity.
  - destruct (PyStr.eqb k0 k') eqn:E0; simpl.
    + apply eqb_eq in E0. subst k0. now destruct (PyStr.eqb k' k).
    + rewrite IH. destruct (PyStr.eqb k0 k) eqn:E1; [|reflexivity].
      apply eqb_eq in E1. subst k0. apply eqb_neq in E0.
      replace (PyStr.eqb k' k) with false; [reflexivity|].
      symmetry. apply eqb_neq. congruence.
Qed.

Lemma dict_set_keys {V} (k : str) (v : V) (d : dict V) :
  dict_keys (dict_set k v d)
  = if existsb (PyStr.eqb k) (dict_keys d) then dict_keys d else dict_keys d ++ [k].
Proof.
  unfold dict_keys.
  induction d as [|[k0 v0] d IH]; simpl; [reflexivity|].
  destruct (PyStr.eqb k0 k) eqn:E; simpl.
  - apply eqb_eq in E. subst k0. now rewrite eqb_refl.
  - replace (PyStr.eqb k k0) with false.
    + simpl. rewrite IH.
      now destruct (existsb (PyStr.eqb k) (map fst d)).
    + symmetry. apply eqb_neq. apply eqb_neq in E. congruence.
Qed.

Lemma dict_set_fresh {V} (k : str) (v : V) (d : dict V) :
  ~ In k (dict_keys d) -> dict_set k v d = d ++ [(k, v)].
Proof.
  induction d as [|[k0 v0] d IH]; simpl; intro Hn; [reflexivity|].
  destruct (PyStr.eqb k0 k) eqn:E.
  - apply eqb_eq in E. tauto.
  - f_equal. apply IH. tauto.
Qed.

(** [dict(pairs)] of pairs with distinct keys is those pairs. *)
Lemma dict_update_distinct {V} (d items : dict V) :
  NoDup (dict_keys (d ++ items)) -> dict_update d items = d ++ items.
Proof.
  revert d. induction items as [|[k v] items IH]; intros d Hnd.
  - simpl. now rewrite app_nil_r.
  - unfold dict_update in *. simpl.
    assert (Hk : ~ In k (dict_keys d)).
    { unfold dict_keys in *. rewrite map_app in Hnd. simpl in Hnd.
      apply NoDup_remove_2 in Hnd. intro Hin. apply Hnd.
      apply in_or_app. now left. }
    rewrite (dict_set_fresh k v d Hk).
    replace (d ++ (k, v) :: items) with ((d ++ [(k, v)]) ++ items)
      by now rewrite <- app_assoc.
    apply IH. now rewrite <- app_assoc.
Qed.

(** Looking a key up after [update]: the items win, the old entries
    stay for the other keys. *)
Lemma dict_get_update {V} (k : str) (d items : dict V) :
  NoDup (dict_keys items) ->
  dict_get k (dict_update d items)
  = match dict_get k items with
    | Some v => Some v
    | None => dict_get k d
    end.
Proof.
  revert d. induction items as [|[k1 v1] items IH]; intros d Hnd; [reflexivity|].
  unfold dict_update in *. simpl in *.
  inversion Hnd as [|? ? Hn Hd]; subst.
  rewrite (IH _ Hd), dict_get_set.
  destruct (PyStr.eqb k1 k) eqn:E; [|reflexivity].
  apply eqb_eq in E. subst k1.
  apply dict_get_None in Hn. now rewrite Hn.
Qed.

Lemma dict_set_NoDup {V} (k : str) (v : V) (d : dict V) :
  NoDup (dict_keys d) -> NoDup (dict_keys (dict_set k v d)).
Proof.
  intro Hnd. rewrite dict_set_keys.
  destruct (existsb (PyStr.eqb k) (dict_keys d)) eqn:E; [exact Hnd|].
  apply NoDup_app; [exact Hnd | repeat constructor; simpl; tauto |].
  intros x Hx [<-|[]]. apply existsb_eqb_In in Hx. congruence.
Qed.

Lemma dict_update_NoDup {V} (d items : dict V) :
  NoDup (dict_keys d) -> NoDup (dict_keys (dict_update d items)).
Proof.
  revert d. induction items as [|[k v] items IH]; intros d Hnd; [exact Hnd|].
  unfold dict_update in *. simpl. apply IH. now apply dict_set_NoDup.
Qed.

Lemma dict_set_forallb {V} (p : str * V -> bool) (k : str) (v : V) (d : dict V) :
  p (k, v) = true -> (forall k' v', PyStr.eqb k' k = true -> p (k', v') = true -> p (k', v) = true) ->
  forallb p d = true -> forallb p (dict_set k v d) = true.
Proof.
  intros Hp Hsame. induction d as [|[k0 v0] d IH]; simpl; intro Hd.
  - now rewrite Hp.
  - apply andb_true_iff in Hd. destruct Hd as [H0 Hd].
    destruct (PyStr.eqb k0 k) eqn:E; simpl.
    + rewrite Hd. now rewrite (Hsame k0 v0 E H0).
    + now rewrite H0, (IH Hd).
Qed.

(** ** Reading back what [json_dumps] wrote *)

Lemma value_start_facts (c : codepoint) :
  value_start c = true ->
  is_json_ws c = false /\ c <> 93 /\ c <> 125 /\ c <> 65279.
Proof.
  unfold value_start, is_digit, quote.
  rewrite !orb_true_iff, andb_true_iff, !N.eqb_eq, !N.leb_le.
  intro H. unfold is_json_ws.
  assert (Hc : c <> 32 /\ c <> 9 /\ c <> 10 /\ c <> 13 /\ c <> 93 /\ c <> 125
               /\ c <> 65279).
  { repeat split; intro; subst; lia. }
  destruct Hc as (H1 & H2 & H3 & H4 & H5 & H6 & H7).
  apply N.eqb_neq in H1, H2, H3, H4. rewrite H1, H2, H3, H4. now repeat split.
Qed.

Lemma skip_ws_value_start (c : codepoint) (s : str) :
  value_start c = true -> skip_ws (c :: s) = c :: s.
Proof.
  intro H. apply value_start_facts in H. destruct H as [H _].
  simpl. now rewrite H.
Qed.

Lemma skip_ws_value_end (rest : str) :
  value_end rest = true -> skip_ws rest = rest.
Proof.
  destruct rest as [|c rest]; [reflexivity|]. intro H.
  apply value_end_not_digit in H. destruct H as (_ & _ & _ & _ & _ & _ & H).
  simpl. now rewrite H.
Qed.

Lemma wf_number_cases (t : str) :
  wf_number t = true ->
  match_number t = Some (t, [])
  \/ t = lit "NaN" \/ t = lit "Infinity" \/ t = lit "-Infinity".
Proof.
  unfold wf_number. destruct (match_number t) as [[m [|c r]]|] eqn:E.
  - intros _. left. apply match_number_split in E.
    rewrite app_nil_r in E. now subst.
  - rewrite !orb_true_iff, !eqb_eq. tauto.
  - rewrite !orb_true_iff, !eqb_eq. tauto.
Qed.

(** A well-formed value is written with a first character that only a
    value can start with. *)
Lemma json_dumps_head (v : json) :
  wf_json v = true ->
  exists c t, json_dumps v = c :: t /\ value_start c = true.
Proof.
  destruct v as [|[|]|text|s|items|members]; simpl; intro Hwf;
    try (do 2 eexists; split; [reflexivity | reflexivity]).
  destruct (wf_number_cases text Hwf) as [Hm | [-> | [-> | ->]]];
    try (do 2 eexists; split; [reflexivity | reflexivity]).
  destruct (match_number_head _ _ _ Hm) as (c & t & -> & Hc).
  exists c, t. split; [reflexivity|].
  unfold value_start. apply orb_true_iff in Hc. destruct Hc as [Hc|Hc];
    rewrite Hc; now rewrite ?orb_true_r.
Qed.

Lemma skip_ws_json_dumps (v : json) (rest : str) :
  wf_json v = true -> skip_ws (json_dumps v ++ rest) = json_dumps v ++ rest.
Proof.
  intro Hwf. destruct (json_dumps_head v Hwf) as (c & t & -> & Hc).
  now apply skip_ws_value_start.
Qed.

Lemma scan_once_keyword (fuel : nat) (c : codepoint) (s : str) :
  c <> quote -> c <> 123 -> c <> 91 ->
  scan_once (S fuel) (c :: s) = scan_keyword (c :: s).
Proof.
  intros H1 H2 H3. apply N.eqb_neq in H1, H2, H3.
  simpl. now rewrite H1, H2, H3.
Qed.

Lemma strip_prefix_head (x c : codepoint) (p s : str) :
  x <> c -> strip_prefix (x :: p) (c :: s) = None.
Proof. intro H. simpl. apply N.eqb_neq in H. now rewrite H. Qed.

Lemma scan_once_number (fuel : nat) (t rest : str) :
  wf_number t = true -> value_end rest = true ->
  scan_once (S fuel) (t ++ rest) = Some (JNum t, rest).
Proof.
  intros Hwf Hend.
  destruct (wf_number_cases t Hwf) as [Hm | [-> | [-> | ->]]];
    try reflexivity.
  pose proof (match_number_stable t t [] rest Hm Hend) as Hs. simpl in Hs.
  destruct (match_number_head _ _ _ Hm) as (c & t' & -> & Hc).
  assert (Hr : c = 45 \/ 48 <= c <= 57).
  { apply orb_true_iff in Hc. destruct Hc as [Hc|Hc].
    - left. now apply N.eqb_eq.
    - right. unfold is_digit in Hc. apply andb_true_iff in Hc.
      now rewrite !N.leb_le in Hc. }
  simpl app in *. rewrite scan_once_keyword by (unfold quote; lia).
  unfold scan_keyword.
  change (lit "null") with [110; 117; 108; 108].
  change (lit "true") with [116; 114; 117; 101].
  change (lit "false") with [102; 97; 108; 115; 101].
  rewrite !strip_prefix_head by lia.
  now rewrite Hs.
Qed.

Lemma member_text_app (k : str) (v : json) (tail : str) :
  (encode_basestring_ascii k ++ lit ":" ++ json_dumps v) ++ tail
  = quote :: flat_map escape_char k ++ quote :: 58 :: json_dumps v ++ tail.
Proof.
  unfold encode_basestring_ascii. rewrite <- !app_assoc. reflexivity.
Qed.

Lemma json_size_pos (v : json) : (1 <= json_size v)%nat.
Proof. destruct v; simpl; lia. Qed.

Lemma join_cons_app (sep p tail : str) (ps : list str) :
  join sep (p :: ps) ++ tail
  = p ++ match ps with
         | [] => tail
         | _ :: _ => sep ++ join sep ps ++ tail
         end.
Proof.
  destruct ps as [|q ps]; [reflexivity|].
  change (join sep (p :: q :: ps)) with (p ++ sep ++ join sep (q :: ps)).
  now rewrite <- !app_assoc.
Qed.

Lemma scan_once_string (fuel : nat) (s : str) :
  scan_once (S fuel) (quote :: s)
  = match scan_string s with
    | Some (t, r) => Some (JStr t, r)
    | None => None
    end.
Proof. reflexivity. Qed.

Lemma scan_once_array (fuel : nat) (c : codepoint) (s : str) :
  value_start c = true ->
  scan_once (S fuel) (91 :: c :: s)
  = match parse_elements fuel (c :: s) with
    | Some (items, r) => Some (JArr items, r)
    | None => None
    end.
Proof.
  intro Hc. change (scan_once (S fuel) (91 :: c :: s))
    with (match skip_ws (c :: s) with
          | [] => None
          | c1 :: r1 =>
              if c1 =? 93 then Some (JArr [], r1)
              else
                match parse_elements fuel (c1 :: r1) with
                | Some (items, r) => Some (JArr items, r)
                | None => None
                end
          end).
  rewrite (skip_ws_value_start c s Hc).
  apply value_start_facts in Hc. destruct Hc as (_ & H93 & _).
  apply N.eqb_neq in H93. now rewrite H93.
Qed.

Lemma scan_once_object (fuel : nat) (s : str) :
  scan_once (S fuel) (123 :: quote :: s)
  = match parse_members fuel (quote :: s) with
    | Some (pairs, r) => Some (JObj (dict_update [] pairs), r)
    | None => None
    end.
Proof. reflexivity. Qed.

Lemma parse_elements_step (fuel : nat) (s : str) (v : json) (tail : str) :
  scan_once fuel s = Some (v, tail) ->
  parse_elements (S fuel) s
  = match skip_ws tail with
    | [] => None
    | c2 :: r2 =>
        if c2 =? 93 then Some ([v], r2)
        else if c2 =? 44 then
          match parse_elements fuel (skip_ws r2) with
          | Some (items, r) => Some (v :: items, r)
          | None => None
          end
        else None
    end.
Proof. intro H. simpl. now rewrite H. Qed.

Lemma parse_members_step (fuel : nat) (s : str) (k : str) (v : json) (r tail : str) :
  scan_string s = Some (k, 58 :: r) ->
  scan_once fuel (skip_ws r) = Some (v, tail) ->
  parse_members (S fuel) (quote :: s)
  = match skip_ws tail with
    | [] => None
    | c4 :: r4 =>
        if c4 =? 125 then Some ([(k, v)], r4)
        else if c4 =? 44 then
          match parse_members fuel (skip_ws r4) with
          | Some (pairs, r') => Some ((k, v) :: pairs, r')
          | None => None
          end
        else None
    end.
Proof.
  intros Hk Hv.
  change (parse_members (S fuel) (quote :: s))
    with (match scan_string s with
          | None => None
          | Some (key, r1) =>
              match skip_ws r1 with
              | [] => None
              | c2 :: r2 =>
                  if c2 =? 58 then
                    match scan_once fuel (skip_ws r2) with
                    | None => None
                    | Some (value, r3) =>
                        match skip_ws r3 with
                        | [] => None
                        | c4 :: r4 =>
                            if c4 =? 125 then Some ([(key, value)], r4)
                            else if c4 =? 44 then
                              match parse_members fuel (skip_ws r4) with
                              | Some (pairs, r) => Some ((key, value) :: pairs, r)
                              | None => None
                              end
                            else None
                        end
                    end
                  else None
              end
          end).
  rewrite Hk.
  change (skip_ws (58 :: r)) with (58 :: r). cbv beta iota.
  change (58 =? 58) with true. cbv iota. now rewrite Hv.
Qed.

Lemma members_text_head (m : str * json) (members : dict json) (rest : str) :
  exists T,
    join (lit ",")
      (map (fun kv => encode_basestring_ascii (fst kv) ++ lit ":"
                      ++ json_dumps (snd kv)) (m :: members))
    ++ 125 :: rest
    = quote :: T.
Proof.
  destruct m as [k v]. rewrite map_cons. cbn [fst snd].
  rewrite join_cons_app, member_text_app. eauto.
Qed.

Lemma items_text_head (x : json) (items : list json) (rest : str) :
  wf_json x = true ->
  exists c T,
    join (lit ",") (map json_dumps (x :: items)) ++ 93 :: rest = c :: T
    /\ value_start c = true.
Proof.
  intro Hwf. rewrite map_cons, join_cons_app.
  destruct (json_dumps_head x Hwf) as (c & t & -> & Hc).
  simpl. eauto.
Qed.

(** With fuel for every call it takes, the decoder reads a
    well-formed value, the members of an object and the items of an
    array back from their compact text, and stops where the text
    ends. *)
Lemma decode_encoded (fuel : nat) :
  (forall v rest,
      wf_json v = true -> (json_size v <= fuel)%nat -> value_end rest = true ->
      scan_once fuel (json_dumps v ++ rest) = Some (v, rest))
  /\ (forall m members rest,
        forallb (fun kv => wf_text (fst kv) && wf_json (snd kv)) (m :: members) = true ->
        (list_sum (map (fun kv => S (json_size (snd kv))) (m :: members)) <= fuel)%nat ->
        parse_members fuel
          (join (lit ",")
             (map (fun kv => encode_basestring_ascii (fst kv) ++ lit ":"
                             ++ json_dumps (snd kv)) (m :: members))
           ++ 125 :: rest)
        = Some (m :: members, rest))
  /\ (forall x items rest,
        forallb wf_json (x :: items) = true ->
        (list_sum (map (fun x => S (json_size x)) (x :: items)) <= fuel)%nat ->
        parse_elements fuel (join (lit ",") (map json_dumps (x :: items)) ++ 93 :: rest)
        = Some (x :: items, rest)).
Proof.
  induction fuel as [|fuel (IH1 & IH2 & IH3)].
  { repeat split.
    - intros v rest _ Hs. pose proof (json_size_pos v). lia.
    - intros m members rest _ Hs. simpl in Hs. lia.
    - intros x items rest _ Hs. simpl in Hs. lia. }
  repeat split.
  - (* a value *)
    intros v rest Hwf Hsize Hend.
    destruct v as [|[|]|text|s|items|members]; try reflexivity.
    + now apply scan_once_number.
    + simpl json_dumps. unfold encode_basestring_ascii.
      rewrite <- !app_assoc. simpl app. rewrite scan_once_string.
      simpl in Hwf. now rewrite scan_string_encoded.
    + destruct items as [|x items]; [reflexivity|].
      simpl in Hwf, Hsize. apply andb_true_iff in Hwf. destruct Hwf as [Hx Hitems].
      assert (Hall : forallb wf_json (x :: items) = true)
        by (simpl; now rewrite Hx, Hitems).
      change (json_dumps (JArr (x :: items)))
        with (lit "[" ++ join (lit ",") (map json_dumps (x :: items)) ++ lit "]").
      rewrite <- !app_assoc.
      change (lit "[" ++ join (lit ",") (map json_dumps (x :: items)) ++ lit "]" ++ rest)
        with (91 :: (join (lit ",") (map json_dumps (x :: items)) ++ 93 :: rest)).
      destruct (items_text_head x items rest Hx) as (c & T & E & Hc).
      rewrite E, (scan_once_array fuel c T Hc), <- E.
      rewrite (IH3 x items rest Hall); [reflexivity|]. simpl. lia.
    + destruct members as [|m members]; [reflexivity|].
      simpl in Hsize.
      change (wf_json (JObj (m :: members)))
        with (forallb (fun kv => wf_text (fst kv) && wf_json (snd kv)) (m :: members)
              && distinct (map fst (m :: members))) in Hwf.
      apply andb_true_iff in Hwf. destruct Hwf as [Hall Hd].
      change (json_dumps (JObj (m :: members)))
        with (lit "{"
              ++ join (lit ",")
                   (map (fun kv => encode_basestring_ascii (fst kv) ++ lit ":"
                                   ++ json_dumps (snd kv)) (m :: members))
              ++ lit "}").
      rewrite <- !app_assoc.
      change (lit "}" ++ rest) with (125 :: rest).
      change (lit "{" ++ ?x) with (123 :: x).
      destruct (members_text_head m members rest) as (T & E).
      rewrite E, (scan_once_object fuel T), <- E.
      rewrite (IH2 m members rest Hall); [|simpl; lia].
      rewrite dict_update_distinct; [reflexivity|].
      simpl app. now apply distinct_NoDup.
  - (* the members of an object *)
    intros [k v] members rest Hwf Hsize.
    simpl in Hwf, Hsize. rewrite !andb_true_iff in Hwf.
    destruct Hwf as [[Hk Hv] Hrest].
    rewrite map_cons. cbn [fst snd]. rewrite join_cons_app, member_text_app.
    destruct members as [|m2 members].
    + rewrite (parse_members_step fuel _ k v (json_dumps v ++ 125 :: rest) (125 :: rest)).
      * reflexivity.
      * now apply scan_string_encoded.
      * rewrite (skip_ws_json_dumps v _ Hv). apply IH1; [exact Hv | lia | reflexivity].
    + set (T := join (lit ",")
                  (map (fun kv => encode_basestring_ascii (fst kv) ++ lit ":"
                                  ++ json_dumps (snd kv)) (m2 :: members))
                ++ 125 :: rest).
      change (lit "," ++ T) with (44 :: T).
      rewrite (parse_members_step fuel _ k v (json_dumps v ++ 44 :: T) (44 :: T)).
      * change (skip_ws (44 :: T)) with (44 :: T). cbv beta iota.
        change (44 =? 125) with false. change (44 =? 44) with true. cbv iota.
        destruct (members_text_head m2 members rest) as (T' & E). fold T in E.
        rewrite E, (skip_ws_value_start quote T' eq_refl), <- E.
        unfold T. rewrite (IH2 m2 members rest Hrest); [reflexivity|].
        simpl in *. lia.
      * now apply scan_string_encoded.
      * rewrite (skip_ws_json_dumps v _ Hv). apply IH1; [exact Hv | lia | reflexivity].
  - (* the items of an array *)
    intros x items rest Hwf Hsize.
    simpl in Hwf, Hsize. apply andb_true_iff in Hwf. destruct Hwf as [Hx Hrest].
    rewrite map_cons, join_cons_app.
    destruct items as [|x2 items].
    + rewrite (parse_elements_step fuel _ x (93 :: rest)).
      * reflexivity.
      * apply IH1; [exact Hx | lia | reflexivity].
    + set (T := join (lit ",") (map json_dumps (x2 :: items)) ++ 93 :: rest).
      change (lit "," ++ T) with (44 :: T).
      rewrite (parse_elements_step fuel _ x (44 :: T)).
      * change (skip_ws (44 :: T)) with (44 :: T). cbv beta iota.
        change (44 =? 93) with false. change (44 =? 44) with true. cbv iota.
        simpl in Hrest. apply andb_true_iff in Hrest. destruct Hrest as [Hx2 Hitems].
        destruct (items_text_head x2 items rest Hx2) as (c & T' & E & Hc). fold T in E.
        rewrite E, (skip_ws_value_start c T' Hc), <- E.
        unfold T. rewrite (IH3 x2 items rest); [reflexivity | |].
        -- simpl. now rewrite Hx2, Hitems.
        -- simpl in *. lia.
      * apply IH1; [exact Hx | lia | reflexivity].
Qed.

(** Induction on a value, with the property on hand for the items of
    an array and for the values of an object. *)
Lemma json_ind' (P : json -> Prop) :
  P JNull -> (forall b, P (JBool b)) -> (forall text, P (JNum text)) ->
  (forall s, P (JStr s)) ->
  (forall items, Forall P items -> P (JArr items)) ->
  (forall members, Forall (fun kv => P (snd kv)) members -> P (JObj members)) ->
  forall v, P v.
Proof.
  intros Hnull Hbool Hnum Hstr Harr Hobj.
  fix IH 1. intros [|b|text|s|items|members].
  - exact Hnull.
  - apply Hbool.
  - apply Hnum.
  - apply Hstr.
  - apply Harr.
    refine ((fix go (l : list json) : Forall P l :=
               match l with
               | [] => Forall_nil P
               | x :: l' => Forall_cons x (IH x) (go l')
               end) items).
  - apply Hobj.
    refine ((fix go (l : list (str * json)) : Forall (fun kv => P (snd kv)) l :=
               match l with
               | [] => Forall_nil _
               | kv :: l' => Forall_cons kv (IH (snd kv)) (go l')
               end) members).
Qed.

Lemma list_sum_le_join {A} (size : A -> nat) (text : A -> str) (l : list A) :
  Forall (fun x => (size x <= length (text x))%nat) l ->
  (list_sum (map (fun x => S (size x)) l)
   <= length (join (lit ",") (map text l)) + 1)%nat.
Proof.
  induction 1 as [|x l Hx Hl IH]; [simpl; lia|].
  destruct l as [|y l].
  - simpl. lia.
  - change (join (lit ",") (map text (x :: y :: l)))
      with (text x ++ lit "," ++ join (lit ",") (map text (y :: l))).
    change (list_sum (map (fun x => S (size x)) (x :: y :: l)))
      with (S (size x) + list_sum (map (fun x => S (size x)) (y :: l)))%nat.
    rewrite !length_app.
    change (length (lit ",")) with 1%nat. lia.
Qed.

(** The decoder's fuel: a value never takes more calls than its text
    has characters. *)
Lemma json_size_le_length (v : json) :
  wf_json v = true -> (json_size v <= length (json_dumps v))%nat.
Proof.
  induction v as [|b|text|s|items IH|members IH] using json_ind'; intro Hwf;
    try (destruct (json_dumps_head _ Hwf) as (c & t & -> & _); simpl; lia).
  - change (json_dumps (JArr items))
      with (lit "[" ++ join (lit ",") (map json_dumps items) ++ lit "]").
    rewrite !length_app.
    change (json_size (JArr items))
      with (S (list_sum (map (fun x => S (json_size x)) items))).
    change (length (lit "[")) with 1%nat. change (length (lit "]")) with 1%nat.
    assert (H : Forall (fun x => (json_size x <= length (json_dumps x))%nat) items).
    { simpl in Hwf. rewrite forallb_forall in Hwf. rewrite Forall_forall in *.
      intros x Hx. apply IH; [exact Hx | now apply Hwf]. }
    pose proof (list_sum_le_join json_size json_dumps items H) as Hs.
    apply le_n_S. exact Hs.
  - change (json_dumps (JObj members))
      with (lit "{"
            ++ join (lit ",")
                 (map (fun kv => encode_basestring_ascii (fst kv) ++ lit ":"
                                 ++ json_dumps (snd kv)) members)
            ++ lit "}").
    rewrite !length_app.
    change (json_size (JObj members))
      with (S (list_sum (map (fun kv => S (json_size (snd kv))) members))).
    change (length (lit "{")) with 1%nat. change (length (lit "}")) with 1%nat.
    assert (H : Forall (fun kv => (json_size (snd kv)
                                   <= length (encode_basestring_ascii (fst kv) ++ lit ":"
                                              ++ json_dumps (snd kv)))%nat) members).
    { change (wf_json (JObj members))
        with (forallb (fun kv => wf_text (fst kv) && wf_json (snd kv)) members
              && distinct (map fst members)) in Hwf.
      apply andb_true_iff in Hwf. destruct Hwf as [Hall _].
      rewrite forallb_forall in Hall. rewrite Forall_forall in *.
      intros kv Hkv. specialize (Hall kv Hkv). apply andb_true_iff in Hall.
      rewrite !length_app. specialize (IH kv Hkv (proj2 Hall)). lia. }
    pose proof (list_sum_le_join (fun kv => json_size (snd kv)) _ members H) as Hs.
    apply le_n_S. exact Hs.
Qed.

(** The text [json_dumps] writes for a well-formed value
    deserializes to that value. *)
Lemma json_loads_dumps (v : json) :
  wf_json v = true -> json_loads (json_dumps v) = Some v.
Proof.
  intro Hwf. unfold json_loads.
  pose proof (json_size_le_length v Hwf) as Hsize.
  pose proof (skip_ws_json_dumps v [] Hwf) as Hws. rewrite app_nil_r in Hws.
  destruct (json_dumps_head v Hwf) as (c & t & E & Hc).
  assert (Hbom : starts_with_bom (json_dumps v) = false).
  { rewrite E. simpl. apply N.eqb_neq. now apply value_start_facts in Hc. }
  rewrite Hbom. cbv zeta. rewrite Hws.
  destruct (decode_encoded (S (length (json_dumps v)))) as [H1 _].
  specialize (H1 v [] Hwf ltac:(lia) eq_refl). rewrite app_nil_r in H1.
  now rewrite H1.
Qed.

(** The condition on surrogates is needed: the two halves of a pair,
    written one by one, are read back as one character. *)
Example surrogate_halves_read_as_one :
  wf_text [55357; 56832] = false
  /\ json_loads (json_dumps (JStr [55357; 56832])) = Some (JStr [128512]).
Proof. split; vm_compute; reflexivity. Qed.

(** ** The object [/ingest] logs *)

Lemma wf_text_ascii (s : str) : forallb is_ascii s = true -> wf_text s = true.
Proof.
  induction s as [|c s IH]; simpl; [reflexivity|].
  rewrite andb_true_iff. intros [Hc Hs]. unfold is_ascii in Hc.
  apply N.ltb_lt in Hc. rewrite (IH Hs), andb_true_r.
  apply andb_true_iff. split; [apply N.ltb_lt; lia|].
  apply negb_true_iff. apply andb_false_iff. left.
  unfold is_high_surrogate. apply andb_false_iff. left. apply N.leb_gt. lia.
Qed.

Lemma dict_get_of_In {V} (k : str) (d : dict V) :
  In k (dict_keys d) -> exists v, dict_get k d = Some v.
Proof.
  intro Hin. destruct (dict_get k d) as [v|] eqn:E; [eauto|].
  apply dict_get_None in E. contradiction.
Qed.

(** The object of the dict display [{"ts": ts, **O}] is well formed
    when [O] and [ts] are. *)
Lemma wf_timestamped (ts : str) (O : dict json) :
  wf_text ts = true -> wf_json (JObj O) = true ->
  wf_json (JObj (dict_update [(lit "ts", JStr ts)] O)) = true.
Proof.
  intros Hts Hwf.
  change (wf_json (JObj O))
    with (forallb (fun kv => wf_text (fst kv) && wf_json (snd kv)) O
          && distinct (map fst O)) in Hwf.
  apply andb_true_iff in Hwf. destruct Hwf as [Hall _].
  change (wf_json (JObj (dict_update [(lit "ts", JStr ts)] O)))
    with (forallb (fun kv => wf_text (fst kv) && wf_json (snd kv))
            (dict_update [(lit "ts", JStr ts)] O)
          && distinct (map fst (dict_update [(lit "ts", JStr ts)] O))).
  apply andb_true_iff. split.
  - assert (H0 : forallb (fun kv => wf_text (fst kv) && wf_json (snd kv))
                   [(lit "ts", JStr ts)] = true)
      by (simpl; now rewrite Hts).
    revert H0. generalize [(lit "ts", JStr ts)] as d.
    induction O as [|[k v] O IH]; intros d Hd; [exact Hd|].
    simpl in Hall. rewrite !andb_true_iff in Hall. destruct Hall as [[Hk Hv] HO].
    unfold dict_update in *. simpl. apply (IH HO).
    apply dict_set_forallb; [simpl; now rewrite Hk, Hv | | exact Hd].
    intros k' v' _ Hp. simpl in *. apply andb_true_iff in Hp.
    now rewrite (proj1 Hp), Hv.
  - apply distinct_NoDup. apply (dict_update_NoDup [(lit "ts", JStr ts)] O).
    repeat constructor. simpl. tauto.
Qed.

Section Logged.

Context {lib : Library}.

(** C1, as the code has it.  A request to [/ingest] whose content
    type is [application/json] (whatever the case, parameters put
    aside) and whose body parses to a JSON object [O] is answered 202
    with an empty body, and the line given to the append writer
    deserializes to an object that has every key of [O], with the
    value [O] gives it, and a [ts] key.  When [O] has no [ts] key of
    its own, [ts] holds the timestamp of the clock, ISO-8601 with a
    trailing [Z]; a [ts] key of [O] keeps the caller's value. *)
Theorem ingest_json_object_logged :
  forall (request : Request) (w : World) (O : dict json),
    content_type request = lit "application/json" ->
    json_loads_bytes (body request) = Some (JObj O) ->
    wf_json (JObj O) = true ->
    valid_datetime (clock w) = true ->
    let d := dict_update [(lit "ts", JStr (timestamp w))] O in
    let line := json_dumps (JObj d) in
    post_ingest request w
    = (Returned (mk_response 202 []), snd (write_log_line line w))
    /\ (write_fault w = None ->
          log_text (snd (post_ingest request w))
          = log_text w ++ line ++ [newline])
    /\ json_loads line = Some (JObj d)
    /\ (forall k v, dict_get k O = Some v -> dict_get k d = Some v)
    /\ incl (dict_keys O) (dict_keys d)
    /\ In (lit "ts") (dict_keys d)
    /\ iso8601_z (timestamp w)
    /\ (dict_get (lit "ts") O = None ->
          dict_get (lit "ts") d = Some (JStr (timestamp w))
          /\ timestamped_object O line).
Proof.
  intros request w O Hct Hj Hwf Hv d line.
  assert (Hnd : NoDup (dict_keys O)).
  { change (wf_json (JObj O))
      with (forallb (fun kv => wf_text (fst kv) && wf_json (snd kv)) O
            && distinct (map fst O)) in Hwf.
    apply andb_true_iff in Hwf. now apply distinct_NoDup. }
  assert (Hwfd : wf_json (JObj d) = true).
  { apply wf_timestamped; [|exact Hwf].
    apply wf_text_ascii, timestamp_ascii. }
  assert (Hget : forall k v, dict_get k O = Some v -> dict_get k d = Some v).
  { intros k v Hk. unfold d. now rewrite (dict_get_update k _ O Hnd), Hk. }
  assert (Hincl : incl (dict_keys O) (dict_keys d)).
  { intros k Hin. destruct (dict_get_of_In k O Hin) as [v Hk].
    exact (dict_get_In k v d (Hget k v Hk)). }
  assert (Hloads : json_loads line = Some (JObj d))
    by exact (json_loads_dumps (JObj d) Hwfd).
  assert (Hshape : iso8601_z (timestamp w)) by now apply timestamp_shape.
  assert (Hts : dict_get (lit "ts") O = None ->
                dict_get (lit "ts") d = Some (JStr (timestamp w))).
  { intro Hnone. unfold d. now rewrite (dict_get_update _ _ O Hnd), Hnone. }
  unfold post_ingest. rewrite (ingest_json_object request w O Hct Hj).
  fold d. fold line. repeat split; try assumption.
  - intro Hw. simpl. now rewrite (write_log_line_writable line w Hw).
  - pose proof (Hget (lit "ts")) as Hts0.
    destruct (dict_get (lit "ts") d) as [v|] eqn:E.
    + exact (dict_get_In _ v d E).
    + destruct (dict_get (lit "ts") O) as [v|] eqn:EO.
      * discriminate (Hts0 v eq_refl).
      * discriminate (Hts eq_refl).
  - now apply Hts.
  - exists d. split; [exact Hloads|]. split; [exact Hincl|].
    exists (timestamp w). split; [now apply Hts | exact Hshape].
Qed.

(** C4.  When the object a caller posts to [/ingest] has a [ts] key,
    the object that is logged holds the caller's value under [ts],
    not the server's timestamp: the caller's items are merged over
    the injected one, with no protection of the reserved key. *)
Theorem ingest_caller_ts_overwrites :
  forall (request : Request) (w : World) (O : dict json) (v : json),
    content_type request = lit "application/json" ->
    json_loads_bytes (body request) = Some (JObj O) ->
    distinct (dict_keys O) = true ->
    dict_get (lit "ts") O = Some v ->
    let d := dict_update [(lit "ts", JStr (timestamp w))] O in
    let line := json_dumps (JObj d) in
    post_ingest request w
    = (Returned (mk_response 202 []), snd (write_log_line line w))
    /\ dict_get (lit "ts") d = Some v
    /\ (v <> JStr (timestamp w) ->
        dict_get (lit "ts") d <> Some (JStr (timestamp w)))
    /\ (wf_json (JObj O) = true -> json_loads line = Some (JObj d)).
Proof.
  intros request w O v Hct Hj Hnd Hv d line.
  apply distinct_NoDup in Hnd.
  assert (Hd : dict_get (lit "ts") d = Some v).
  { unfold d. now rewrite (dict_get_update _ _ O Hnd), Hv. }
  unfold post_ingest. rewrite (ingest_json_object request w O Hct Hj).
  fold d. fold line. repeat split.
  - exact Hd.
  - intros Hne E. rewrite Hd in E. congruence.
  - intro Hwf. apply (json_loads_dumps (JObj d)).
    apply wf_timestamped; [|exact Hwf].
    apply wf_text_ascii, timestamp_ascii.
Qed.

End Logged.

(** ** A JSON line is one line *)

Lemma printable_range (c : codepoint) : 32 <= c <= 126 -> printable c = true.
Proof.
  intro H. unfold printable. apply andb_true_iff. split; apply N.leb_le; lia.
Qed.

Lemma is_digit_printable (s : str) :
  forallb is_digit s = true -> forallb printable s = true.
Proof.
  induction s as [|c s IH]; simpl; [reflexivity|].
  rewrite !andb_true_iff. intros [Hc Hs]. split; [|now apply IH].
  unfold is_digit in Hc. apply andb_true_iff in Hc. rewrite !N.leb_le in Hc.
  apply printable_range. lia.
Qed.

Lemma hex_digit_printable (d : N) : d < 16 -> printable (hex_digit d) = true.
Proof.
  intro H. unfold hex_digit. apply printable_range.
  destruct (N.ltb_spec d 10); lia.
Qed.

Lemma format_04x_printable (n : N) : forallb printable (format_04x n) = true.
Proof.
  unfold format_04x. simpl.
  now rewrite !hex_digit_printable by apply nibble_lt.
Qed.

Lemma escape_char_printable (c : codepoint) :
  forallb printable (escape_char c) = true.
Proof.
  unfold escape_char.
  destruct (c =? quote); [reflexivity|].
  destruct (c =? backslash); [reflexivity|].
  destruct ((32 <=? c) && (c <=? 126)) eqn:Hp; [simpl; unfold printable; now rewrite Hp|].
  destruct (c =? 8); [reflexivity|]. destruct (c =? 12); [reflexivity|].
  destruct (c =? 10); [reflexivity|]. destruct (c =? 13); [reflexivity|].
  destruct (c =? 9); [reflexivity|].
  destruct (c <? 65536); cbv zeta;
    rewrite ?forallb_app, !format_04x_printable; reflexivity.
Qed.

Lemma encode_basestring_ascii_printable (s : str) :
  forallb printable (encode_basestring_ascii s) = true.
Proof.
  unfold encode_basestring_ascii. rewrite !forallb_app.
  replace (forallb printable (flat_map escape_char s)) with true; [reflexivity|].
  symmetry. induction s as [|c s IH]; simpl; [reflexivity|].
  now rewrite forallb_app, escape_char_printable, IH.
Qed.

Lemma span_digits_digits (s ds r : str) :
  span_digits s = (ds, r) -> forallb is_digit ds = true.
Proof.
  revert ds r. induction s as [|c s IH]; intros ds r H; simpl in H.
  - now injection H as <- <-.
  - destruct (is_digit c) eqn:Hc.
    + destruct (span_digits s) as [ds' r'] eqn:E. injection H as <- <-.
      simpl. now rewrite Hc, (IH ds' r' eq_refl).
    + now injection H as <- <-.
Qed.

Lemma scan_integer_printable (s i r : str) :
  scan_integer s = Some (i, r) -> forallb printable i = true.
Proof.
  intro H. destruct s as [|c s]; [discriminate|]. simpl in H.
  destruct (N.eqb_spec c 48) as [->|_]; [now injection H as <- <-|].
  destruct (is_digit c) eqn:Hc; [|discriminate].
  destruct (span_digits s) as [ds r'] eqn:E. injection H as <- <-.
  apply is_digit_printable. simpl. now rewrite Hc, (span_digits_digits s ds r' E).
Qed.

Lemma scan_frac_printable (s f r : str) :
  scan_frac s = (f, r) -> forallb printable f = true.
Proof.
  intro H. destruct s as [|c s]; simpl in H; [now injection H as <- <-|].
  destruct (N.eqb_spec c 46) as [->|_]; [|now injection H as <- <-].
  destruct (span_digits s) as [ds r'] eqn:E.
  apply span_digits_digits, is_digit_printable in E.
  destruct ds; injection H as <- <-; [reflexivity|].
  simpl in *. exact E.
Qed.

Lemma scan_exp_printable (s e r : str) :
  scan_exp s = (e, r) -> forallb printable e = true.
Proof.
  intro H. destruct s as [|c s]; simpl in H; [now injection H as <- <-|].
  destruct ((c =? 101) || (c =? 69)) eqn:Hc; [|now injection H as <- <-].
  assert (Hpc : printable c = true).
  { apply orb_true_iff in Hc. destruct Hc as [Hc|Hc]; apply N.eqb_eq in Hc;
      now subst. }
  destruct s as [|d t].
  - simpl in H. now injection H as <- <-.
  - destruct ((d =? 45) || (d =? 43)) eqn:Hd.
    + assert (Hpd : printable d = true).
      { apply orb_true_iff in Hd. destruct Hd as [Hd|Hd]; apply N.eqb_eq in Hd;
          now subst. }
      destruct (span_digits t) as [ds r'] eqn:E.
      apply span_digits_digits, is_digit_printable in E.
      destruct ds; injection H as <- <-; [reflexivity|].
      simpl in *. now rewrite Hpc, Hpd.
    + destruct (span_digits (d :: t)) as [ds r'] eqn:E.
      apply span_digits_digits, is_digit_printable in E.
      destruct ds; injection H as <- <-; [reflexivity|].
      simpl in *. now rewrite Hpc.
Qed.

Lemma wf_number_printable (t : str) :
  wf_number t = true -> forallb printable t = true.
Proof.
  intro Hwf.
  destruct (wf_number_cases t Hwf) as [Hm | [-> | [-> | ->]]]; try reflexivity.
  unfold match_number in Hm.
  assert (Hgen : forall sign s1,
            forallb printable sign = true ->
            match scan_integer s1 with
            | None => None
            | Some (i, s2) =>
                let (f, s3) := scan_frac s2 in
                let (e, s4) := scan_exp s3 in Some (sign ++ i ++ f ++ e, s4)
            end = Some (t, []) -> forallb printable t = true).
  { intros sign s1 Hsign H1.
    destruct (scan_integer s1) as [[i s2]|] eqn:Ei; [|discriminate].
    destruct (scan_frac s2) as [f s3] eqn:Ef.
    destruct (scan_exp s3) as [e s4] eqn:Ee.
    injection H1 as <- _. rewrite !forallb_app, Hsign.
    now rewrite (scan_integer_printable _ _ _ Ei), (scan_frac_printable _ _ _ Ef),
      (scan_exp_printable _ _ _ Ee). }
  destruct t as [|c t']; [discriminate|]. cbv beta iota in Hm.
  destruct (N.eqb_spec c 45) as [->|_].
  - now apply (Hgen [45] t').
  - now apply (Hgen [] (c :: t')).
Qed.

Lemma join_printable (parts : list str) :
  Forall (fun p => forallb printable p = true) parts ->
  forallb printable (join (lit ",") parts) = true.
Proof.
  induction 1 as [|p ps Hp Hps IH]; [reflexivity|].
  destruct ps as [|q ps]; [exact Hp|].
  change (join (lit ",") (p :: q :: ps)) with (p ++ lit "," ++ join (lit ",") (q :: ps)).
  now rewrite !forallb_app, Hp, IH.
Qed.

(** [json_dumps] writes nothing but printable ASCII characters. *)
Lemma json_dumps_printable (v : json) :
  wf_json v = true -> forallb printable (json_dumps v) = true.
Proof.
  induction v as [|[|]|text|s|items IH|members IH] using json_ind'; intro Hwf;
    try reflexivity.
  - now apply wf_number_printable.
  - apply encode_basestring_ascii_printable.
  - change (json_dumps (JArr items))
      with (lit "[" ++ join (lit ",") (map json_dumps items) ++ lit "]").
    rewrite !forallb_app, join_printable; [reflexivity|].
    simpl in Hwf. rewrite forallb_forall in Hwf.
    apply Forall_map. rewrite Forall_forall in *.
    intros x Hx. apply IH; [exact Hx | now apply Hwf].
  - change (json_dumps (JObj members))
      with (lit "{"
            ++ join (lit ",")
                 (map (fun kv => encode_basestring_ascii (fst kv) ++ lit ":"
                                 ++ json_dumps (snd kv)) members)
            ++ lit "}").
    change (wf_json (JObj members))
      with (forallb (fun kv => wf_text (fst kv) && wf_json (snd kv)) members
            && distinct (map fst members)) in Hwf.
    apply andb_true_iff in Hwf. destruct Hwf as [Hall _].
    rewrite forallb_forall in Hall.
    rewrite !forallb_app, join_printable; [reflexivity|].
    apply Forall_map. rewrite Forall_forall in *.
    intros kv Hkv. specialize (Hall kv Hkv). apply andb_true_iff in Hall.
    rewrite !forallb_app, encode_basestring_ascii_printable.
    now rewrite (IH kv Hkv (proj2 Hall)).
Qed.

Lemma printable_no_newline (s : str) :
  forallb printable s = true -> count_lines s = 0%nat.
Proof.
  unfold count_lines. induction s as [|c s IH]; simpl; [reflexivity|].
  rewrite andb_true_iff. intros [Hc Hs].
  destruct (N.eq_dec c newline) as [->|_]; [discriminate Hc | now apply IH].
Qed.

(** The line of a JSON request holds no newline: a writable
    destination gains exactly one newline-terminated line. *)
Lemma ingest_json_appends_one_line {lib : Library}
    (request : Request) (w : World) (O : dict json) :
  content_type request = lit "application/json" ->
  json_loads_bytes (body request) = Some (JObj O) ->
  wf_json (JObj O) = true ->
  write_fault w = None ->
  one_line_appended w (snd (post_ingest request w)).
Proof.
  intros Hct Hj Hwf Hw. unfold post_ingest.
  rewrite (ingest_json_object request w O Hct Hj). cbn [snd].
  apply (write_log_line_effect _ w); [exact Hw|].
  apply printable_no_newline, json_dumps_printable, wf_timestamped;
    [apply wf_text_ascii, timestamp_ascii | exact Hwf].
Qed.

(** ** The handlers on sample requests *)

Import Sample.

(** C1 at a request that posts [{"ts":1}]: the request is answered
    202, and the line the log gains deserializes to an object whose
    [ts] is the caller's number, not a timestamp. *)
Lemma ingest_caller_ts_not_timestamp :
  let request := json_request (json_dumps (JObj ts_one)) in
  let w := writable noon [] in
  content_type request = lit "application/json"
  /\ json_loads_bytes (body request) = Some (JObj ts_one)
  /\ exists line,
       post_ingest request w
       = (Returned (mk_response 202 []), writable noon (line ++ [newline]))
       /\ json_loads line = Some (JObj ts_one)
       /\ ~ timestamped_object ts_one line.
Proof.
  split; [vm_compute; reflexivity|]. split; [vm_compute; reflexivity|].
  exists (json_dumps (JObj ts_one)).
  split; [vm_compute; reflexivity|]. split; [vm_compute; reflexivity|].
  intros (d & Hloads & _ & t & Hts & _).
  vm_compute in Hloads. injection Hloads as <-.
  vm_compute in Hts. discriminate Hts.
Qed.

(** C2 at two accepted requests.  [/logline] answers 200 with an
    unwritable destination and the log gains nothing; [/ingest]
    answers 202 to a text body with a newline inside and the log
    gains two lines. *)
Lemma accepted_request_without_one_line :
  (let request := text_request (lit "hello") in
   let w := unwritable noon [] in
   exists r w',
     post_logline request w = (Returned r, w') /\ status_code r = 200
     /\ log_text w' = log_text w
     /\ ~ one_line_appended w w')
  /\ (let request := text_request (lit "a" ++ [newline] ++ lit "b") in
      let w := writable noon [] in
      exists r w',
        post_ingest request w = (Returned r, w') /\ status_code r = 202
        /\ count_lines (log_text w') = 2%nat
        /\ ~ one_line_appended w w').
Proof.
  split.
  - do 2 eexists. split; [vm_compute; reflexivity|].
    split; [reflexivity|]. split; [reflexivity|].
    intros (text & Htext & line & Hline & _).
    simpl in Htext. subst text. destruct line; discriminate Hline.
  - do 2 eexists. split; [vm_compute; reflexivity|].
    split; [reflexivity|]. split; [reflexivity|].
    intros (text & Htext & line & Hline & Hcount).
    simpl in Htext. subst text.
    apply (f_equal count_lines) in Hline.
    rewrite count_lines_app, Hcount in Hline. discriminate Hline.
Qed.

(** C1 on a port event posted with the header
    [Application/JSON; charset=utf-8]. *)
Lemma ingest_json_object_logged_witness :
  let request := json_request (json_dumps (JObj port_event)) in
  let w := writable later (lit "old line" ++ [newline]) in
  let d := dict_update [(lit "ts", JStr (timestamp w))] port_event in
  let line := json_dumps (JObj d) in
  content_type request = lit "application/json"
  /\ json_loads_bytes (body request) = Some (JObj port_event)
  /\ post_ingest request w
     = (Returned (mk_response 202 []), snd (write_log_line line w))
  /\ log_text (snd (post_ingest request w)) = log_text w ++ line ++ [newline]
  /\ timestamped_object port_event line.
Proof.
  intros request w d line.
  assert (Hct : content_type request = lit "application/json")
    by (vm_compute; reflexivity).
  assert (Hj : json_loads_bytes (body request) = Some (JObj port_event))
    by (vm_compute; reflexivity).
  destruct (ingest_json_object_logged request w port_event Hct Hj eq_refl eq_refl)
    as (Hrun & Hlog & _ & _ & _ & _ & _ & Hts).
  split; [exact Hct|]. split; [exact Hj|]. split; [exact Hrun|].
  split; [exact (Hlog eq_refl) | exact (proj2 (Hts eq_refl))].
Defined.

(** C2 on a text line posted to [/ingest]. *)
Lemma accepted_request_runs_writer_once_witness :
  let request := text_request (lit "hello") in
  let w := writable noon [] in
  exists line,
    snd (post_ingest request w) = snd (write_log_line line w)
    /\ log_text (snd (post_ingest request w)) = log_text w ++ line ++ [newline].
Proof.
  intros request w.
  assert (Hrun : post_ingest request w
                 = (Returned accepted, snd (post_ingest request w)))
    by (vm_compute; reflexivity).
  destruct (accepted_request_runs_writer_once request w
              (snd (post_ingest request w)) accepted
              (or_introl (conj Hrun eq_refl)))
    as (line & Hw & Hok & _).
  exists line. split; [exact Hw | exact (proj1 (Hok eq_refl))].
Defined.

(** C3 on a destination that refuses the append. *)
Lemma write_log_line_swallows_failure_witness :
  let w := unwritable noon (lit "kept") in
  fst (write_log_line (lit "a line") w) = Returned tt
  /\ log_text (snd (write_log_line (lit "a line") w)) = lit "kept"
  /\ fst (post_logline (text_request (lit "hello")) w)
     = fst (post_logline (text_request (lit "hello")) (writable noon (lit "kept"))).
Proof.
  intro w.
  destruct (write_log_line_swallows_failure (lib := ascii_library) (lit "a line") w)
    as (Hret & _ & Hfail & Hresp).
  split; [exact Hret|]. split.
  - exact (proj1 (Hfail _ _ eq_refl)).
  - exact (proj2 (Hresp (text_request (lit "hello")) (write_fault w))).
Defined.

(** C4 on an event that brings a [ts] of its own. *)
Lemma ingest_caller_ts_overwrites_witness :
  let request := json_request (json_dumps (JObj ts_mine)) in
  let w := writable noon [] in
  let d := dict_update [(lit "ts", JStr (timestamp w))] ts_mine in
  content_type request = lit "application/json"
  /\ json_loads_bytes (body request) = Some (JObj ts_mine)
  /\ json_loads (json_dumps (JObj d)) = Some (JObj d)
  /\ dict_get (lit "ts") d = Some (JStr (lit "mine")).
Proof.
  intros request w d.
  assert (Hct : content_type request = lit "application/json")
    by (vm_compute; reflexivity).
  assert (Hj : json_loads_bytes (body request) = Some (JObj ts_mine))
    by (vm_compute; reflexivity).
  destruct (ingest_caller_ts_overwrites request w ts_mine (JStr (lit "mine"))
              Hct Hj eq_refl eq_refl)
    as (_ & Hts & _ & Hloads).
  split; [exact Hct|]. split; [exact Hj|].
  split; [exact (Hloads eq_refl) | exact Hts].
Defined.

(** C5 on a body cut after [{"a":]. *)
Lemma ingest_invalid_json_rejected_witness :
  let request := json_request truncated in
  let w := writable noon (lit "old line" ++ [newline]) in
  content_type request = lit "application/json"
  /\ json_loads_bytes (body request) = None
  /\ post_ingest request w = (Returned (mk_response 400 (lit "invalid json")), w).
Proof.
  intros request w.
  assert (Hct : content_type request = lit "application/json")
    by (vm_compute; reflexivity).
  assert (Hj : json_loads_bytes (body request) = None)
    by (vm_compute; reflexivity).
  split; [exact Hct|]. split; [exact Hj|].
  exact (proj1 (ingest_invalid_json_rejected request w Hct Hj)).
Defined.

(** C6 on a body of three spaces. *)
Lemma ingest_empty_text_rejected_witness :
  let request := text_request (lit "   ") in
  let w := writable noon [] in
  content_type request <> lit "application/json"
  /\ strip (decode_utf8_replace (body request)) = []
  /\ post_ingest request w = (Returned (mk_response 400 (lit "empty body")), w).
Proof.
  intros request w.
  assert (Hct : content_type request <> lit "application/json")
    by (vm_compute; discriminate).
  assert (Hp : strip (decode_utf8_replace (body request)) = [])
    by (vm_compute; reflexivity).
  split; [exact Hct|]. split; [exact Hp|].
  exact (proj1 (ingest_empty_text_rejected request w Hct Hp)).
Defined.

(** C7 on a text line with blanks around it. *)
Lemma ingest_text_line_logged_witness :
  let request := text_request (lit "  port 8080 open  ") in
  let w := writable later [] in
  content_type request <> lit "application/json"
  /\ strip (decode_utf8_replace (body request)) = lit "port 8080 open"
  /\ log_text (snd (post_ingest request w))
     = lit "2024-03-05T12:00:07.000250Z port 8080 open" ++ [newline]
  /\ read_timestamp (lit "2024-03-05T12:00:07.000250Z") = later.
Proof.
  intros request w.
  assert (Hct : content_type request <> lit "application/json")
    by (vm_compute; discriminate).
  assert (Hp : strip (decode_utf8_replace (body request)) = lit "port 8080 open")
    by (vm_compute; reflexivity).
  destruct (ingest_text_line_logged request w (lit "port 8080 open") Hct Hp
              ltac:(discriminate) eq_refl)
    as (_ & _ & Hlog & Hread & _).
  split; [exact Hct|]. split; [exact Hp|].
  split; [exact (Hlog eq_refl) | exact Hread].
Defined.


(** C9 on a body that is the array [[1,2]]. *)
Lemma ingest_json_non_object_raises_witness :
  let request := json_request (json_dumps an_array) in
  let w := writable noon [] in
  content_type request = lit "application/json"
  /\ json_loads_bytes (body request) = Some an_array
  /\ post_ingest request w
     = (Raised (TypeError (lit "'list' object is not a mapping")), w).
Proof.
  intros request w.
  assert (Hct : content_type request = lit "application/json")
    by (vm_compute; reflexivity).
  assert (Hj : json_loads_bytes (body request) = Some an_array)
    by (vm_compute; reflexivity).
  split; [exact Hct|]. split; [exact Hj|].
  exact (proj1 (ingest_json_non_object_raises request w an_array Hct Hj eq_refl)).
Defined.

(** C10 on a body of blanks. *)
Lemma logline_empty_payload_line_witness :
  let request := text_request (lit "  ") in
  let w := writable noon [] in
  strip (decode_utf8_replace (body request)) = []
  /\ log_text (snd (log_line request w))
     = lit "2024-03-05T12:00:07Z " ++ [newline].
Proof.
  intros request w.
  assert (Hp : strip (decode_utf8_replace (body request)) = [])
    by (vm_compute; reflexivity).
  destruct (logline_empty_payload_line request w Hp) as (_ & Hlog).
  split; [exact Hp | exact (Hlog eq_refl)].
Defined.

(** * More of the service *)

(** ** One call *)

Section Calls.

Context {lib : Library}.

(** What a call leaves of the world: the append writer has run on the
    call's line, or nothing has happened. *)
Lemma handle_world (c : Call) (w : World) :
  snd (handle c w)
  = match call_line (clock w) c with
    | Some l => snd (write_log_line l w)
    | None => w
    end.
Proof.
  destruct c as [|request|request]; simpl handle; unfold call_line.
  - reflexivity.
  - unfold post_ingest.
    destruct (PyStr.eqb (content_type request) (lit "application/json")) eqn:Hct.
    + apply eqb_eq in Hct.
      destruct (json_loads_bytes (body request)) as [v|] eqn:Hj.
      * destruct (is_object v) eqn:Hv.
        -- destruct v; try discriminate.
           now rewrite (ingest_json_object _ _ _ Hct Hj).
        -- rewrite (ingest_json_not_object _ _ _ Hct Hj Hv).
           destruct v; try discriminate; reflexivity.
      * now rewrite (ingest_json_invalid _ _ Hct Hj).
    + apply eqb_neq in Hct.
      destruct (strip (decode_utf8_replace (body request))) as [|ch p] eqn:Hp.
      * now rewrite (ingest_text_empty _ _ Hct Hp).
      * assert (Hne : payload request <> [])
          by (unfold payload; rewrite Hp; discriminate).
        rewrite (ingest_text_line _ _ Hct Hne). unfold payload. now rewrite Hp.
  - now rewrite post_logline_runs.
Qed.

(** The outcome of a call does not depend on the world. *)
Lemma handle_outcome_of_call (c : Call) (w1 w2 : World) :
  fst (handle c w1) = fst (handle c w2).
Proof.
  destruct c as [|request|request]; simpl handle.
  - reflexivity.
  - apply ingest_outcome_of_request.
  - now rewrite !post_logline_runs.
Qed.

Lemma write_log_line_frame (line : str) (w : World) :
  let w' := snd (write_log_line line w) in
  clock w' = clock w /\ write_fault w' = write_fault w.
Proof.
  destruct (write_fault w) as [[n msg]|] eqn:H.
  - rewrite (write_log_line_failing line msg n w H). now simpl.
  - rewrite (write_log_line_writable line w H). now simpl.
Qed.

Lemma written_cons (l : str) (lines : list str) (w : World) :
  written (l :: lines) w = written lines (snd (write_log_line l w)).
Proof. reflexivity. Qed.

Lemma written_app (a b : list str) (w : World) :
  written (a ++ b) w = written b (written a w).
Proof. unfold written. apply fold_left_app. Qed.

Lemma written_set_clock (lines : list str) (now : datetime) (w : World) :
  written lines (set_clock now w) = set_clock now (written lines w).
Proof.
  revert w. induction lines as [|l lines IH]; intro w; [reflexivity|].
  rewrite !written_cons, <- IH. f_equal.
  destruct (write_fault w) as [[n msg]|] eqn:H.
  - rewrite (write_log_line_failing l msg n w H).
    now rewrite (write_log_line_failing l msg n (set_clock now w) H).
  - rewrite (write_log_line_writable l w H).
    now rewrite (write_log_line_writable l (set_clock now w) H).
Qed.

Lemma set_clock_twice (t1 t2 : datetime) (w : World) :
  set_clock t1 (set_clock t2 w) = set_clock t1 w.
Proof. reflexivity. Qed.

(** A session leaves the world the append writer leaves when it runs
    on the lines of the session, one after the other; only the clock
    has moved. *)
Lemma serve_world (calls : list (datetime * Call)) (w : World) :
  exists t,
    snd (serve calls w) = set_clock t (written (session_lines calls) w).
Proof.
  revert w. induction calls as [|[now c] calls IH]; intro w.
  - exists (clock w). destruct w; reflexivity.
  - simpl serve.
    destruct (handle c (set_clock now w)) as [o w1] eqn:Hh.
    destruct (serve calls w1) as [os w2] eqn:Hs.
    assert (Hw1 : w1 = snd (handle c (set_clock now w))) by now rewrite Hh.
    assert (Hw2 : w2 = snd (serve calls w1)) by now rewrite Hs.
    destruct (IH w1) as [t Ht]. exists t.
    simpl snd. rewrite Hw2, Ht, Hw1, handle_world. simpl clock.
    unfold session_lines. simpl flat_map. fold (session_lines calls).
    destruct (call_line now c) as [l|]; simpl app.
    + rewrite written_cons.
      change (snd (write_log_line l ?x)) with (written [l] x).
      now rewrite !written_set_clock, set_clock_twice.
    + now rewrite written_set_clock, set_clock_twice.
Qed.

(** ** A session *)

Lemma written_writable (lines : list str) (w : World) :
  write_fault w = None ->
  written lines w
  = mk_world (clock w) (log_text w ++ unlines lines) None (stderr w).
Proof.
  revert w. induction lines as [|l lines IH]; intros w Hw.
  - simpl. unfold unlines. simpl. rewrite app_nil_r.
    destruct w; simpl in Hw; now subst.
  - rewrite written_cons, (write_log_line_writable l w Hw).
    rewrite IH by reflexivity. simpl. unfold unlines. simpl.
    now rewrite <- !app_assoc.
Qed.

Lemma written_failing (lines : list str) (n : nat) (msg : str) (w : World) :
  write_fault w = Some (n, msg) ->
  written lines w
  = mk_world (clock w)
      (log_text w ++ flat_map (fun l => firstn n (l ++ [newline])) lines)
      (Some (n, msg))
      (stderr w ++ repeat (write_failure msg) (length lines)).
Proof.
  revert w. induction lines as [|l lines IH]; intros w Hw.
  - simpl. rewrite !app_nil_r. destruct w; simpl in Hw; now subst.
  - rewrite written_cons, (write_log_line_failing l msg n w Hw).
    rewrite IH by reflexivity. simpl. now rewrite <- !app_assoc.
Qed.

(** X1.  A session of calls, served one after the other, leaves in
    the log the old text followed by the lines of its calls, in the
    order of the calls, each with its newline: a line for every
    [/ingest] call that is accepted and for every [/logline] call,
    nothing for a probe, a rejected or a failed call.  Nothing is
    printed to the error stream.  With a failing destination the log
    gains what each failed append leaves and the error stream one
    diagnostic for each line. *)
Theorem session_log :
  forall (calls : list (datetime * Call)) (w : World),
    let w' := snd (serve calls w) in
    let lines := session_lines calls in
    write_fault w' = write_fault w
    /\ (write_fault w = None ->
          log_text w' = log_text w ++ unlines lines /\ stderr w' = stderr w)
    /\ (forall n msg, write_fault w = Some (n, msg) ->
          log_text w' = log_text w
                        ++ flat_map (fun l => firstn n (l ++ [newline])) lines
          /\ stderr w' = stderr w ++ repeat (write_failure msg) (length lines)).
Proof.
  intros calls w w' lines. unfold w'.
  destruct (serve_world calls w) as [t ->]. fold lines.
  repeat split.
  - destruct (write_fault w) as [[n msg]|] eqn:H.
    + now rewrite (written_failing lines n msg w H).
    + now rewrite (written_writable lines w H).
  - now rewrite (written_writable lines w H).
  - now rewrite (written_writable lines w H).
  - now rewrite (written_failing lines n msg w H).
  - now rewrite (written_failing lines n msg w H).
Qed.

(** X2.  What a session answers does not depend on the world it runs
    in: not on the log, not on the error stream, not on whether the
    destination can be written.  A caller cannot tell a failed append
    from a successful one. *)
Theorem session_responses_ignore_the_world :
  forall (calls : list (datetime * Call)) (w1 w2 : World),
    fst (serve calls w1) = fst (serve calls w2).
Proof.
  induction calls as [|[now c] calls IH]; intros w1 w2; [reflexivity|].
  simpl serve.
  pose proof (handle_outcome_of_call c (set_clock now w1) (set_clock now w2)) as Ho.
  destruct (handle c (set_clock now w1)) as [o1 u1].
  destruct (handle c (set_clock now w2)) as [o2 u2].
  simpl in Ho. subst o2.
  specialize (IH u1 u2).
  destruct (serve calls u1) as [os1 v1]. destruct (serve calls u2) as [os2 v2].
  simpl in *. now f_equal.
Qed.


(** X3.  [/ingest] answers 202 in two cases and no other: the
    content type is JSON and the body parses to an object, or the
    content type is not JSON and the trimmed text is not empty.  In
    every other case (a 400, or the exception of a JSON body that is
    no object) the world is left exactly as it was. *)
Theorem ingest_accepts_iff :
  forall (request : Request) (w : World),
    (fst (post_ingest request w) = Returned accepted
     <-> (content_type request = lit "application/json"
          /\ exists items, json_loads_bytes (body request) = Some (JObj items))
         \/ (content_type request <> lit "application/json"
             /\ strip (decode_utf8_replace (body request)) <> []))
    /\ (fst (post_ingest request w) <> Returned accepted ->
        snd (post_ingest request w) = w).
Proof.
  intros request w. unfold post_ingest.
  destruct (PyStr.eqb (content_type request) (lit "application/json")) eqn:Hct.
  - apply eqb_eq in Hct.
    destruct (json_loads_bytes (body request)) as [v|] eqn:Hj.
    + destruct (is_object v) eqn:Hv.
      * destruct v as [| | | |?|items]; try discriminate.
        rewrite (ingest_json_object _ _ _ Hct Hj). simpl. split.
        -- split; [intros _; left; eauto | reflexivity].
        -- intro H. now contradiction H.
      * rewrite (ingest_json_not_object _ _ _ Hct Hj Hv). simpl. split.
        -- split; [discriminate|].
           intros [[_ [items E]] | [Hn _]]; [|contradiction].
           injection E as ->. discriminate.
        -- reflexivity.
    + rewrite (ingest_json_invalid _ _ Hct Hj). simpl. split.
      * split; [discriminate|].
        intros [[_ [items E]] | [Hn _]]; [discriminate | contradiction].
      * reflexivity.
  - apply eqb_neq in Hct.
    destruct (strip (decode_utf8_replace (body request))) as [|ch p] eqn:Hp.
    + rewrite (ingest_text_empty _ _ Hct Hp). simpl. split.
      * split; [discriminate|].
        intros [[Hy _] | [_ Hn]]; contradiction.
      * reflexivity.
    + assert (Hne : payload request <> [])
        by (unfold payload; rewrite Hp; discriminate).
      rewrite (ingest_text_line _ _ Hct Hne). simpl. split.
      * split; [intros _; right; split; [exact Hct | discriminate] | reflexivity].
      * intro H. now contradiction H.
Qed.






End Calls.

(** ** The object and the line of a JSON post *)

Lemma dict_get_app {V} (k : str) (a b : dict V) :
  dict_get k (a ++ b)
  = match dict_get k a with
    | Some v => Some v
    | None => dict_get k b
    end.
Proof.
  induction a as [|[k' v] a IH]; simpl; [reflexivity|].
  now destruct (PyStr.eqb k' k).
Qed.

Lemma dict_set_cons {V} (k k' : str) (v v' : V) (d : dict V) :
  dict_set k v ((k', v') :: d)
  = if PyStr.eqb k' k then (k', v) :: d else (k', v') :: dict_set k v d.
Proof. reflexivity. Qed.

Lemma dict_update_snoc {V} (d items : dict V) (k : str) (v : V) :
  dict_update d (items ++ [(k, v)]) = dict_set k v (dict_update d items).
Proof. unfold dict_update. now rewrite fold_left_app. Qed.

Lemma filter_keys_fresh {V} (k k0 : str) (d : dict V) :
  ~ In k (dict_keys d) ->
  ~ In k (dict_keys (filter (fun kv => negb (PyStr.eqb (fst kv) k0)) d)).
Proof.
  intros Hn Hin. apply Hn. unfold dict_keys in *.
  apply in_map_iff in Hin. destruct Hin as (kv & Hk & Hkv).
  apply filter_In in Hkv. apply in_map_iff. exists kv. tauto.
Qed.

Lemma dict_update_ts_first (x : json) (O : dict json) :
  distinct (dict_keys O) = true ->
  dict_update [(lit "ts", x)] O
  = (lit "ts", match dict_get (lit "ts") O with
               | Some v => v
               | None => x
               end)
    :: filter (fun kv => negb (PyStr.eqb (fst kv) (lit "ts"))) O.
Proof.
  intros Hd. apply distinct_NoDup in Hd. revert Hd.
  induction O as [|[k v] O IH] using rev_ind; intro Hnd; [reflexivity|].
  unfold dict_keys in Hnd. rewrite map_app in Hnd. simpl in Hnd.
  assert (HndO : NoDup (dict_keys O)) by (apply NoDup_remove_1 in Hnd;
                                            now rewrite app_nil_r in Hnd).
  assert (Hk : ~ In k (dict_keys O)) by (apply NoDup_remove_2 in Hnd;
                                           now rewrite app_nil_r in Hnd).
  rewrite dict_update_snoc, (IH HndO), filter_app, dict_get_app.
  simpl filter. simpl dict_get.
  destruct (PyStr.eqb k (lit "ts")) eqn:E.
  - apply eqb_eq in E. subst k. simpl negb. cbv iota. rewrite app_nil_r.
    apply dict_get_None in Hk. rewrite Hk. reflexivity.
  - simpl negb. cbv iota.
    assert (Hts : PyStr.eqb (lit "ts") k = false).
    { apply eqb_neq. apply eqb_neq in E. congruence. }
    rewrite dict_set_cons, Hts.
    rewrite (dict_set_fresh k v _ (filter_keys_fresh k (lit "ts") O Hk)).
    now destruct (dict_get (lit "ts") O).
Qed.

(** X5.  The object [{"ts": ts, **O}] that [/ingest] logs, for an [O]
    with distinct keys: [ts] comes first, with the caller's value
    when [O] has a [ts] of its own and the server's otherwise, and
    the other items of [O] follow in the order [O] has them.  Nothing
    else is added, nothing is lost, no key comes twice. *)
Theorem logged_object_shape :
  forall (x : json) (O : dict json),
    distinct (dict_keys O) = true ->
    dict_update [(lit "ts", x)] O
    = (lit "ts", match dict_get (lit "ts") O with
                 | Some v => v
                 | None => x
                 end)
      :: filter (fun kv => negb (PyStr.eqb (fst kv) (lit "ts"))) O.
Proof.
  intros x O Hd. now apply dict_update_ts_first.
Qed.

Lemma filter_other_keys {V} (k : str) (d : dict V) :
  dict_get k d = None ->
  filter (fun kv => negb (PyStr.eqb (fst kv) k)) d = d.
Proof.
  induction d as [|[k' v] d IH]; simpl; [reflexivity|].
  destruct (PyStr.eqb k' k); [discriminate|].
  intro H. simpl. now rewrite (IH H).
Qed.

Lemma flat_map_escape_verbatim (s : str) :
  forallb verbatim s = true -> flat_map escape_char s = s.
Proof.
  induction s as [|c s IH]; simpl; [reflexivity|].
  rewrite andb_true_iff. intros [Hc Hs]. rewrite (IH Hs).
  unfold verbatim in Hc. rewrite !andb_true_iff, !negb_true_iff in Hc.
  destruct Hc as [[Hp Hq] Hb]. unfold escape_char, printable in *.
  now rewrite Hq, Hb, Hp.
Qed.

Lemma is_digit_verbatim (s : str) :
  forallb is_digit s = true -> forallb verbatim s = true.
Proof.
  induction s as [|c s IH]; simpl; [reflexivity|].
  rewrite !andb_true_iff. intros [Hc Hs]. split; [|now apply IH].
  unfold is_digit in Hc. apply andb_true_iff in Hc. rewrite !N.leb_le in Hc.
  unfold verbatim. rewrite printable_range by lia.
  unfold quote, backslash.
  destruct (N.eqb_spec c 34); [lia|]. destruct (N.eqb_spec c 92); [lia|].
  reflexivity.
Qed.

Lemma timestamp_verbatim (w : World) : forallb verbatim (timestamp w) = true.
Proof.
  unfold timestamp, isoformat, format_time.
  destruct (microsecond (clock w) =? 0);
    rewrite !forallb_app, !(is_digit_verbatim _ (zpad_all_digits _ _));
    reflexivity.
Qed.

Section JsonLine.

Context {lib : Library}.

(** X6.  The line of a JSON post whose object has no [ts] of its own,
    character by character: an opening brace, the member
    ["ts":"<timestamp>"] with the timestamp as it is (nothing in it
    needs an escape), then the closing brace for an empty object, or
    a comma and the compact text of the caller's object without its
    opening brace.  No blank is written between the tokens. *)
Theorem json_line_text :
  forall (request : Request) (w : World) (O : dict json),
    content_type request = lit "application/json" ->
    json_loads_bytes (body request) = Some (JObj O) ->
    distinct (dict_keys O) = true ->
    dict_get (lit "ts") O = None ->
    let line :=
      lit "{" ++ [quote] ++ lit "ts" ++ [quote] ++ lit ":"
      ++ [quote] ++ timestamp w ++ [quote]
      ++ match O with
         | [] => lit "}"
         | _ :: _ => lit "," ++ List.tl (json_dumps (JObj O))
         end in
    post_ingest request w = (Returned accepted, snd (write_log_line line w)).
Proof.
  intros request w O Hct Hj Hd Hts line. unfold post_ingest.
  rewrite (ingest_json_object request w O Hct Hj). do 3 f_equal.
  rewrite (dict_update_ts_first _ O Hd), Hts, (filter_other_keys _ O Hts).
  change (json_dumps (JObj ((lit "ts", JStr (timestamp w)) :: O)))
    with (lit "{"
          ++ join (lit ",")
               (map (fun kv => encode_basestring_ascii (fst kv) ++ lit ":"
                               ++ json_dumps (snd kv))
                    ((lit "ts", JStr (timestamp w)) :: O))
          ++ lit "}").
  rewrite map_cons, join_cons_app. cbn [fst snd json_dumps].
  unfold line, encode_basestring_ascii at 2.
  rewrite (flat_map_escape_verbatim _ (timestamp_verbatim w)).
  change (encode_basestring_ascii (lit "ts")) with ([quote] ++ lit "ts" ++ [quote]).
  rewrite <- !app_assoc. do 7 f_equal.
  destruct O as [|kv O']; reflexivity.
Qed.


End JsonLine.

Lemma wf_object_distinct (O : dict json) :
  wf_json (JObj O) = true -> distinct (dict_keys O) = true.
Proof.
  intro Hwf.
  change (wf_json (JObj O))
    with (forallb (fun kv => wf_text (fst kv) && wf_json (snd kv)) O
          && distinct (map fst O)) in Hwf.
  apply andb_true_iff in Hwf. exact (proj2 Hwf).
Qed.

Lemma json_dumps_injective (v v' : json) :
  wf_json v = true -> wf_json v' = true ->
  json_dumps v = json_dumps v' -> v = v'.
Proof.
  intros Hwf Hwf' E.
  pose proof (json_loads_dumps v Hwf) as H.
  rewrite E, (json_loads_dumps v' Hwf') in H. congruence.
Qed.

Section OneObject.

Context {lib : Library}.

(** X8.  A logged line stands for one object only.  When two JSON
    posts to [/ingest] with well-formed objects make the same log out
    of the same log, the objects they logged are the same; and when
    neither caller brought a [ts] of its own, the callers' objects
    are the same and so are the two timestamps.  (A caller's [ts] is
    what breaks the second part: the log cannot tell it from the
    server's.) *)
Theorem json_line_stands_for_one_object :
  forall (request1 request2 : Request) (w1 w2 : World) (O1 O2 : dict json),
    content_type request1 = lit "application/json" ->
    content_type request2 = lit "application/json" ->
    json_loads_bytes (body request1) = Some (JObj O1) ->
    json_loads_bytes (body request2) = Some (JObj O2) ->
    wf_json (JObj O1) = true ->
    wf_json (JObj O2) = true ->
    write_fault w1 = None ->
    write_fault w2 = None ->
    log_text w1 = log_text w2 ->
    log_text (snd (post_ingest request1 w1))
    = log_text (snd (post_ingest request2 w2)) ->
    dict_update [(lit "ts", JStr (timestamp w1))] O1
    = dict_update [(lit "ts", JStr (timestamp w2))] O2
    /\ (dict_get (lit "ts") O1 = None -> dict_get (lit "ts") O2 = None ->
        O1 = O2 /\ timestamp w1 = timestamp w2).
Proof.
  intros request1 request2 w1 w2 O1 O2 Hct1 Hct2 Hj1 Hj2 Hwf1 Hwf2 Hw1 Hw2
         Hlog Hsame.
  unfold post_ingest in Hsame.
  rewrite (ingest_json_object request1 w1 O1 Hct1 Hj1),
          (ingest_json_object request2 w2 O2 Hct2 Hj2) in Hsame.
  cbn [snd] in Hsame.
  rewrite (write_log_line_writable _ w1 Hw1),
          (write_log_line_writable _ w2 Hw2) in Hsame.
  cbn [snd log_text] in Hsame.
  rewrite Hlog in Hsame. apply app_inv_head in Hsame.
  apply app_inv_tail in Hsame.
  assert (E : dict_update [(lit "ts", JStr (timestamp w1))] O1
              = dict_update [(lit "ts", JStr (timestamp w2))] O2).
  { assert (Ev : JObj (dict_update [(lit "ts", JStr (timestamp w1))] O1)
                 = JObj (dict_update [(lit "ts", JStr (timestamp w2))] O2)).
    { apply json_dumps_injective; [| |exact Hsame];
        (apply wf_timestamped; [apply wf_text_ascii, timestamp_ascii|assumption]). }
    now injection Ev. }
  split; [exact E|].
  intros Hts1 Hts2.
  rewrite (dict_update_ts_first _ O1 (wf_object_distinct O1 Hwf1)),
          (dict_update_ts_first _ O2 (wf_object_distinct O2 Hwf2)),
          Hts1, Hts2, (filter_other_keys _ O1 Hts1), (filter_other_keys _ O2 Hts2)
    in E.
  injection E as Et EO. now split.
Qed.

End OneObject.

(** ** Timestamps *)

(** X9.  A timestamp can be read back: for a valid clock the digits
    at their fixed places give the year, the month, the day, the
    hour, the minute and the second again, and the microseconds when
    they are written.  The text is 20 characters long at a full
    second (no fraction is written then) and 27 otherwise; two clocks
    with the same timestamp are the same. *)
Theorem timestamp_read_back :
  forall w : World,
    valid_datetime (clock w) = true ->
    read_timestamp (timestamp w) = clock w
    /\ length (timestamp w)
       = (if microsecond (clock w) =? 0 then 20 else 27)%nat
    /\ forall w', valid_datetime (clock w') = true ->
                  timestamp w' = timestamp w -> clock w' = clock w.
Proof.
  pose proof timestamp_reads_clock as Hread.
  intros w Hv. destruct (Hread w Hv) as [Hr Hl].
  split; [exact Hr|]. split; [exact Hl|].
  intros w' Hv' E. destruct (Hread w' Hv') as [Hr' _].
  now rewrite <- Hr', E.
Qed.

Lemma str_ltb_app (p a b : str) : str_ltb (p ++ a) (p ++ b) = str_ltb a b.
Proof.
  induction p as [|c p IH]; [reflexivity|].
  simpl. rewrite N.ltb_irrefl, N.eqb_refl, IH. reflexivity.
Qed.

(** X10.  The text order of timestamps is not the order of time: at a
    full second no fraction is written, and the [Z] that follows the
    seconds sorts after the point of a fraction.  The timestamp of
    any instant with microseconds sorts before the timestamp of the
    full second it comes after. *)
Theorem timestamp_order_at_full_second :
  forall d : datetime,
    microsecond d <> 0 ->
    str_ltb (isoformat d ++ lit "Z")
            (isoformat (replace_microsecond d 0) ++ lit "Z") = true.
Proof.
  intros d Hus. unfold isoformat, format_time, replace_microsecond.
  cbn [year month day hour minute second microsecond].
  apply N.eqb_neq in Hus. rewrite Hus. change (0 =? 0) with true. cbv iota.
  rewrite <- !app_assoc. rewrite !str_ltb_app. reflexivity.
Qed.

(** ** Text lines *)

Lemma skipn_past {A} (a : list A) (c : A) (b : list A) :
  skipn (S (length a)) (a ++ c :: b) = b.
Proof. induction a as [|x a IH]; [reflexivity | exact IH]. Qed.

Lemma lstrip_head (s : str) (c : codepoint) (r : str) :
  lstrip s = c :: r -> isspace c = false.
Proof.
  induction s as [|x s IH]; simpl; [discriminate|].
  destruct (isspace x) eqn:E; [exact IH|].
  intro H. injection H as <- _. exact E.
Qed.

Lemma lstrip_fixed (s : str) :
  (forall c r, s = c :: r -> isspace c = false) -> lstrip s = s.
Proof.
  destruct s as [|c s]; [reflexivity|]. intro H. simpl.
  now rewrite (H c s eq_refl).
Qed.

Lemma lstrip_suffix (s : str) : exists pre, s = pre ++ lstrip s.
Proof.
  induction s as [|c s [pre IH]]; [now exists []|]. simpl.
  destruct (isspace c); [|now exists []].
  exists (c :: pre). simpl. now f_equal.
Qed.

Lemma rstrip_prefix (s : str) : exists suf, s = rstrip s ++ suf.
Proof.
  unfold rstrip. destruct (lstrip_suffix (rev s)) as [pre E].
  exists (rev pre). rewrite <- rev_app_distr, <- E. now rewrite rev_involutive.
Qed.

Lemma rstrip_last (s init : str) (c : codepoint) :
  rstrip s = init ++ [c] -> isspace c = false.
Proof.
  unfold rstrip. intro H. apply (f_equal (@rev _)) in H.
  rewrite rev_involutive, rev_app_distr in H. simpl in H.
  exact (lstrip_head _ _ _ H).
Qed.

Lemma rstrip_fixed (s : str) :
  (forall init c, s = init ++ [c] -> isspace c = false) -> rstrip s = s.
Proof.
  intro H. unfold rstrip. rewrite lstrip_fixed; [apply rev_involutive|].
  intros c r E. apply (H (rev r) c).
  rewrite <- (rev_involutive s), E. reflexivity.
Qed.

Section TextLines.

Context {lib : Library}.

(** X11.  The text a route logs for a raw body is trimmed for good:
    it neither begins nor ends with a blank (a space, a tab, a line
    break or another character [str.isspace] knows), and trimming it
    again changes nothing.  A blank or a newline inside the text
    stays. *)
Theorem payload_is_trimmed :
  forall request : Request,
    let P := payload request in
    strip P = P
    /\ (forall c rest, P = c :: rest -> isspace c = false)
    /\ (forall init c, P = init ++ [c] -> isspace c = false).
Proof.
  intros request P. unfold P, payload.
  set (s := decode_utf8_replace (body request)).
  assert (Hfirst : forall c rest, strip s = c :: rest -> isspace c = false).
  { intros c rest E. unfold strip in E.
    destruct (rstrip_prefix (lstrip s)) as [suf Hs].
    rewrite E in Hs. simpl in Hs. exact (lstrip_head _ _ _ Hs). }
  assert (Hlast : forall init c, strip s = init ++ [c] -> isspace c = false).
  { intros init c E. exact (rstrip_last _ _ _ E). }
  split; [|split; assumption].
  unfold strip at 1. rewrite (lstrip_fixed _ Hfirst).
  exact (rstrip_fixed _ Hlast).
Qed.

(** X12.  A line of [/logline] can be taken apart again: the text up
    to its first space is the timestamp (no timestamp holds a space)
    and what follows that space is the trimmed body, as it was
    given.  The lines [/ingest] writes for a raw body are made the
    same way. *)
Theorem text_line_read_back :
  forall (request : Request) (w : World),
    let line := timestamp w ++ [32] ++ payload request in
    log_line request w
    = (Returned [(lit "status", lit "ok")], snd (write_log_line line w))
    /\ split_head 32 line = timestamp w
    /\ skipn (S (length (timestamp w))) line = payload request.
Proof.
  intros request w line. split; [apply log_line_runs|]. split.
  - apply split_head_app, timestamp_no_space.
  - apply skipn_past.
Qed.

(** X13.  For a body that is not declared as JSON and does not trim
    to nothing, [/ingest] and [/logline] leave the same world: they
    give the same line to the append writer.  Only the answers
    differ, 202 with an empty body and 200 with [{"status":"ok"}];
    and [/logline] does so whatever the headers say. *)
Theorem ingest_text_same_as_logline :
  forall (request : Request) (w : World) (hs : dict str),
    content_type request <> lit "application/json" ->
    payload request <> [] ->
    snd (post_ingest request w)
    = snd (post_logline (mk_request hs (body request)) w)
    /\ fst (post_ingest request w) = Returned (mk_response 202 [])
    /\ answered 200 (fst (post_logline (mk_request hs (body request)) w)) = true.
Proof.
  intros request w hs Hct Hp. unfold post_ingest.
  rewrite (ingest_text_line request w Hct Hp), post_logline_runs.
  repeat split.
Qed.

(** X14.  A request to [/ingest] without a content-type header is
    taken as raw text: it is answered 400 [empty body] when the body
    trims to nothing and logged as a text line otherwise, also when
    the body happens to be JSON. *)
Theorem ingest_without_content_type :
  forall (request : Request) (w : World),
    dict_get (lit "content-type") (headers request) = None ->
    content_type request = []
    /\ (payload request = [] ->
        post_ingest request w
        = (Returned (mk_response 400 (lit "empty body")), w))
    /\ (payload request <> [] ->
        post_ingest request w
        = (Returned (mk_response 202 []),
           snd (write_log_line (timestamp w ++ [32] ++ payload request) w))).
Proof.
  intros request w Hh.
  assert (Hct : content_type request = []).
  { unfold content_type, headers_get. now rewrite Hh. }
  assert (Hne : content_type request <> lit "application/json")
    by (rewrite Hct; discriminate).
  split; [exact Hct|]. unfold post_ingest. split; intro Hp.
  - exact (ingest_text_empty request w Hne Hp).
  - exact (ingest_text_line request w Hne Hp).
Qed.

End TextLines.

(** ** Startup *)

Lemma split_no_sep (sep : codepoint) (p : str) :
  ~ In sep p -> split sep p = [p].
Proof.
  induction p as [|c p IH]; [reflexivity|]. simpl. intro Hn.
  destruct (N.eqb_spec c sep) as [->|_]; [tauto|].
  rewrite IH by tauto. reflexivity.
Qed.

Lemma split_app_sep (sep : codepoint) (p rest : str) :
  ~ In sep p -> split sep (p ++ sep :: rest) = p :: split sep rest.
Proof.
  induction p as [|c p IH]; simpl; intro Hn.
  - now rewrite N.eqb_refl.
  - destruct (N.eqb_spec c sep) as [->|_]; [tauto|].
    rewrite IH by tauto. reflexivity.
Qed.

(** Cutting at the separator undoes joining with it. *)
Lemma split_join (sep : codepoint) (p : str) (ps : list str) :
  Forall (fun x => ~ In sep x) (p :: ps) ->
  split sep (join [sep] (p :: ps)) = p :: ps.
Proof.
  revert p. induction ps as [|q ps IH]; intros p H.
  - apply split_no_sep. now inversion H.
  - change (join [sep] (p :: q :: ps)) with (p ++ sep :: join [sep] (q :: ps)).
    inversion H as [|? ? Hp Hrest]; subst.
    now rewrite (split_app_sep sep p _ Hp), (IH q Hrest).
Qed.

Lemma filter_kept (parts : list str) :
  Forall (fun x => kept_component x = true) parts ->
  filter kept_component parts = parts.
Proof.
  induction 1 as [|x parts Hx _ IH]; [reflexivity|].
  simpl. now rewrite Hx, IH.
Qed.

Lemma join_first (sep : str) (c : codepoint) (p : str) (ps : list str) :
  exists r, join sep ((c :: p) :: ps) = c :: r.
Proof.
  destruct ps as [|q ps]; [now exists p|].
  change (join sep ((c :: p) :: q :: ps))
    with ((c :: p) ++ sep ++ join sep (q :: ps)).
  simpl. eauto.
Qed.

(** A component as [pathlib] keeps it: not empty, not a lone dot, no
    slash inside. *)
Lemma path_of_components (rt : str) (parts : list str) (f : str) :
  Forall (fun x => kept_component x = true /\ ~ In 47 x) (parts ++ [f]) ->
  (rt = [] \/ rt = lit "/") ->
  parse_path (rt ++ join (lit "/") (parts ++ [f])) = mk_path rt (parts ++ [f]).
Proof.
  intros Hall Hrt.
  assert (Hne : exists p ps, parts ++ [f] = p :: ps)
    by (destruct parts; simpl; eauto).
  destruct Hne as (p & ps & E). rewrite E in *.
  assert (Hp : exists c p', p = c :: p' /\ c <> 47).
  { inversion Hall as [|? ? [Hk Hs] _]; subst.
    destruct p as [|c p']; [discriminate Hk|].
    exists c, p'. split; [reflexivity|]. intro Hc. apply Hs. now left. }
  destruct Hp as (c & p' & -> & Hc).
  destruct (join_first (lit "/") c p' ps) as [r Hj].
  assert (Hsplit : split 47 (join (lit "/") ((c :: p') :: ps)) = (c :: p') :: ps).
  { apply (split_join 47). eapply Forall_impl; [|exact Hall]. now intros x [_ H]. }
  assert (Hfilter : filter kept_component ((c :: p') :: ps) = (c :: p') :: ps).
  { apply filter_kept. eapply Forall_impl; [|exact Hall]. now intros x [H _]. }
  apply N.eqb_neq in Hc.
  unfold parse_path. destruct Hrt as [-> | ->].
  - change ([] ++ join (lit "/") ((c :: p') :: ps))
      with (join (lit "/") ((c :: p') :: ps)).
    rewrite Hj. unfold splitroot. rewrite Hc.
    now rewrite <- Hj, Hsplit, Hfilter.
  - change (lit "/" ++ join (lit "/") ((c :: p') :: ps))
      with (47 :: join (lit "/") ((c :: p') :: ps)).
    rewrite Hj. unfold splitroot. rewrite N.eqb_refl, Hc.
    now rewrite <- Hj, Hsplit, Hfilter.
Qed.

Section Startup.

Context {fs : FileSystem} {lib : Library}.

(** X15.  [ensure_log_dir] never raises.  When the directory is made
    (or is there already) it prints nothing and leaves the world as
    [mkdir] left it; when [mkdir] raises, it prints one line, the
    prefix [[listener] Failed to create log directory: ] and the
    text of the error, and returns all the same.  Whatever happened,
    the routes then answer as they would have without it. *)
Theorem ensure_log_dir_never_raises :
  forall (path : str) (w : World),
    let dir := parent (parse_path path) in
    fst (ensure_log_dir path w) = Returned tt
    /\ (forall w1, mkdir dir w = (Returned tt, w1) ->
          snd (ensure_log_dir path w) = w1)
    /\ (forall exc w1, mkdir dir w = (Raised exc, w1) ->
          snd (ensure_log_dir path w)
          = mk_world (clock w1) (log_text w1) (write_fault w1)
                     (stderr w1 ++ [mkdir_failure (exn_str exc)]))
    /\ (forall request,
          fst (post_ingest request (snd (ensure_log_dir path w)))
          = fst (post_ingest request w)
          /\ fst (post_logline request (snd (ensure_log_dir path w)))
             = fst (post_logline request w)).
Proof.
  intros path w dir. unfold ensure_log_dir, try_except. fold dir.
  destruct (mkdir dir w) as [[[]|exc] w1] eqn:E.
  - split; [reflexivity|]. split; [now intros w2 [= <-]|].
    split; [discriminate|].
    intro request. split; [apply ingest_outcome_of_request|].
    now rewrite !post_logline_runs.
  - split; [reflexivity|]. split; [discriminate|].
    split; [now intros exc2 w2 [= <- <-]|].
    intro request. split; [apply ingest_outcome_of_request|].
    now rewrite !post_logline_runs.
Qed.

(** X16.  The directory [ensure_log_dir] asks for is the path without
    its last component.  For a path [/d1/.../dn/f] it is
    [/d1/.../dn], the root itself when there is no [d]; for a
    relative path [d1/.../dn/f] it is [d1/.../dn], and for a bare
    file name it is the path with no component, the current
    directory. *)
Theorem ensure_log_dir_makes_the_parent :
  forall (rt : str) (dirs : list str) (f : str) (w : World),
    Forall (fun x => kept_component x = true /\ ~ In 47 x) (dirs ++ [f]) ->
    rt = [] \/ rt = lit "/" ->
    let path := rt ++ join (lit "/") (dirs ++ [f]) in
    parent (parse_path path) = mk_path rt dirs
    /\ ensure_log_dir path w
       = try_except (mkdir (mk_path rt dirs))
           (fun exc => print_stderr (mkdir_failure (exn_str exc))) w.
Proof.
  intros rt dirs f w Hall Hrt path.
  assert (Hp : parent (parse_path path) = mk_path rt dirs).
  { unfold path. rewrite (path_of_components rt dirs f Hall Hrt).
    unfold parent. simpl tail.
    destruct (dirs ++ [f]) as [|x l] eqn:E; [now destruct dirs|].
    rewrite <- E, removelast_last. reflexivity. }
  split; [exact Hp|]. unfold ensure_log_dir. now rewrite Hp.
Qed.

End Startup.

(** ** The content type *)

Lemma split_head_no_sep (sep : codepoint) (v : str) :
  ~ In sep v -> split_head sep v = v.
Proof.
  induction v as [|c v IH]; simpl; intro Hn; [reflexivity|].
  destruct (N.eqb_spec c sep) as [->|_]; [tauto|].
  f_equal. apply IH. tauto.
Qed.

Lemma lstrip_blanks (a t : str) :
  forallb isspace a = true -> lstrip (a ++ t) = lstrip t.
Proof.
  induction a as [|c a IH]; simpl; [reflexivity|].
  rewrite andb_true_iff. intros [Hc Ha]. now rewrite Hc, IH.
Qed.

Lemma forallb_rev {A} (p : A -> bool) (l : list A) :
  forallb p (rev l) = forallb p l.
Proof.
  induction l as [|x l IH]; [reflexivity|].
  simpl. rewrite forallb_app, IH. simpl. rewrite andb_true_r. apply andb_comm.
Qed.

Lemma rstrip_blanks (t b : str) :
  forallb isspace b = true -> rstrip (t ++ b) = rstrip t.
Proof.
  intro Hb. unfold rstrip. rewrite rev_app_distr, lstrip_blanks; [reflexivity|].
  now rewrite forallb_rev.
Qed.

Lemma isspace_lower_char (c : codepoint) :
  isspace c = true -> lower_char c = c.
Proof.
  intro H. unfold lower_char.
  destruct ((65 <=? c) && (c <=? 90)) eqn:E1.
  { apply andb_true_iff in E1. rewrite !N.leb_le in E1.
    unfold isspace in H.
    rewrite !orb_true_iff, !andb_true_iff, !N.leb_le, !N.eqb_eq in H. lia. }
  destruct ((192 <=? c) && (c <=? 222) && negb (c =? 215)) eqn:E2; [|reflexivity].
  rewrite !andb_true_iff, !N.leb_le in E2.
  unfold isspace in H.
  rewrite !orb_true_iff, !andb_true_iff, !N.leb_le, !N.eqb_eq in H. lia.
Qed.

(** A text that lower-cases to [application/json] is trimmed and
    holds no semicolon. *)
Lemma json_media_type_chars (T : str) :
  lower T = lit "application/json" ->
  (forall c, In c T -> isspace c = false /\ c <> 59).
Proof.
  intros HT c Hin.
  assert (Hl : In (lower_char c) (lit "application/json")).
  { rewrite <- HT. unfold lower. now apply in_map. }
  split.
  - destruct (isspace c) eqn:E; [|reflexivity].
    rewrite (isspace_lower_char c E) in Hl.
    simpl in Hl. repeat (destruct Hl as [Hl|Hl]; [subst c; discriminate E|]).
    contradiction.
  - intros ->. simpl in Hl.
    repeat (destruct Hl as [Hl|Hl]; [discriminate Hl|]). contradiction.
Qed.

Lemma blanks_no_semicolon (a : str) : forallb isspace a = true -> ~ In 59 a.
Proof.
  intros H Hin. rewrite forallb_forall in H. specialize (H 59 Hin).
  discriminate H.
Qed.

(** X17.  What makes a request a JSON request: the content-type
    header, up to its first semicolon and without the blanks around
    it, reads [application/json] in any mix of upper and lower case.
    The parameters after the semicolon ([charset=utf-8], say) play no
    part. *)
Theorem json_content_type :
  forall (hs : dict str) (bd : list Byte.byte) (ws1 T ws2 rest : str),
    dict_get (lit "content-type") hs = Some (ws1 ++ T ++ ws2 ++ rest) ->
    forallb isspace ws1 = true ->
    forallb isspace ws2 = true ->
    lower T = lit "application/json" ->
    rest = [] \/ (exists params, rest = 59 :: params) ->
    content_type (mk_request hs bd) = lit "application/json".
Proof.
  intros hs bd ws1 T ws2 rest Hh H1 H2 HT Hrest.
  pose proof (json_media_type_chars T HT) as Hchars.
  assert (Hsemi : ~ In 59 (ws1 ++ T ++ ws2)).
  { rewrite !in_app_iff. intros [H|[H|H]].
    - exact (blanks_no_semicolon ws1 H1 H).
    - now apply (Hchars 59 H).
    - exact (blanks_no_semicolon ws2 H2 H). }
  assert (Hsplit : split_head 59 (ws1 ++ T ++ ws2 ++ rest) = ws1 ++ T ++ ws2).
  { destruct Hrest as [-> | [params ->]].
    - rewrite app_nil_r. now apply split_head_no_sep.
    - replace (ws1 ++ T ++ ws2 ++ 59 :: params)
        with ((ws1 ++ T ++ ws2) ++ 59 :: params) by now rewrite <- !app_assoc.
      now apply split_head_app. }
  assert (Hstrip : strip (ws1 ++ T ++ ws2) = T).
  { unfold strip. rewrite (lstrip_blanks ws1 _ H1).
    assert (Hl : lstrip (T ++ ws2) = T ++ ws2).
    { apply lstrip_fixed. intros c r E.
      destruct T as [|t T']; [discriminate HT|].
      simpl in E. injection E as <- _. apply (Hchars t). now left. }
    rewrite Hl, (rstrip_blanks T ws2 H2).
    apply rstrip_fixed. intros init c E. apply (Hchars c).
    rewrite E. apply in_or_app. right. now left. }
  unfold content_type, headers_get. simpl headers.
  now rewrite Hh, Hsplit, Hstrip.
Qed.

(** ** The session, the lines and the startup on samples *)

(** X1 on the sample session, with a writable destination and with a
    full disk that takes three characters of every append. *)
Lemma session_log_witness :
  log_text (snd (serve Demo.session Demo.empty_log))
  = unlines (session_lines Demo.session)
  /\ length (session_lines Demo.session) = 3%nat
  /\ stderr (snd (serve Demo.session Demo.full_disk))
     = repeat (write_failure (lit "[Errno 28] No space left on device")) 3.
Proof.
  destruct (session_log Demo.session Demo.empty_log) as (_ & Hok & _).
  destruct (session_log Demo.session Demo.full_disk) as (_ & _ & Hfail).
  split; [exact (proj1 (Hok eq_refl))|]. split; [reflexivity|].
  exact (proj2 (Hfail _ _ eq_refl)).
Defined.

(** X3 on a text line. *)
Lemma ingest_accepts_iff_witness :
  fst (post_ingest (text_request (lit "hello")) Demo.empty_log)
  = Returned accepted.
Proof.
  apply (proj1 (ingest_accepts_iff (text_request (lit "hello")) Demo.empty_log)).
  right. split; [vm_compute; discriminate | vm_compute; discriminate].
Defined.


(** X5 on an event that brings a [ts] between two other keys. *)
Lemma logged_object_shape_witness :
  dict_update [(lit "ts", JStr (lit "2024-03-05T12:00:07Z"))] Demo.event
  = [(lit "ts", JStr (lit "mine")); (lit "port", JNum (lit "8080"));
     (lit "proto", JStr (lit "tcp"))].
Proof.
  exact (logged_object_shape (JStr (lit "2024-03-05T12:00:07Z")) Demo.event eq_refl).
Defined.

(** X6 and X7 on a port event. *)
Lemma json_line_text_witness :
  let request := Demo.post (lit "application/json") (json_dumps (JObj Demo.plain_event)) in
  log_text (snd (post_ingest request Demo.empty_log))
  = lit "{" ++ [quote] ++ lit "ts" ++ [quote] ++ lit ":" ++ [quote]
    ++ lit "2024-03-05T12:00:07Z" ++ [quote] ++ lit ","
    ++ List.tl (json_dumps (JObj Demo.plain_event)) ++ [newline].
Proof.
  intro request.
  assert (Hct : content_type request = lit "application/json")
    by (vm_compute; reflexivity).
  assert (Hj : json_loads_bytes (body request) = Some (JObj Demo.plain_event))
    by (vm_compute; reflexivity).
  rewrite (json_line_text request Demo.empty_log Demo.plain_event Hct Hj
             eq_refl eq_refl).
  vm_compute. reflexivity.
Defined.


(** X8 on two posts of one event, with content types written in two
    ways. *)
Lemma json_line_stands_for_one_object_witness :
  let request1 := Demo.post (lit "application/json")
                             (json_dumps (JObj Demo.plain_event)) in
  let request2 := Demo.post (lit "Application/Json; charset=utf-8")
                             (json_dumps (JObj Demo.plain_event)) in
  log_text (snd (post_ingest request1 Demo.empty_log))
  = log_text (snd (post_ingest request2 Demo.empty_log))
  /\ Demo.plain_event = Demo.plain_event
  /\ timestamp Demo.empty_log = timestamp Demo.empty_log.
Proof.
  intros request1 request2.
  assert (Hsame : log_text (snd (post_ingest request1 Demo.empty_log))
                  = log_text (snd (post_ingest request2 Demo.empty_log)))
    by (vm_compute; reflexivity).
  split; [exact Hsame|].
  assert (Hct1 : content_type request1 = lit "application/json")
    by (vm_compute; reflexivity).
  assert (Hct2 : content_type request2 = lit "application/json")
    by (vm_compute; reflexivity).
  assert (Hj1 : json_loads_bytes (body request1) = Some (JObj Demo.plain_event))
    by (vm_compute; reflexivity).
  assert (Hj2 : json_loads_bytes (body request2) = Some (JObj Demo.plain_event))
    by (vm_compute; reflexivity).
  exact (proj2 (json_line_stands_for_one_object request1 request2
                  Demo.empty_log Demo.empty_log Demo.plain_event Demo.plain_event
                  Hct1 Hct2 Hj1 Hj2 eq_refl eq_refl eq_refl eq_refl eq_refl Hsame)
               eq_refl eq_refl).
Defined.

(** X9 and X10 on the two sample instants. *)
Lemma timestamp_read_back_witness :
  read_timestamp (lit "2024-03-05T12:00:07.000250Z") = Demo.after_noon
  /\ length (lit "2024-03-05T12:00:07Z") = 20%nat.
Proof.
  split.
  - exact (proj1 (timestamp_read_back (set_clock Demo.after_noon Demo.empty_log)
                    eq_refl)).
  - exact (proj1 (proj2 (timestamp_read_back Demo.empty_log eq_refl))).
Defined.

Lemma timestamp_order_at_full_second_witness :
  str_ltb (lit "2024-03-05T12:00:07.000250Z") (lit "2024-03-05T12:00:07Z") = true.
Proof.
  exact (timestamp_order_at_full_second Demo.after_noon ltac:(discriminate)).
Defined.

(** X11 on a body with blanks around two words. *)
Lemma payload_is_trimmed_witness :
  payload (text_request (lit "  port 22  ")) = lit "port 22"
  /\ strip (lit "port 22") = lit "port 22".
Proof.
  split; [reflexivity|].
  exact (proj1 (payload_is_trimmed (text_request (lit "  port 22  ")))).
Defined.

(** X13 and X14 on a body without a content type. *)
Lemma ingest_text_same_as_logline_witness :
  snd (post_ingest (text_request (lit "hello")) Demo.empty_log)
  = snd (post_logline (bare_request (lit "hello")) Demo.empty_log).
Proof.
  exact (proj1 (ingest_text_same_as_logline (text_request (lit "hello"))
                  Demo.empty_log [] ltac:(vm_compute; discriminate)
                  ltac:(vm_compute; discriminate))).
Defined.

Lemma ingest_without_content_type_witness :
  let request := bare_request (json_dumps (JObj Demo.plain_event)) in
  log_text (snd (post_ingest request Demo.empty_log))
  = lit "2024-03-05T12:00:07Z " ++ json_dumps (JObj Demo.plain_event) ++ [newline].
Proof.
  intro request.
  destruct (ingest_without_content_type request Demo.empty_log eq_refl)
    as (_ & _ & H).
  rewrite (H ltac:(vm_compute; discriminate)).
  vm_compute. reflexivity.
Defined.

(** X15 and X16 on the default path, with a file system that refuses. *)
Lemma ensure_log_dir_never_raises_witness :
  @ensure_log_dir Demo.read_only (LOG_FILE []) Demo.empty_log
  = (Returned tt,
     mk_world Demo.noon [] None
       [mkdir_failure (lit "[Errno 30] Read-only file system: '/logs'")]).
Proof.
  destruct (@ensure_log_dir_never_raises Demo.read_only ascii_library
              (LOG_FILE []) Demo.empty_log) as (Hret & _ & Hfail & _).
  specialize (Hfail _ _ eq_refl).
  destruct (@ensure_log_dir Demo.read_only (LOG_FILE []) Demo.empty_log) as [o w'].
  simpl in Hret, Hfail. now subst.
Defined.

Lemma ensure_log_dir_makes_the_parent_witness :
  parent (parse_path (LOG_FILE [])) = mk_path (lit "/") [lit "logs"].
Proof.
  assert (H : Forall (fun x => kept_component x = true /\ ~ In 47 x)
                ([lit "logs"] ++ [lit "portwatcher.log"])).
  { repeat constructor; simpl; intuition discriminate. }
  exact (proj1 (@ensure_log_dir_makes_the_parent Demo.obliging (lit "/")
                  [lit "logs"] (lit "portwatcher.log") Demo.empty_log H
                  (or_intror eq_refl))).
Defined.

(** X17 on a header with blanks, capitals and a parameter. *)
Lemma json_content_type_witness :
  content_type (mk_request [(lit "content-type",
                             lit " Application/JSON ; charset=utf-8")] [])
  = lit "application/json".
Proof.
  exact (json_content_type
           [(lit "content-type", lit " Application/JSON ; charset=utf-8")] []
           (lit " ") (lit "Application/JSON") (lit " ") (lit "; charset=utf-8")
           eq_refl eq_refl eq_refl eq_refl
           (or_intror (ex_intro _ (lit " charset=utf-8") eq_refl))).
Defined.
